(** * Video analyzer pipeline (video_analyzer.py): model and verified properties

    The program is a sequential script that talks to a PostgreSQL database,
    to two external processes (yt-dlp, ffmpeg), to a remote inference
    service and to the local file system.  It is embedded here as a
    state-and-exception monad over an explicit [World]; everything the
    outside answers is read from an [Externals] record of reply tapes, so a
    theorem quantified over the tapes covers every run. *)

From Stdlib Require Import ZArith List String Ascii Bool Lia.
From Stdlib Require Import Floats.SpecFloat.
From stdpp Require Import base decidable option list gmap sets pretty.
From Equations Require Import Equations.
Import ListNotations.

Local Open Scope Z_scope.

(** ** Python strings *)

(** A Python [str] is a sequence of code points. *)
Abbreviation pystr := (list N).

(** A [pathlib.Path] is kept as its sequence of components. *)
Abbreviation path := (list (list N)).

Definition lit (s : string) : pystr :=
  List.map N_of_ascii (list_ascii_of_string s).

Arguments lit : simpl never.

(** [s[:n]] *)
Definition str_prefix (n : nat) (s : pystr) : pystr := firstn n s.

Arguments str_prefix : simpl never.

Fixpoint starts_with (p s : pystr) : bool :=
  match p, s with
  | [], _ => true
  | _ :: _, [] => false
  | a :: p', b :: s' => N.eqb a b && starts_with p' s'
  end.

(** [s.replace(old, new)] for a non-empty [old]: occurrences are found left
    to right and do not overlap.  [skip] counts the characters of the
    current occurrence that are still to be dropped. *)
Fixpoint replace_from (old new s : pystr) (skip : nat) : pystr :=
  match s with
  | [] => []
  | c :: rest =>
      match skip with
      | S k => replace_from old new rest k
      | O =>
          if starts_with old s
          then new ++ replace_from old new rest (Nat.pred (List.length old))
          else c :: replace_from old new rest O
      end
  end.

Definition str_replace (old new s : pystr) : pystr := replace_from old new s O.

(** [str.isspace] on one code point: the characters [str.strip()] removes. *)
Definition py_isspace (c : N) : bool :=
  ((9 <=? c) && (c <=? 13) || (28 <=? c) && (c <=? 32)
   || (c =? 133) || (c =? 160) || (c =? 5760)
   || (8192 <=? c) && (c <=? 8202)
   || (c =? 8232) || (c =? 8233) || (c =? 8239) || (c =? 8287)
   || (c =? 12288))%N.

Fixpoint lstrip (s : pystr) : pystr :=
  match s with
  | c :: rest => if py_isspace c then lstrip rest else s
  | [] => []
  end.

Definition str_strip (s : pystr) : pystr := rev (lstrip (rev (lstrip s))).

(** [str(n)] for an int. *)
Definition str_of_Z (z : Z) : pystr :=
  lit (pretty z).

Definition zeros (n : nat) : pystr := repeat 48%N n.

(** [format(z, "05d")]: sign first, then zeros up to a total width of 5. *)
Definition format_05d (z : Z) : pystr :=
  if z <? 0
  then let d := str_of_Z (- z) in
       45%N :: zeros (4 - List.length d) ++ d
  else let d := str_of_Z z in
       zeros (5 - List.length d) ++ d.

(** ** Python values, as [json.loads] builds them *)

#[warnings="-register-all"] Inductive json :=
| JNull
| JBool (b : bool)
| JInt (z : Z)
| JFloat (f : spec_float)
| JStr (s : pystr)
| JList (l : list json)
| JDict (d : list (pystr * json)).

(** A [dict] in insertion order. *)
Abbreviation pydict := (list (pystr * json)).

Definition str_eqb (a b : pystr) : bool := bool_decide (a = b).

(** [d.get(k, default)] *)
Fixpoint dict_get (d : pydict) (k : pystr) (default : json) : json :=
  match d with
  | [] => default
  | (k', v) :: rest => if str_eqb k' k then v else dict_get rest k default
  end.

(** [d[k] = v]: an existing key keeps its position. *)
Fixpoint dict_set (d : pydict) (k : pystr) (v : json) : pydict :=
  match d with
  | [] => [(k, v)]
  | (k', v') :: rest =>
      if str_eqb k' k then (k, v) :: rest else (k', v') :: dict_set rest k v
  end.

(** Truth value of an object. *)
Definition py_truthy (v : json) : bool :=
  match v with
  | JNull => false
  | JBool b => b
  | JInt z => negb (z =? 0)
  | JFloat (S754_zero _) => false
  | JFloat _ => true
  | JStr s => negb (bool_decide (s = []))
  | JList l => negb (Nat.eqb (List.length l) 0)
  | JDict d => negb (Nat.eqb (List.length d) 0)
  end.

(** [len(v)]; [None] where Python raises [TypeError]. *)
Definition py_len (v : json) : option nat :=
  match v with
  | JStr s => Some (List.length s)
  | JList l => Some (List.length l)
  | JDict d => Some (List.length d)
  | _ => None
  end.

(** The items a [for] loop over [v] visits; [None] where [v] is not
    iterable ([TypeError]). *)
Definition py_iter (v : json) : option (list json) :=
  match v with
  | JList l => Some l
  | JDict d => Some (List.map (fun kv => JStr (fst kv)) d)
  | JStr s => Some (List.map (fun c => JStr [c]) s)
  | _ => None
  end.

(** The receiver of [.get]: only a [dict] has the method
    ([AttributeError] otherwise). *)
Definition as_dict (v : json) : option pydict :=
  match v with
  | JDict d => Some d
  | _ => None
  end.

(** The operand of the format code [d]: an [int] (or [bool]); anything else
    makes the f-string raise. *)
Definition as_int (v : json) : option Z :=
  match v with
  | JInt z => Some z
  | JBool b => Some (Z.b2z b)
  | _ => None
  end.

(** ** Exceptions and outcomes *)

(** State of an uploaded file at the inference service. *)
Inductive FileState := PROCESSING | ACTIVE | FAILED | STATE_UNSPECIFIED.

(** Every exception below derives from [Exception]. *)
Inductive exn :=
| ValueError (msg : pystr)
| TypeError
| AttributeError
| DatabaseError
| RateLimitTimeout (max_wait : Z)
| DownloadFailed
| ProcessingFailed (st : FileState)
| ServiceError
| RecursionError.

(** [Diverged] is a loop that never ends. *)
Inductive Outcome (A : Type) :=
| Returned (a : A)
| Raised (e : exn)
| Diverged.
Arguments Returned {A} a.
Arguments Raised {A} e.
Arguments Diverged {A}.

(** What [json.loads] does with a text: it gives the value of a JSON
    document, raises [JSONDecodeError] with a message on a text that is no
    document, or raises something else: the parser gives up on a text
    nested too deep with [RecursionError] and on an integer literal longer
    than the interpreter allows with a plain [ValueError], neither of which
    is a [JSONDecodeError]. *)
Inductive LoadsResult :=
| Parsed (v : json)
| DecodeError (msg : pystr)
| NestedTooDeep
| DigitsLimit (msg : pystr).

(** ** The database *)

(** A column holds the Python value handed to the driver, except the keys
    and the status fields the program itself reads or compares. *)
Record video_row := {
  v_id : Z;
  v_source_id : Z;
  v_external_id : pystr;
  v_url : pystr;
  v_title : pystr;
  v_description : option pystr;
  v_published_at : option Z;
  v_analysis_status : pystr;
  v_frames_status : pystr;
  v_updated_at : option Z
}.

Record source_row := { s_id : Z; s_creator_id : Z; s_platform : pystr }.

Record creator_row := { c_id : Z; c_name : pystr }.

Record analysis_row := {
  a_id : Z;
  a_video_id : Z;
  a_summary : json;
  a_summary_pt : json;
  a_difficulty_level : json;
  a_key_topics : json;
  a_techniques_shown : json;
  a_models_mentioned : json;
  a_custom_nodes_mentioned : json;
  a_prerequisites : json;
  a_raw_response : pystr;
  a_model_used : json;
  a_tokens_used : json;
  a_updated_at : option Z
}.

Record moment_row := {
  m_video_id : Z;
  m_timestamp_seconds : Z;
  m_timestamp_formatted : json;
  m_moment_type : json;
  m_description : json;
  m_nodes_visible : json;
  m_importance_score : json;
  m_frame_path : option pystr
}.

(** [rate_limit_units] has one entry per unit of quota consumed. *)
Record Database := {
  videos : list video_row;
  sources : list source_row;
  creators : list creator_row;
  video_analysis : list analysis_row;
  video_moments : list moment_row;
  video_analysis_id_seq : Z;
  rate_limit_units : list pystr
}.

(** ** What the outside answers *)

(** Reply of [SELECT check_and_increment_rate_limit(%s)]. *)
Inductive CheckReply := Granted | Denied | NoRow | CheckFailed.

(** How [subprocess.run] ends. *)
Inductive RunReply := Exited (returncode : Z) | TimedOut | RunError.

(** One call of the inference service, from upload to generated text.
    [None] is a call that raises; [generate_ok] is false where
    [generate_content] raises.  Whether [delete_file] fails is not recorded,
    the program ignores it. *)
Record GeminiSession := {
  upload_state : option FileState;
  poll_states : list FileState;
  generate_ok : bool;
  response_text : option pystr;
  total_token_count : option Z
}.

(** Configuration and everything the outside decides.  [GEMINI_API_KEY] and
    [DATA_DIR] are read from the environment at import.  [json_loads] is
    [json.loads], with every way it can end, and [json_dumps] gives the
    text of a value.  [pg_int] is the store's conversion of a parameter
    to an integer column ([None]: the statement is refused), and
    [updated_at_default] the default of [video_analysis.updated_at] on
    insert: the table declarations are not part of the sources.  The other
    fields are tapes indexed by the number of the external call:
    [execute_fault] tells that the store refuses the statement, [db_now] is
    [NOW()], [now_iso] is [datetime.now().isoformat()], [rate_reply] the
    answer of the quota check, [ytdlp_reply] and [ffmpeg_reply] how the
    process ended and whether it wrote its output file, [gemini_reply] the
    answers of the inference service. *)
Record Externals := {
  GEMINI_API_KEY : option pystr;
  DATA_DIR : path;
  json_loads : pystr -> LoadsResult;
  json_dumps : json -> pystr;
  pg_int : json -> option Z;
  updated_at_default : Z -> option Z;
  execute_fault : nat -> bool;
  db_now : nat -> Z;
  now_iso : nat -> pystr;
  rate_reply : nat -> CheckReply;
  ytdlp_reply : nat -> RunReply * bool;
  ffmpeg_reply : nat -> RunReply * bool;
  gemini_reply : nat -> GeminiSession
}.

(** ** Observable actions *)

(** Every [print] of the program. *)
Inductive Msg :=
| MsgRateLimited (waited : Z)
| MsgRateOk
| MsgDownloading (url : pystr)
| MsgYtDlpError
| MsgDownloadTimeout
| MsgDownloadException
| MsgFrameException
| MsgFrameOk (ts : Z)
| MsgFrameFail (ts : Z)
| MsgUploading
| MsgAwaiting
| MsgProcessed
| MsgJsonError (e : pystr)
| MsgRawResponse (head : pystr)
| MsgSaved (analysis_id : Z) (n : nat)
| MsgProcessing (title creator : pystr)
| MsgUsingDownloaded
| MsgStartAnalysis
| MsgAnalysisDone (summary_len n_moments : nat) (techniques difficulty : json)
| MsgExtracting (n : nat)
| MsgFramesDone (n : nat)
| MsgVideoRemoved
| MsgCompleted (analysis_id : Z)
| MsgFound (n : nat)
| MsgItem (i n : nat) (title : pystr)
| MsgError (e : exn)
| MsgPause.

Inductive Event :=
| EvPrint (m : Msg)
| EvSleep (seconds : Z)
| EvRateCheck (api : pystr) (r : CheckReply)
| EvYtDlp (url : pystr) (out : path) (max_height : Z)
| EvFfmpeg (video : path) (ts : Z) (out : path)
| EvUpload (video : path)
| EvGetFile
| EvGenerate (title description : pystr)
| EvDeleteFile
| EvMkdir (dir : path)
| EvUnlink (file : path).

(** ** The world and the monad *)

(** [db] is the state the current connection sees; [files] are the regular
    files that exist; [events] is the history, latest first; [ticks] counts
    the external calls made so far. *)
Record World := {
  db : Database;
  files : gset path;
  events : list Event;
  ticks : nat
}.

Definition M (A : Type) : Type := World -> Outcome A * World.

Definition ret {A} (a : A) : M A := fun w => (Returned a, w).

Definition raise {A} (e : exn) : M A := fun w => (Raised e, w).

Definition diverge {A} : M A := fun w => (Diverged, w).

Definition bind {A B} (c : M A) (k : A -> M B) : M B := fun w =>
  match c w with
  | (Returned a, w') => k a w'
  | (Raised e, w') => (Raised e, w')
  | (Diverged, w') => (Diverged, w')
  end.

Notation "x <- c ;; k" := (bind c (fun x => k))
  (at level 100, c at next level, right associativity).
Notation "c ;; k" := (bind c (fun _ => k))
  (at level 100, right associativity).

(** [try: c  except Exception as e: h e] *)
Definition try_except {A} (c : M A) (h : exn -> M A) : M A := fun w =>
  match c w with
  | (Raised e, w') => h e w'
  | r => r
  end.

(** A value Python may refuse to produce. *)
Definition or_raise {A} (o : option A) (e : exn) : M A :=
  match o with
  | Some a => ret a
  | None => raise e
  end.

Fixpoint for_each {A} (l : list A) (body : A -> M unit) : M unit :=
  match l with
  | [] => ret tt
  | x :: rest => body x ;; for_each rest body
  end.

Definition set_db (d : Database) (w : World) : World :=
  {| db := d; files := files w; events := events w; ticks := ticks w |}.

Definition set_files (f : gset path) (w : World) : World :=
  {| db := db w; files := f; events := events w; ticks := ticks w |}.

Definition emit (e : Event) : M unit := fun w =>
  (Returned tt,
   {| db := db w; files := files w; events := e :: events w; ticks := ticks w |}).

(** The number of the next external call. *)
Definition tick : M nat := fun w =>
  (Returned (ticks w),
   {| db := db w; files := files w; events := events w; ticks := S (ticks w) |}).

Definition print (m : Msg) : M unit := emit (EvPrint m).

(** [time.sleep(n)] *)
Definition sleep (n : Z) : M unit := emit (EvSleep n).

Definition get_db : M Database := fun w => (Returned (db w), w).

Definition modify_db (f : Database -> Database) : M unit := fun w =>
  (Returned tt, set_db (f (db w)) w).

(** [p.exists()] *)
Definition path_exists (p : path) : M bool := fun w =>
  (Returned (bool_decide (p ∈ files w)), w).

(** [p.mkdir(parents=True, exist_ok=True)]: no regular file changes. *)
Definition mkdir (p : path) : M unit := emit (EvMkdir p).

(** [p.unlink()] *)
Definition unlink (p : path) : M unit :=
  emit (EvUnlink p) ;; (fun w => (Returned tt, set_files (files w ∖ {[p]}) w)).

(** An external process that may have written its output file. *)
Definition write_output (written : bool) (p : path) : M unit := fun w =>
  (Returned tt, if written then set_files ({[p]} ∪ files w) w else w).

(** ** SQL statements, as functions on the database *)

Definition set_video_analysis (l : list analysis_row) (d : Database) : Database :=
  {| videos := videos d; sources := sources d; creators := creators d;
     video_analysis := l; video_moments := video_moments d;
     video_analysis_id_seq := video_analysis_id_seq d;
     rate_limit_units := rate_limit_units d |}.

Definition set_video_moments (l : list moment_row) (d : Database) : Database :=
  {| videos := videos d; sources := sources d; creators := creators d;
     video_analysis := video_analysis d; video_moments := l;
     video_analysis_id_seq := video_analysis_id_seq d;
     rate_limit_units := rate_limit_units d |}.

Definition set_videos (l : list video_row) (d : Database) : Database :=
  {| videos := l; sources := sources d; creators := creators d;
     video_analysis := video_analysis d; video_moments := video_moments d;
     video_analysis_id_seq := video_analysis_id_seq d;
     rate_limit_units := rate_limit_units d |}.

(** [nextval] of the sequence behind [video_analysis.id]. *)
Definition bump_seq (d : Database) : Database :=
  {| videos := videos d; sources := sources d; creators := creators d;
     video_analysis := video_analysis d; video_moments := video_moments d;
     video_analysis_id_seq := video_analysis_id_seq d + 1;
     rate_limit_units := rate_limit_units d |}.

(** Modelled from the spec: the stored procedure
    [check_and_increment_rate_limit] is not part of the sources.  A granted
    check consumes one unit of quota of the named resource; a denied one
    consumes nothing.  Whether a check is granted is the store's decision. *)
Definition consume_unit (api_name : pystr) (d : Database) : Database :=
  {| videos := videos d; sources := sources d; creators := creators d;
     video_analysis := video_analysis d; video_moments := video_moments d;
     video_analysis_id_seq := video_analysis_id_seq d;
     rate_limit_units := api_name :: rate_limit_units d |}.

(** Units of quota of [api_name] consumed so far. *)
Definition units_used (api_name : pystr) (d : Database) : nat :=
  List.length (List.filter (fun a => str_eqb a api_name) (rate_limit_units d)).

(** [ROLLBACK]: the tables go back to where the transaction began; a
    sequence does not. *)
Definition rollback (snapshot working : Database) : Database :=
  {| videos := videos snapshot; sources := sources snapshot;
     creators := creators snapshot;
     video_analysis := video_analysis snapshot;
     video_moments := video_moments snapshot;
     video_analysis_id_seq := video_analysis_id_seq working;
     rate_limit_units := rate_limit_units snapshot |}.

(** The [DO UPDATE SET] list of the upsert: seven columns take the values of
    the proposed row [e] ([EXCLUDED]), the others stay. *)
Definition conflict_update (e : analysis_row) (now : Z) (r : analysis_row)
  : analysis_row :=
  {| a_id := a_id r;
     a_video_id := a_video_id r;
     a_summary := a_summary e;
     a_summary_pt := a_summary_pt e;
     a_difficulty_level := a_difficulty_level e;
     a_key_topics := a_key_topics e;
     a_techniques_shown := a_techniques_shown e;
     a_models_mentioned := a_models_mentioned r;
     a_custom_nodes_mentioned := a_custom_nodes_mentioned r;
     a_prerequisites := a_prerequisites r;
     a_raw_response := a_raw_response e;
     a_model_used := a_model_used r;
     a_tokens_used := a_tokens_used r;
     a_updated_at := Some now |}.

Definition with_id (new_id : Z) (e : analysis_row) : analysis_row :=
  {| a_id := new_id;
     a_video_id := a_video_id e;
     a_summary := a_summary e;
     a_summary_pt := a_summary_pt e;
     a_difficulty_level := a_difficulty_level e;
     a_key_topics := a_key_topics e;
     a_techniques_shown := a_techniques_shown e;
     a_models_mentioned := a_models_mentioned e;
     a_custom_nodes_mentioned := a_custom_nodes_mentioned e;
     a_prerequisites := a_prerequisites e;
     a_raw_response := a_raw_response e;
     a_model_used := a_model_used e;
     a_tokens_used := a_tokens_used e;
     a_updated_at := a_updated_at e |}.

Definition same_video (video_id : Z) (r : analysis_row) : bool :=
  a_video_id r =? video_id.

(** [INSERT INTO video_analysis ... ON CONFLICT (video_id) DO UPDATE SET ...
    RETURNING id].  The conflict target is the unique [video_id]. *)
Definition upsert_analysis (e : analysis_row) (now : Z) (d : Database)
  : Z * Database :=
  let d1 := bump_seq d in
  match List.find (same_video (a_video_id e)) (video_analysis d) with
  | Some old =>
      (a_id old,
       set_video_analysis
         (List.map (fun r => if same_video (a_video_id e) r
                             then conflict_update e now r else r)
                   (video_analysis d)) d1)
  | None =>
      let new_id := video_analysis_id_seq d1 in
      (new_id,
       set_video_analysis (video_analysis d ++ [with_id new_id e]) d1)
  end.

Definition same_moment (video_id ts : Z) (r : moment_row) : bool :=
  (m_video_id r =? video_id) && (m_timestamp_seconds r =? ts).

(** Modelled from the spec: the table declaration is not part of the
    sources; [video_moments] is unique on (video id, timestamp), the
    constraint [ON CONFLICT DO NOTHING] answers to.

    [INSERT INTO video_moments ... ON CONFLICT DO NOTHING] *)
Definition insert_moment (r : moment_row) (d : Database) : Database :=
  if existsb (same_moment (m_video_id r) (m_timestamp_seconds r))
             (video_moments d)
  then d
  else set_video_moments (video_moments d ++ [r]) d.

Definition mark_analysis_completed (now : Z) (v : video_row) : video_row :=
  {| v_id := v_id v; v_source_id := v_source_id v;
     v_external_id := v_external_id v; v_url := v_url v;
     v_title := v_title v; v_description := v_description v;
     v_published_at := v_published_at v;
     v_analysis_status := lit "completed";
     v_frames_status := v_frames_status v;
     v_updated_at := Some now |}.

(** [UPDATE videos SET analysis_status = 'completed', updated_at = NOW()
    WHERE id = %s] *)
Definition update_analysis_status (video_id now : Z) (d : Database) : Database :=
  set_videos
    (List.map (fun v => if v_id v =? video_id
                        then mark_analysis_completed now v else v)
              (videos d)) d.

Definition mark_frames_completed (v : video_row) : video_row :=
  {| v_id := v_id v; v_source_id := v_source_id v;
     v_external_id := v_external_id v; v_url := v_url v;
     v_title := v_title v; v_description := v_description v;
     v_published_at := v_published_at v;
     v_analysis_status := v_analysis_status v;
     v_frames_status := lit "completed";
     v_updated_at := v_updated_at v |}.

(** [UPDATE videos SET frames_status = 'completed' WHERE id = %s] *)
Definition update_frames_status (video_id : Z) (d : Database) : Database :=
  set_videos
    (List.map (fun v => if v_id v =? video_id
                        then mark_frames_completed v else v)
              (videos d)) d.

Definition with_frame_path (p : pystr) (r : moment_row) : moment_row :=
  {| m_video_id := m_video_id r;
     m_timestamp_seconds := m_timestamp_seconds r;
     m_timestamp_formatted := m_timestamp_formatted r;
     m_moment_type := m_moment_type r;
     m_description := m_description r;
     m_nodes_visible := m_nodes_visible r;
     m_importance_score := m_importance_score r;
     m_frame_path := Some p |}.

(** [UPDATE video_moments SET frame_path = %s
    WHERE video_id = %s AND timestamp_seconds = %s] *)
Definition update_frame_path (p : pystr) (video_id ts : Z) (d : Database)
  : Database :=
  set_video_moments
    (List.map (fun r => if same_moment video_id ts r
                        then with_frame_path p r else r)
              (video_moments d)) d.

(** A row of [videos v JOIN sources s ... JOIN creators c ...]. *)
Record joined_video := {
  video : video_row;
  platform : pystr;
  creator_name : pystr
}.

Definition join_video (d : Database) (v : video_row) : list joined_video :=
  flat_map (fun s =>
    if s_id s =? v_source_id v
    then flat_map (fun c =>
           if c_id c =? s_creator_id s
           then [{| video := v; platform := s_platform s;
                    creator_name := c_name c |}]
           else []) (creators d)
    else []) (sources d).

(** The first row of the joined [SELECT ... WHERE cond], as [fetchone]
    gives it. *)
Definition select_video (cond : video_row -> bool) (d : Database)
  : option joined_video :=
  List.head (flat_map (join_video d) (List.filter cond (videos d))).

(** [a] sorts strictly before [b] under [ORDER BY published_at DESC]
    (NULLs first). *)
Definition published_after (a b : video_row) : bool :=
  match v_published_at a, v_published_at b with
  | None, None => false
  | None, Some _ => true
  | Some _, None => false
  | Some x, Some y => y <? x
  end.

Fixpoint insert_by_date (v : video_row) (l : list video_row) : list video_row :=
  match l with
  | [] => [v]
  | x :: rest =>
      if published_after x v then x :: insert_by_date v rest else v :: l
  end.

Definition order_by_published_desc (l : list video_row) : list video_row :=
  fold_right insert_by_date [] l.

(** [SELECT ... FROM videos v WHERE v.analysis_status = 'pending'
    [AND v.source_id = %s] ORDER BY v.published_at DESC LIMIT %s];
    [None] where the store refuses a negative [LIMIT]. *)
Definition select_pending (source_filter : option Z) (limit : Z) (d : Database)
  : option (list video_row) :=
  if limit <? 0 then None
  else
    let pending :=
      List.filter (fun v =>
        str_eqb (v_analysis_status v) (lit "pending")
        && match source_filter with
           | Some sid => v_source_id v =? sid
           | None => true
           end) (videos d) in
    Some (firstn (Z.to_nat limit) (order_by_published_desc pending)).

(** ** The program *)

(** [str(p)] for a path. *)
Definition path_str (p : path) : pystr :=
  match p with
  | [] => lit "."
  | c :: rest => fold_left (fun acc x => acc ++ 47%N :: x) rest c
  end.

(** [f"frame_{ts:05d}s.jpg"] *)
Definition frame_name (ts : Z) : pystr :=
  lit "frame_" ++ format_05d ts ++ lit "s.jpg".

(** [results[ts] = frame_path] *)
Fixpoint results_set (results : list (Z * path)) (ts : Z) (p : path)
  : list (Z * path) :=
  match results with
  | [] => [(ts, p)]
  | (k, v) :: rest =>
      if k =? ts then (k, p) :: rest else (k, v) :: results_set rest ts p
  end.

(** The exception of [f"{v:05d}"] for a [v] that is no integer. *)
Definition format_error (v : json) : exn :=
  match v with
  | JFloat _ | JStr _ => ValueError (lit "Unknown format code 'd'")
  | _ => TypeError
  end.

Definition is_id_char (c : N) : bool :=
  ((97 <=? c) && (c <=? 122) || (65 <=? c) && (c <=? 90)
   || (48 <=? c) && (c <=? 57) || (c =? 95) || (c =? 45))%N.

Definition take_id (s : pystr) : option pystr :=
  let cand := firstn 11 s in
  if Nat.eqb (List.length cand) 11 && forallb is_id_char cand
  then Some cand else None.

(** The pattern [(?:v=|youtu\.be/)([a-zA-Z0-9_-]{11})] matched at the head
    of [s]; the result is group 1. *)
Definition match_here (s : pystr) : option pystr :=
  if starts_with (lit "v=") s then take_id (skipn 2 s)
  else if starts_with (lit "youtu.be/") s then take_id (skipn 9 s)
  else None.

(** [re.search]: the leftmost position where the pattern matches. *)
Fixpoint search_video_id (s : pystr) : option pystr :=
  match match_here s with
  | Some g => Some g
  | None =>
      match s with
      | [] => None
      | _ :: rest => search_video_id rest
      end
  end.

Fixpoint map_m {A B} (f : A -> M B) (l : list A) : M (list B) :=
  match l with
  | [] => ret []
  | x :: rest => y <- f x ;; ys <- map_m f rest ;; ret (y :: ys)
  end.

Section Program.

Variable X : Externals.

Definition FRAMES_DIR : path := DATA_DIR X ++ [lit "frames"].
Definition VIDEOS_DIR : path := DATA_DIR X ++ [lit "videos"].

(** [with DatabaseConnection() as conn: body]: [__exit__] rolls back when
    the body raised and commits otherwise.  [body] receives the value of
    [NOW()], the start of the transaction. *)
Definition with_connection {A} (body : Z -> M A) : M A := fun w =>
  let snapshot := db w in
  match body (db_now X (ticks w)) w with
  | (Raised e, w') => (Raised e, set_db (rollback snapshot (db w')) w')
  | r => r
  end.

(** [cur.execute(stmt)]: the store may refuse any statement. *)
Definition execute (stmt : Database -> Database) : M unit :=
  n <- tick ;;
  if execute_fault X n then raise DatabaseError else modify_db stmt.

Definition execute_returning {A} (stmt : Database -> A * Database) : M A :=
  n <- tick ;;
  if execute_fault X n then raise DatabaseError
  else fun w =>
         (Returned (fst (stmt (db w))), set_db (snd (stmt (db w))) w).

Definition execute_query {A} (q : Database -> A) : M A :=
  n <- tick ;;
  if execute_fault X n then raise DatabaseError
  else d <- get_db ;; ret (q d).

Definition check_rate_limit (api_name : pystr) : M bool :=
  with_connection (fun _ =>
    n <- tick ;;
    let r := rate_reply X n in
    emit (EvRateCheck api_name r) ;;
    match r with
    | CheckFailed => raise DatabaseError
    | Granted => modify_db (consume_unit api_name) ;; ret true
    | Denied => ret false
    | NoRow => ret false
    end).

Equations? wait_loop (api_name : pystr) (max_wait waited : Z) : M unit
  by wf (Z.to_nat (max_wait - waited)) lt :=
  wait_loop api_name max_wait waited :=
    granted <- check_rate_limit api_name ;;
    if granted then print MsgRateOk
    else
      match Z_le_dec max_wait waited with
      | left _ => raise (RateLimitTimeout max_wait)
      | right _ =>
          print (MsgRateLimited waited) ;;
          sleep 10 ;;
          wait_loop api_name max_wait (waited + 10)
      end.
Proof. lia. Qed.

Definition wait_for_rate_limit (api_name : pystr) (max_wait : Z) : M unit :=
  wait_loop api_name max_wait 0.

Definition download_video (video_url : pystr) (output_path : path)
    (max_height : Z) : M bool :=
  print (MsgDownloading video_url) ;;
  n <- tick ;;
  emit (EvYtDlp video_url output_path max_height) ;;
  write_output (snd (ytdlp_reply X n)) output_path ;;
  match fst (ytdlp_reply X n) with
  | Exited returncode =>
      if negb (returncode =? 0) then print MsgYtDlpError ;; ret false
      else path_exists output_path
  | TimedOut => print MsgDownloadTimeout ;; ret false
  | RunError => print MsgDownloadException ;; ret false
  end.

Definition extract_frame (video_path : path) (timestamp_seconds : Z)
    (output_path : path) : M bool :=
  n <- tick ;;
  emit (EvFfmpeg video_path timestamp_seconds output_path) ;;
  write_output (snd (ffmpeg_reply X n)) output_path ;;
  match fst (ffmpeg_reply X n) with
  | Exited _ => path_exists output_path
  | TimedOut | RunError => print MsgFrameException ;; ret false
  end.

Fixpoint extract_loop (video_path : path) (output_dir : path)
    (timestamps : list json) (results : list (Z * path))
  : M (list (Z * path)) :=
  match timestamps with
  | [] => ret results
  | v :: rest =>
      ts <- or_raise (as_int v) (format_error v) ;;
      let frame_path := output_dir ++ [frame_name ts] in
      ok <- extract_frame video_path ts frame_path ;;
      if ok then
        print (MsgFrameOk ts) ;;
        extract_loop video_path output_dir rest (results_set results ts frame_path)
      else
        print (MsgFrameFail ts) ;;
        extract_loop video_path output_dir rest results
  end.

Definition extract_frames_batch (video_path : path) (timestamps : list json)
    (output_dir : path) : M (list (Z * path)) :=
  mkdir output_dir ;;
  extract_loop video_path output_dir timestamps [].

(** [while video_file.state.name == "PROCESSING": sleep(5); get_file(...)];
    a service whose answers run out while still processing never ends the
    loop. *)
Fixpoint await_processing (st : FileState) (answers : list FileState)
  : M FileState :=
  match st with
  | PROCESSING =>
      match answers with
      | [] => diverge
      | st' :: rest => sleep 5 ;; emit EvGetFile ;; await_processing st' rest
      end
  | _ => ret st
  end.

Definition key_present (k : option pystr) : bool :=
  match k with
  | Some (_ :: _) => true
  | _ => false
  end.

Definition not_available : pystr :=
  lit "N" ++ [227%N] ++ lit "o dispon" ++ [237%N] ++ lit "vel".

Definition model_name : pystr := lit "gemini-1.5-flash".

(** The result built when the response does not parse. *)
Definition degraded (text e : pystr) : pydict :=
  [(lit "summary", JStr (str_prefix 1000 text));
   (lit "error", JStr e);
   (lit "raw_response", JStr text)].

Definition metadata (analyzed_at : pystr) (tokens : option Z) : json :=
  JDict [(lit "model", JStr model_name);
         (lit "analyzed_at", JStr analyzed_at);
         (lit "tokens_used", JInt (match tokens with Some t => t | None => 0 end))].

(** [text.replace("```json", "").replace("```", "").strip()] *)
Definition clean_response (text : pystr) : pystr :=
  str_strip (str_replace (lit "```") [] (str_replace (lit "```json") [] text)).

(** The part of [analyze_video_with_gemini] from [text = response.text]
    on. *)
Definition parse_response (s : GeminiSession) : M pydict :=
  raw <- or_raise (response_text s) (ValueError (lit "response.text")) ;;
  let text := clean_response raw in
  analysis <-
    match json_loads X text with
    | Parsed v => ret v
    | DecodeError e =>
        print (MsgJsonError e) ;;
        print (MsgRawResponse (str_prefix 500 text)) ;;
        ret (JDict (degraded text e))
    | NestedTooDeep => raise RecursionError
    | DigitsLimit msg => raise (ValueError msg)
    end ;;
  n <- tick ;;
  match analysis with
  | JDict d =>
      ret (dict_set d (lit "_metadata")
             (metadata (now_iso X n) (total_token_count s)))
  | _ => raise TypeError
  end.

Definition analyze_video_with_gemini (video_path : path) (title : pystr)
    (description : option pystr) : M pydict :=
  if negb (key_present (GEMINI_API_KEY X))
  then raise (ValueError (lit "GEMINI_API_KEY"))
  else
    n <- tick ;;
    let s := gemini_reply X n in
    print MsgUploading ;;
    emit (EvUpload video_path) ;;
    st0 <- or_raise (upload_state s) ServiceError ;;
    print MsgAwaiting ;;
    st <- await_processing st0 (poll_states s) ;;
    match st with
    | ACTIVE =>
        print MsgProcessed ;;
        emit (EvGenerate title
                (match description with
                 | Some (c :: d) => str_prefix 3000 (c :: d)
                 | _ => not_available
                 end)) ;;
        (if generate_ok s then ret tt else raise ServiceError) ;;
        emit EvDeleteFile ;;
        parse_response s
    | _ => raise (ProcessingFailed st)
    end.

(** [v.get(k, default)] on a value that must be a [dict]. *)
Definition get_of (v : json) (k : pystr) (default : json) : M json :=
  d <- or_raise (as_dict v) AttributeError ;;
  ret (dict_get d k default).

(** The row proposed by the [INSERT] of [save_analysis_to_db]. *)
Definition proposed_row (video_id : Z) (analysis : pydict)
    (model_used tokens_used : json) (now : Z) : analysis_row :=
  {| a_id := 0;
     a_video_id := video_id;
     a_summary := dict_get analysis (lit "summary") (JStr []);
     a_summary_pt := dict_get analysis (lit "summary_pt") (JStr []);
     a_difficulty_level :=
       dict_get analysis (lit "difficulty") (JStr (lit "intermediate"));
     a_key_topics := dict_get analysis (lit "key_topics") (JList []);
     a_techniques_shown := dict_get analysis (lit "techniques") (JList []);
     a_models_mentioned := dict_get analysis (lit "models_mentioned") (JList []);
     a_custom_nodes_mentioned :=
       dict_get analysis (lit "custom_nodes_mentioned") (JList []);
     a_prerequisites := dict_get analysis (lit "prerequisites") (JList []);
     a_raw_response := json_dumps X (JDict analysis);
     a_model_used := model_used;
     a_tokens_used := tokens_used;
     a_updated_at := updated_at_default X now |}.

(** The row proposed by the [INSERT] of one key moment. *)
Definition moment_of (video_id ts : Z) (moment : pydict) : moment_row :=
  {| m_video_id := video_id;
     m_timestamp_seconds := ts;
     m_timestamp_formatted :=
       dict_get moment (lit "timestamp_formatted") (JStr (lit "00:00"));
     m_moment_type := dict_get moment (lit "type") (JStr (lit "other"));
     m_description := dict_get moment (lit "description") (JStr []);
     m_nodes_visible := dict_get moment (lit "nodes_visible") (JList []);
     m_importance_score := dict_get moment (lit "importance") (JInt 5);
     m_frame_path := None |}.

Definition save_moment (video_id : Z) (item : json) : M unit :=
  moment <- or_raise (as_dict item) AttributeError ;;
  n <- tick ;;
  if execute_fault X n then raise DatabaseError
  else
    ts <- or_raise (pg_int X (dict_get moment (lit "timestamp_seconds") (JInt 0)))
                   DatabaseError ;;
    modify_db (insert_moment (moment_of video_id ts moment)).

Definition key_moments (analysis : pydict) : json :=
  dict_get analysis (lit "key_moments") (JList []).

(** The body of the [with] block of [save_analysis_to_db]. *)
Definition save_transaction (video_id : Z) (analysis : pydict) (now : Z) : M Z :=
  model_used <- get_of (dict_get analysis (lit "_metadata") (JDict []))
                       (lit "model") (JStr model_name) ;;
  tokens_used <- get_of (dict_get analysis (lit "_metadata") (JDict []))
                        (lit "tokens_used") (JInt 0) ;;
  analysis_id <- execute_returning
    (upsert_analysis (proposed_row video_id analysis model_used tokens_used now) now) ;;
  items <- or_raise (py_iter (key_moments analysis)) TypeError ;;
  for_each items (save_moment video_id) ;;
  execute (update_analysis_status video_id now) ;;
  n <- or_raise (py_len (key_moments analysis)) TypeError ;;
  print (MsgSaved analysis_id n) ;;
  ret analysis_id.

Definition save_analysis_to_db (video_id : Z) (analysis : pydict) : M Z :=
  with_connection (save_transaction video_id analysis).

Definition id_given (video_id : option Z) : bool :=
  match video_id with
  | Some z => negb (z =? 0)
  | None => false
  end.

Definition url_given (video_url : option pystr) : bool :=
  match video_url with
  | Some (_ :: _) => true
  | _ => false
  end.

(** The first block of [process_video]: find the video row. *)
Definition lookup_video (video_id : option Z) (video_url : option pystr)
  : M joined_video :=
  with_connection (fun _ =>
    found <-
      (if id_given video_id then
         execute_query
           (select_video (fun v => bool_decide (Some (v_id v) = video_id)))
       else if url_given video_url then
         match search_video_id (default [] video_url) with
         | None => raise (ValueError (lit "URL"))
         | Some external_id =>
             execute_query
               (select_video (fun v => str_eqb (v_external_id v) external_id))
         end
       else raise (ValueError (lit "video_id ou video_url"))) ;;
    or_raise found (ValueError (lit "not found"))).

(** The body of the second [with] block of [process_video]. *)
Definition frame_paths_transaction (video_id : Z) (extracted : list (Z * path))
  : M unit :=
  for_each extracted (fun item =>
    execute (update_frame_path (path_str (snd item)) video_id (fst item))) ;;
  execute (update_frames_status video_id).

Definition save_frame_paths (video_id : Z) (extracted : list (Z * path))
  : M unit :=
  with_connection (fun _ => frame_paths_transaction video_id extracted).

Definition timestamp_of (m : json) : M json :=
  get_of m (lit "timestamp_seconds") (JInt 0).

(** Stage 4 of [process_video]. *)
Definition extract_stage (video_id : Z) (video_path : path) (moments : json)
  : M unit :=
  if py_truthy moments then
    n <- or_raise (py_len moments) TypeError ;;
    print (MsgExtracting n) ;;
    items <- or_raise (py_iter moments) TypeError ;;
    timestamps <- map_m timestamp_of items ;;
    extracted <- extract_frames_batch video_path timestamps
                   (FRAMES_DIR ++ [str_of_Z video_id]) ;;
    save_frame_paths video_id extracted ;;
    print (MsgFramesDone (List.length extracted))
  else ret tt.

(** Stage 1 of [process_video]. *)
Definition download_stage (url : pystr) (video_path : path)
    (skip_download : bool) : M unit :=
  present <- path_exists video_path ;;
  if negb skip_download || negb present then
    wait_for_rate_limit (lit "youtube_data") 120 ;;
    ok <- download_video url video_path 720 ;;
    if ok then ret tt else raise DownloadFailed
  else print MsgUsingDownloaded.

(** Stage 5 of [process_video]. *)
Definition cleanup_stage (video_path : path) : M unit :=
  present <- path_exists video_path ;;
  if present then unlink video_path ;; print MsgVideoRemoved else ret tt.

Definition video_file (video_id : Z) : path :=
  VIDEOS_DIR ++ [str_of_Z video_id] ++ [lit "video.mp4"].

(** Stages 2 to 5 of [process_video]: analysis, save, frames, cleanup. *)
Definition analyze_and_finish (v : video_row) (video_path : path) : M pydict :=
  print MsgStartAnalysis ;;
  wait_for_rate_limit (lit "gemini_flash") 120 ;;
  analysis <- analyze_video_with_gemini video_path (v_title v) (v_description v) ;;
  summary_len <- or_raise (py_len (dict_get analysis (lit "summary") (JStr [])))
                          TypeError ;;
  n_moments <- or_raise (py_len (key_moments analysis)) TypeError ;;
  print (MsgAnalysisDone summary_len n_moments
           (dict_get analysis (lit "techniques") (JList []))
           (dict_get analysis (lit "difficulty") (JStr (lit "N/A")))) ;;
  analysis_id <- save_analysis_to_db (v_id v) analysis ;;
  extract_stage (v_id v) video_path (key_moments analysis) ;;
  cleanup_stage video_path ;;
  print (MsgCompleted analysis_id) ;;
  ret analysis.

Definition process_video (video_id : option Z) (video_url : option pystr)
    (skip_download : bool) : M pydict :=
  jv <- lookup_video video_id video_url ;;
  let v := video jv in
  print (MsgProcessing (v_title v) (creator_name jv)) ;;
  mkdir (VIDEOS_DIR ++ [str_of_Z (v_id v)]) ;;
  let video_path := video_file (v_id v) in
  download_stage (v_url v) video_path skip_download ;;
  analyze_and_finish v video_path.

(** One turn of [for i, video in enumerate(videos, 1)]; [continue] in the
    handler skips the rest of the body. *)
Definition batch_item (i n : nat) (v : video_row) : M unit :=
  print (MsgItem i n (str_prefix 50 (v_title v))) ;;
  done <- try_except
            (process_video (Some (v_id v)) None false ;; ret true)
            (fun e => print (MsgError e) ;; ret false) ;;
  if done then
    if (i <? n)%nat then print MsgPause ;; sleep 5 else ret tt
  else ret tt.

Fixpoint batch_loop (vs : list video_row) (i n : nat) : M unit :=
  match vs with
  | [] => ret tt
  | v :: rest => batch_item i n v ;; batch_loop rest (S i) n
  end.

Definition source_given (source_id : option Z) : option Z :=
  match source_id with
  | Some z => if z =? 0 then None else Some z
  | None => None
  end.

Definition process_batch (limit : Z) (source_id : option Z) : M unit :=
  vs <- with_connection (fun _ =>
          rows <- execute_query (select_pending (source_given source_id) limit) ;;
          or_raise rows DatabaseError) ;;
  print (MsgFound (List.length vs)) ;;
  batch_loop vs 1 (List.length vs).

End Program.

(** ** A concrete installation, used to run the model *)

Module Scenario.

Definition good_text : pystr := lit "{moments}".

Definition moment (ts : Z) : json :=
  JDict [(lit "timestamp_seconds", JInt ts)].

Definition good_analysis : json :=
  JDict [(lit "summary", JStr (lit "s"));
         (lit "key_moments", JList [moment 10; moment 80])].

(** Two thousand opening brackets: no JSON document, and nested deeper
    than the parser goes. *)
Definition deep_text : pystr := repeat 91%N 2000.

(** A parser that knows one document; as CPython's does, it gives up on
    [deep_text] with [RecursionError], not with [JSONDecodeError]. *)
Definition loads (t : pystr) : LoadsResult :=
  if str_eqb t good_text then Parsed good_analysis
  else if str_eqb t deep_text then NestedTooDeep
  else DecodeError (lit "Expecting value").

Definition session_of (text : pystr) : GeminiSession :=
  {| upload_state := Some PROCESSING;
     poll_states := [PROCESSING; ACTIVE];
     generate_ok := true;
     response_text := Some text;
     total_token_count := None |}.

Definition session (text : string) : GeminiSession := session_of (lit text).

Definition installation_of (text : pystr) (rate : nat -> CheckReply)
    (dl ff : nat -> RunReply * bool) : Externals :=
  {| GEMINI_API_KEY := Some (lit "k");
     DATA_DIR := [lit "data"];
     json_loads := loads;
     json_dumps := fun _ => lit "dump";
     pg_int := as_int;
     updated_at_default := fun _ => None;
     execute_fault := fun _ => false;
     db_now := fun n => Z.of_nat n;
     now_iso := fun _ => lit "2024-01-01T00:00:00";
     rate_reply := rate;
     ytdlp_reply := dl;
     ffmpeg_reply := ff;
     gemini_reply := fun _ => session_of text |}.

Definition installation (text : string) : (nat -> CheckReply) ->
    (nat -> RunReply * bool) -> (nat -> RunReply * bool) -> Externals :=
  installation_of (lit text).

(** Everything answers well, and the response is the known document inside a
    code fence. *)
Definition X0 : Externals :=
  installation "```json{moments}``` " (fun _ => Granted)
    (fun _ => (Exited 0, true)) (fun _ => (Exited 0, true)).

(** The same, with a response that is no JSON. *)
Definition X_prose : Externals :=
  installation "```Sorry, I cannot watch this.``` " (fun _ => Granted)
    (fun _ => (Exited 0, true)) (fun _ => (Exited 0, true)).

(** The same, with a response nested too deep for the parser. *)
Definition X_deep : Externals :=
  installation_of deep_text (fun _ => Granted)
    (fun _ => (Exited 0, true)) (fun _ => (Exited 0, true)).

Definition a_video (id : Z) (published : Z) : video_row :=
  {| v_id := id; v_source_id := 1; v_external_id := lit "abcdefghijk";
     v_url := lit "https://youtu.be/abcdefghijk"; v_title := lit "title";
     v_description := None; v_published_at := Some published;
     v_analysis_status := lit "pending"; v_frames_status := lit "pending";
     v_updated_at := None |}.

Definition d0 : Database :=
  {| videos := [a_video 42 3];
     sources := [{| s_id := 1; s_creator_id := 7; s_platform := lit "youtube" |}];
     creators := [{| c_id := 7; c_name := lit "creator" |}];
     video_analysis := [];
     video_moments := [];
     video_analysis_id_seq := 0;
     rate_limit_units := [] |}.

Definition w0 : World := {| db := d0; files := ∅; events := []; ticks := 0 |}.

(** Two analyses of video 42, as [analyze_video_with_gemini] returns them. *)
Definition analysis_of (summary model : string) (tokens : Z)
    (moments : list json) : pydict :=
  [(lit "summary", JStr (lit summary));
   (lit "models_mentioned", JList [JStr (lit model)]);
   (lit "key_moments", JList moments);
   (lit "_metadata",
    JDict [(lit "model", JStr (lit "gemini-1.5-flash"));
           (lit "tokens_used", JInt tokens)])].

Definition first_analysis : pydict :=
  analysis_of "first" "SDXL" 7 [moment 10; moment 80].

Definition second_analysis : pydict :=
  analysis_of "second" "Flux" 9 [moment 10; moment 10].

(** A re-run: ffmpeg writes the first two frames and fails on the third,
    whose image is still there from an earlier run. *)
Definition X_stale : Externals :=
  installation "```json{moments}``` " (fun _ => Granted)
    (fun _ => (Exited 0, true))
    (fun n => if (n <? 2)%nat then (Exited 0, true) else (Exited 1, false)).

Definition frames_42 : path := [lit "data"; lit "frames"; lit "42"].

Definition video_42 : path := [lit "data"; lit "videos"; lit "42"; lit "video.mp4"].

Definition w_stale : World :=
  {| db := d0;
     files := {[ frames_42 ++ [lit "frame_99999s.jpg"] ]};
     events := [];
     ticks := 0 |}.

(** Three pending videos, the newest first.  Call number 18 is the download
    of the second one. *)
Definition d3 : Database :=
  {| videos := [a_video 1 30; a_video 2 20; a_video 3 10];
     sources := sources d0;
     creators := creators d0;
     video_analysis := [];
     video_moments := [];
     video_analysis_id_seq := 0;
     rate_limit_units := [] |}.

Definition w3 : World := {| db := d3; files := ∅; events := []; ticks := 0 |}.

Definition X_job2 : Externals :=
  installation "```json{moments}``` " (fun _ => Granted)
    (fun n => if (n =? 18)%nat then (Exited 1, false) else (Exited 0, true))
    (fun _ => (Exited 0, true)).

(** The video file of video 42 is already there. *)
Definition w_present : World :=
  {| db := d0; files := {[ video_42 ]}; events := []; ticks := 0 |}.

(** Every second run of ffmpeg fails. *)
Definition X_partial : Externals :=
  installation "```json{moments}``` " (fun _ => Granted)
    (fun _ => (Exited 0, true))
    (fun n => if Nat.even n then (Exited 0, true) else (Exited 1, false)).

(** What a run returned, and the world it left. *)
Definition returned_of (r : Outcome pydict * World) : pydict :=
  match fst r with
  | Returned a => a
  | _ => []
  end.

End Scenario.

(** ** Vocabulary of the properties *)

(** The state the polling loop ends in; [None] where it never ends. *)
Fixpoint settle (st : FileState) (answers : list FileState) : option FileState :=
  match st with
  | PROCESSING =>
      match answers with
      | [] => None
      | st' :: rest => settle st' rest
      end
  | _ => Some st
  end.

Definition degraded_result (X : Externals) (text e : pystr) (s : GeminiSession)
    (n : nat) : pydict :=
  degraded text e
  ++ [(lit "_metadata", metadata (now_iso X n) (total_token_count s))].

(** The world after one check with the given reply. *)
Definition after_check (api : pystr) (r : CheckReply) (w : World) : World :=
  {| db := db w; files := files w;
     events := EvRateCheck api r :: events w; ticks := S (ticks w) |}.

(** What [k] denied checks starting at [waited] leave in the history, in
    the order it happens: check, message, sleep. *)
Fixpoint denied_trace (api : pystr) (k : nat) (waited : Z) : list Event :=
  match k with
  | O => []
  | S k' =>
      [EvRateCheck api Denied; EvPrint (MsgRateLimited waited); EvSleep 10]
      ++ denied_trace api k' (waited + 10)
  end.

Definition is_check (e : Event) : bool :=
  match e with
  | EvRateCheck _ _ => true
  | _ => false
  end.

Definition is_sleep (e : Event) : bool :=
  match e with
  | EvSleep _ => true
  | _ => false
  end.

(** The number of sleeps before the wait gives up: [max_wait / 10], rounded
    up. *)
Definition rounds (max_wait : Z) : nat := Z.to_nat ((max_wait + 9) / 10).


(** [c], run from [w], ends with an outcome and in a world that satisfy
    [Q]. *)
Definition sat {A} (c : M A) (w : World) (Q : Outcome A -> World -> Prop)
  : Prop :=
  Q (fst (c w)) (snd (c w)).

(** [r] is the row the [INSERT] of the key moment [item] proposes. *)
Definition moment_inserted (X : Externals) (video_id : Z) (item : json)
    (r : moment_row) : Prop :=
  exists moment ts,
    as_dict item = Some moment
    /\ pg_int X (dict_get moment (lit "timestamp_seconds") (JInt 0)) = Some ts
    /\ r = moment_of video_id ts moment.

(** The moment inserts of one save, in order. *)
Definition insert_moments (rows : list moment_row) (d : Database) : Database :=
  fold_left (fun d r => insert_moment r d) rows d.

(** The three tables [save_analysis_to_db] writes are the same in [d] and
    [d']. *)
Definition same_tables (d d' : Database) : Prop :=
  videos d' = videos d
  /\ video_analysis d' = video_analysis d
  /\ video_moments d' = video_moments d.

(** At most one analysis row per video id. *)
Definition analysis_unique (d : Database) : Prop :=
  NoDup (List.map a_video_id (video_analysis d)).

Definition moment_key (r : moment_row) : Z * Z :=
  (m_video_id r, m_timestamp_seconds r).

(** No two moment rows with the same (video id, timestamp). *)
Definition moments_unique (d : Database) : Prop :=
  NoDup (List.map moment_key (video_moments d)).

(** The analysis rows of one video. *)
Definition analysis_rows (video_id : Z) (d : Database) : list analysis_row :=
  List.filter (same_video video_id) (video_analysis d).

(** The world once one more external call is counted. *)
Definition ticked (w : World) : World :=
  {| db := db w; files := files w; events := events w; ticks := S (ticks w) |}.

(** The world once [e] has happened. *)
Definition emitted (e : Event) (w : World) : World :=
  {| db := db w; files := files w; events := e :: events w; ticks := ticks w |}.

(** [INSERT ... ON CONFLICT DO NOTHING] on the rows of the table. *)
Definition insert_row (r : moment_row) (l : list moment_row) : list moment_row :=
  if existsb (same_moment (m_video_id r) (m_timestamp_seconds r)) l
  then l else l ++ [r].

(** The table has a moment of this video at this timestamp. *)
Definition has_moment (video_id ts : Z) (l : list moment_row) : Prop :=
  existsb (same_moment video_id ts) l = true.

(** The row the upsert leaves for the video of the proposed row [e]. *)
Definition upserted_row (e : analysis_row) (now : Z) (d : Database)
  : analysis_row :=
  match List.find (same_video (a_video_id e)) (video_analysis d) with
  | Some old => conflict_update e now old
  | None => with_id (video_analysis_id_seq d + 1) e
  end.

(** [output_dir / f"frame_{ts:05d}s.jpg"] *)
Definition frame_path (output_dir : path) (ts : Z) : path :=
  output_dir ++ [frame_name ts].

(** The files after the ffmpeg call number [n] with output [p]. *)
Definition ffmpeg_files (X : Externals) (n : nat) (p : path) (fs : gset path)
  : gset path :=
  if snd (ffmpeg_reply X n) then {[p]} ∪ fs else fs.

(** The files after the ffmpeg calls for [tss], the first being number
    [n]. *)
Fixpoint ffmpeg_runs (X : Externals) (output_dir : path) (tss : list Z)
    (n : nat) (fs : gset path) : gset path :=
  match tss with
  | [] => fs
  | ts :: rest =>
      ffmpeg_runs X output_dir rest (S n)
        (ffmpeg_files X n (frame_path output_dir ts) fs)
  end.

(** The ffmpeg call number [n] ended by itself and its output path [p]
    exists afterwards, [fs] being the files before the call. *)
Definition frame_extracted (X : Externals) (n : nat) (p : path)
    (fs : gset path) : bool :=
  match fst (ffmpeg_reply X n) with
  | Exited _ => bool_decide (p ∈ ffmpeg_files X n p fs)
  | _ => false
  end.

(** Some call for [ts] succeeded in the batch [tss] started at call [n]
    with files [fs]. *)
Definition extracted_in (X : Externals) (output_dir : path) (tss : list Z)
    (n : nat) (fs : gset path) (ts : Z) : Prop :=
  exists pre post,
    tss = pre ++ ts :: post
    /\ frame_extracted X (n + List.length pre) (frame_path output_dir ts)
         (ffmpeg_runs X output_dir pre n fs) = true.

(** Some ffmpeg call for [ts] wrote its output file, in the batch [tss]
    started at call [n]. *)
Definition produced_in (X : Externals) (tss : list Z) (n : nat) (ts : Z)
  : Prop :=
  exists pre post,
    tss = pre ++ ts :: post
    /\ snd (ffmpeg_reply X (n + List.length pre)) = true.

(** The history in the order it happened. *)
Definition history (w : World) : list Event := rev (events w).

(** The announcement of an item of the batch other than the first. *)
Definition is_later_item (e : Event) : bool :=
  match e with
  | EvPrint (MsgItem i _ _) => (1 <? i)%nat
  | _ => false
  end.

Definition is_pause_message (e : Event) : bool :=
  match e with
  | EvPrint MsgPause => true
  | _ => false
  end.

Definition is_pause_sleep (e : Event) : bool :=
  match e with
  | EvSleep 5 => true
  | _ => false
  end.

(** [prev2] and [prev1] are the two events before [trace]: every item of
    the batch after the first is announced right after the pause, that is
    its message and then the sleep of 5 seconds. *)
Fixpoint paused_scan (prev2 prev1 : option Event) (trace : list Event) : bool :=
  match trace with
  | [] => true
  | e :: rest =>
      (if is_later_item e
       then match prev2, prev1 with
            | Some a, Some b => is_pause_message a && is_pause_sleep b
            | _, _ => false
            end
       else true)
      && paused_scan prev1 (Some e) rest
  end.

Definition pauses_between_items (trace : list Event) : bool :=
  paused_scan None None trace.

(** The world in which item [i] of [n] has been announced. *)
Definition announced (i n : nat) (v : video_row) (w : World) : World :=
  emitted (EvPrint (MsgItem i n (str_prefix 50 (v_title v)))) w.

(** The pause between two items: the message, then the sleep. *)
Definition paused (w : World) : World :=
  emitted (EvSleep 5) (emitted (EvPrint MsgPause) w).

(** [c] takes every world to one related to it by [R], however it ends. *)
Definition preserves (R : World -> World -> Prop) {A} (c : M A) : Prop :=
  forall w, R w (snd (c w)).

(** A relation between the world before and after that composes along a
    run and survives the rollback of a transaction. *)
Class Frame (R : World -> World -> Prop) : Prop := {
  frame_refl : forall w, R w w;
  frame_trans : forall w1 w2 w3, R w1 w2 -> R w2 w3 -> R w1 w3;
  frame_rollback :
    forall w w', R w w' -> R w (set_db (rollback (db w) (db w')) w')
}.

(** The regular files are the same. *)
Definition same_files (w w' : World) : Prop := files w' = files w.

(** The five tables are the same; the quota and the sequence may differ. *)
Definition tables_kept (w w' : World) : Prop :=
  videos (db w') = videos (db w)
  /\ sources (db w') = sources (db w)
  /\ creators (db w') = creators (db w)
  /\ video_analysis (db w') = video_analysis (db w)
  /\ video_moments (db w') = video_moments (db w).

(** What happened from [w] to [w'] are events that satisfy [P] only. *)
Definition emits (P : Event -> bool) (w w' : World) : Prop :=
  exists new, events w' = new ++ events w /\ forallb P new = true.

(** An event that is no part of the download stage: no run of the
    downloader and no check of the quota of the download resource. *)
Definition not_download (e : Event) : bool :=
  match e with
  | EvYtDlp _ _ _ => false
  | EvRateCheck api _ => negb (str_eqb api (lit "youtube_data"))
  | _ => true
  end.

(** An event that is no run of ffmpeg. *)
Definition not_ffmpeg (e : Event) : bool :=
  match e with
  | EvFfmpeg _ _ _ => false
  | _ => true
  end.

(** The quota of [api] consumed is the same. *)
Definition units_kept (api : pystr) (w w' : World) : Prop :=
  units_used api (db w') = units_used api (db w).

(** Whatever [c] does, it first checks the quota of the download
    resource. *)
Definition checks_download_first {A} (c : M A) : Prop :=
  forall w, exists new r,
    events (snd (c w)) = new ++ EvRateCheck (lit "youtube_data") r :: events w.

(** The frame-path updates of one run, in order. *)
Definition set_frame_paths (video_id : Z) (extracted : list (Z * path))
    (d : Database) : Database :=
  fold_left
    (fun d item => update_frame_path (path_str (snd item)) video_id (fst item) d)
    extracted d.

(** What those updates do to one row. *)
Definition set_frame_path_of (video_id : Z) (extracted : list (Z * path))
    (r : moment_row) : moment_row :=
  fold_left
    (fun r item => if same_moment video_id (fst item) r
                   then with_frame_path (path_str (snd item)) r else r)
    extracted r.

(** Where the store takes a Python integer for an integer column, it
    stores that integer. *)
Definition pg_agrees (X : Externals) : Prop :=
  forall v z z', as_int v = Some z -> pg_int X v = Some z' -> z' = z.

(** What the conflict path of the upsert of [e] does to one row. *)
Definition on_conflict_row (e : analysis_row) (now : Z) (r : analysis_row)
  : analysis_row :=
  if same_video (a_video_id e) r then conflict_update e now r else r.

(** The timestamps [process_video] hands to the batch: one per key moment,
    its ['timestamp_seconds'], 0 where it has none. *)
Definition timestamps_of (items timestamps : list json) : Prop :=
  Forall2 (fun item t =>
             exists moment,
               as_dict item = Some moment
               /\ t = dict_get moment (lit "timestamp_seconds") (JInt 0))
          items timestamps.

(** The run of [process_video] from [w], stage after stage up to the save:
    the lookup finds [jv], the download stage, the wait for the quota and
    the analysis return, and the save of [analysis] returns [analysis_id]
    and ends in [w_s]. *)
Definition saved_in (X : Externals) (video_id : option Z)
    (video_url : option pystr) (skip_download : bool) (w : World)
    (jv : joined_video) (analysis : pydict) (analysis_id : Z) (w_s : World)
  : Prop :=
  exists w1 w_d w_r w_g n_summary n_moments,
    lookup_video X video_id video_url w = (Returned jv, w1)
    /\ download_stage X (v_url (video jv))
         (video_file X (v_id (video jv))) skip_download
         (emitted (EvMkdir (VIDEOS_DIR X ++ [str_of_Z (v_id (video jv))]))
            (emitted (EvPrint (MsgProcessing (v_title (video jv))
                                 (creator_name jv))) w1))
       = (Returned tt, w_d)
    /\ wait_for_rate_limit X (lit "gemini_flash") 120
         (emitted (EvPrint MsgStartAnalysis) w_d)
       = (Returned tt, w_r)
    /\ analyze_video_with_gemini X (video_file X (v_id (video jv)))
         (v_title (video jv)) (v_description (video jv)) w_r
       = (Returned analysis, w_g)
    /\ py_len (dict_get analysis (lit "summary") (JStr [])) = Some n_summary
    /\ py_len (key_moments analysis) = Some n_moments
    /\ save_analysis_to_db X (v_id (video jv)) analysis
         (emitted (EvPrint (MsgAnalysisDone n_summary n_moments
                              (dict_get analysis (lit "techniques") (JList []))
                              (dict_get analysis (lit "difficulty")
                                 (JStr (lit "N/A"))))) w_g)
       = (Returned analysis_id, w_s).

(** The frame stage of that run, from [w_s]: the batch, called for the
    timestamps of the key moments of [analysis], returns the mapping
    [extracted] in [w_x], and the transaction that records it ends in
    [w_f]. *)
Definition frames_in (X : Externals) (jv : joined_video) (analysis : pydict)
    (w_s : World) (extracted : list (Z * path)) (w_x w_f : World) : Prop :=
  exists items timestamps n,
    py_iter (key_moments analysis) = Some items
    /\ timestamps_of items timestamps
    /\ py_len (key_moments analysis) = Some n
    /\ extract_frames_batch X (video_file X (v_id (video jv))) timestamps
         (FRAMES_DIR X ++ [str_of_Z (v_id (video jv))])
         (emitted (EvPrint (MsgExtracting n)) w_s)
       = (Returned extracted, w_x)
    /\ save_frame_paths X (v_id (video jv)) extracted w_x = (Returned tt, w_f).

(** ** Vocabulary of the further properties *)

(** The statements the program sends to the store that write. *)
Inductive program_statement : (Database -> Database) -> Prop :=
| st_consume api : program_statement (consume_unit api)
| st_upsert e now : program_statement (fun d => snd (upsert_analysis e now d))
| st_insert_moment r : program_statement (insert_moment r)
| st_analysis_status video_id now :
    program_statement (update_analysis_status video_id now)
| st_frame_path p video_id ts :
    program_statement (update_frame_path p video_id ts)
| st_frames_status video_id : program_statement (update_frames_status video_id).

(** [R] holds across every elementary step of the program: an event, the
    count of an external call, a statement that writes, a file written by
    an external process, the removal of a file. *)
Record Respected (R : World -> World -> Prop) : Prop := {
  respected_emit : forall e w, R w (emitted e w);
  respected_tick : forall w, R w (ticked w);
  respected_statement :
    forall f w, program_statement f -> R w (set_db (f (db w)) w);
  respected_write : forall p w, R w (set_files ({[p]} ∪ files w) w);
  respected_unlink : forall p w, R w (set_files (files w ∖ {[p]}) w)
}.

(** A row of [videos] after some steps of the program: the same video, its
    two status fields either as they were or ['completed']. *)
Definition video_step (v v' : video_row) : Prop :=
  v_id v' = v_id v
  /\ v_source_id v' = v_source_id v
  /\ v_external_id v' = v_external_id v
  /\ v_url v' = v_url v
  /\ v_title v' = v_title v
  /\ v_description v' = v_description v
  /\ v_published_at v' = v_published_at v
  /\ (v_analysis_status v' = v_analysis_status v
      \/ v_analysis_status v' = lit "completed")
  /\ (v_frames_status v' = v_frames_status v
      \/ v_frames_status v' = lit "completed").

(** Row by row, [videos] went through [video_step]. *)
Definition videos_step (w w' : World) : Prop :=
  Forall2 video_step (videos (db w)) (videos (db w')).

(** No row of [video_analysis] or [video_moments] was removed or had its
    key changed, rows were added at the end only, and [sources] and
    [creators] are the same. *)
Definition rows_kept (w w' : World) : Prop :=
  sources (db w') = sources (db w)
  /\ creators (db w') = creators (db w)
  /\ List.map a_video_id (video_analysis (db w))
     `prefix_of` List.map a_video_id (video_analysis (db w'))
  /\ List.map moment_key (video_moments (db w))
     `prefix_of` List.map moment_key (video_moments (db w')).

(** The database is the same. *)
Definition same_db (w w' : World) : Prop := db w' = db w.

(** No regular file was removed. *)
Definition files_kept (w w' : World) : Prop := files w ⊆ files w'.

(** How a wait for the quota of [api] that began in [w] may end: with one
    unit consumed when it returns, and with the database as it was when it
    raises, which it does for the timeout or for a failure of the store. *)
Definition wait_outcome (api : pystr) (max_wait : Z) (w : World)
    (r : Outcome unit) (w' : World) : Prop :=
  files w' = files w
  /\ match r with
     | Returned _ => db w' = consume_unit api (db w)
     | Raised e =>
         (e = RateLimitTimeout max_wait \/ e = DatabaseError) /\ db w' = db w
     | Diverged => False
     end.

(** An event that is neither the generation request nor the removal of the
    uploaded file. *)
Definition before_generate (e : Event) : bool :=
  match e with
  | EvGenerate _ _ | EvDeleteFile => false
  | _ => true
  end.

(** An event of the conversation with the inference service: a message, a
    pause, or a call of the service. *)
Definition service_only (e : Event) : bool :=
  match e with
  | EvPrint _ | EvSleep _ | EvUpload _ | EvGetFile | EvGenerate _ _
  | EvDeleteFile => true
  | _ => false
  end.

(** The outcome of the polling loop. *)
Definition settled (st : FileState) (answers : list FileState)
  : Outcome FileState :=
  match settle st answers with
  | Some st' => Returned st'
  | None => Diverged
  end.

(** Installations that differ from a given one in what the inference
    service and the JSON parser answer. *)
Module Cases.

Definition with_session (s : GeminiSession) (X : Externals) : Externals :=
  {| GEMINI_API_KEY := GEMINI_API_KEY X;
     DATA_DIR := DATA_DIR X;
     json_loads := json_loads X;
     json_dumps := json_dumps X;
     pg_int := pg_int X;
     updated_at_default := updated_at_default X;
     execute_fault := execute_fault X;
     db_now := db_now X;
     now_iso := now_iso X;
     rate_reply := rate_reply X;
     ytdlp_reply := ytdlp_reply X;
     ffmpeg_reply := ffmpeg_reply X;
     gemini_reply := fun _ => s |}.

Definition with_loads (loads : pystr -> LoadsResult) (X : Externals)
  : Externals :=
  {| GEMINI_API_KEY := GEMINI_API_KEY X;
     DATA_DIR := DATA_DIR X;
     json_loads := loads;
     json_dumps := json_dumps X;
     pg_int := pg_int X;
     updated_at_default := updated_at_default X;
     execute_fault := execute_fault X;
     db_now := db_now X;
     now_iso := now_iso X;
     rate_reply := rate_reply X;
     ytdlp_reply := ytdlp_reply X;
     ffmpeg_reply := ffmpeg_reply X;
     gemini_reply := gemini_reply X |}.

(** The service gives up on the uploaded file after one poll. *)
Definition failing_session : GeminiSession :=
  {| upload_state := Some PROCESSING;
     poll_states := [FAILED];
     generate_ok := true;
     response_text := Some (lit "{}");
     total_token_count := None |}.

Definition X_failed : Externals := with_session failing_session Scenario.X0.

(** The response is a JSON array. *)
Definition X_array : Externals :=
  with_loads (fun _ => Parsed (JList [JInt 1])) Scenario.X0.

(** The downloader always fails. *)
Definition X_no_download : Externals :=
  Scenario.installation "```json{moments}``` " (fun _ => Granted)
    (fun _ => (Exited 1, false)) (fun _ => (Exited 0, true)).

End Cases.

(** What the parsing step takes for the analysis from the cleaned text
    [text] of the response: the object it holds, or the substitute built
    where it is no JSON. *)
Definition parsed_from (X : Externals) (text : pystr) (parsed : pydict)
  : Prop :=
  json_loads X text = Parsed (JDict parsed)
  \/ exists e, json_loads X text = DecodeError e /\ parsed = degraded text e.

(** From [w] to [w'], at most [k] units of the quota of [api] were consumed,
    and none given back. *)
Definition units_within (k : nat) (api : pystr) (w w' : World) : Prop :=
  (units_used api (db w) <= units_used api (db w')
   /\ units_used api (db w') <= units_used api (db w) + k)%nat.

(** The units of [api] one run of [process_video] may consume: one of the
    download resource and one of the analysis resource. *)
Definition units_of_a_run (api : pystr) : nat :=
  if str_eqb api (lit "youtube_data") || str_eqb api (lit "gemini_flash")
  then 1%nat else 0%nat.


(** [v] is the video a call of [process_video] asks for: the one with the
    id, where an id other than 0 is given, and otherwise the one whose
    external id is found in the URL. *)
Definition asked_for (video_id : option Z) (video_url : option pystr)
    (v : video_row) : Prop :=
  if id_given video_id then Some (v_id v) = video_id
  else exists url,
      video_url = Some url /\ search_video_id url = Some (v_external_id v).

(** [jv] is a row of [videos] of [d] with the platform of its source and
    the name of the creator of that source. *)
Definition joined (d : Database) (jv : joined_video) : Prop :=
  In (video jv) (videos d)
  /\ exists s c,
      In s (sources d) /\ In c (creators d)
      /\ s_id s = v_source_id (video jv) /\ c_id c = s_creator_id s
      /\ platform jv = s_platform s /\ creator_name jv = c_name c.

(** How the lookup of the video ends. *)
Definition lookup_outcome (video_id : option Z) (video_url : option pystr)
    (w : World) (r : Outcome joined_video) (w' : World) : Prop :=
  db w' = db w /\ files w' = files w /\ events w' = events w
  /\ match r with
     | Returned jv => asked_for video_id video_url (video jv) /\ joined (db w) jv
     | Raised e => e = DatabaseError \/ exists msg, e = ValueError msg
     | Diverged => False
     end.

(** The order of [ORDER BY published_at DESC]: no row sorts strictly before
    a row that precedes it. *)
Fixpoint newest_first (vs : list video_row) : Prop :=
  match vs with
  | [] => True
  | a :: rest =>
      List.Forall (fun b => published_after b a = false) rest
      /\ newest_first rest
  end.

(** A row the query of [process_batch] selects from: a pending video, of
    the source where a source other than 0 is given. *)
Definition selectable (source_id : option Z) (v : video_row) : Prop :=
  v_analysis_status v = lit "pending"
  /\ match source_given source_id with
     | Some sid => v_source_id v = sid
     | None => True
     end.

(** What precedes a video id in a URL the program accepts. *)
Definition id_marker (m : pystr) : Prop :=
  m = lit "v=" \/ m = lit "youtu.be/".

(** Eleven characters among letters, digits, [_] and [-]. *)
Definition is_video_id (g : pystr) : Prop :=
  List.length g = 11%nat /\ forallb is_id_char g = true.

(** [video_analysis] is the same. *)
Definition analysis_kept (w w' : World) : Prop :=
  video_analysis (db w') = video_analysis (db w).

(** The row [r] of [video_analysis] holds [analysis] in the columns every
    save writes. *)
Definition holds_analysis (X : Externals) (analysis : pydict)
    (r : analysis_row) : Prop :=
  a_summary r = dict_get analysis (lit "summary") (JStr [])
  /\ a_summary_pt r = dict_get analysis (lit "summary_pt") (JStr [])
  /\ a_difficulty_level r
     = dict_get analysis (lit "difficulty") (JStr (lit "intermediate"))
  /\ a_key_topics r = dict_get analysis (lit "key_topics") (JList [])
  /\ a_techniques_shown r = dict_get analysis (lit "techniques") (JList [])
  /\ a_raw_response r = json_dumps X (JDict analysis).

(** [c] ends, by a return or by an exception, from every state. *)
Definition ends {A} (c : M A) : Prop :=
  forall w, fst (c w) <> Diverged.

(** The inference service never leaves an uploaded file in processing for
    ever. *)
Definition polling_settles (X : Externals) : Prop :=
  forall n st0,
    upload_state (gemini_reply X n) = Some st0 ->
    settle st0 (poll_states (gemini_reply X n)) <> None.

(** How the transaction that records the frames of a video ends: with
    every path and the status written, or with the tables as they were. *)
Definition frame_paths_outcome (video_id : Z) (extracted : list (Z * path))
    (w : World) (r : Outcome unit) (w' : World) : Prop :=
  files w' = files w
  /\ match r with
     | Returned _ =>
         db w' = update_frames_status video_id
                   (set_frame_paths video_id extracted (db w))
     | Raised e => e = DatabaseError /\ tables_kept w w'
     | Diverged => False
     end.

(** The exceptions of the frame stage: an error of the store, or one of
    Python on a value of the wrong kind. *)
Definition frame_stage_error (e : exn) : Prop :=
  e = DatabaseError \/ e = TypeError \/ e = AttributeError
  \/ exists msg, e = ValueError msg.


(** [c] raises no other exception than those of [P]. *)
Definition raises_only (P : exn -> Prop) {A} (c : M A) : Prop :=
  forall w e w', c w = (Raised e, w') -> P e.

(** An event that is no part of the analysis: no call of the inference
    service and no check of the quota of the analysis resource. *)
Definition not_analysis (e : Event) : bool :=
  match e with
  | EvUpload _ | EvGetFile | EvGenerate _ _ | EvDeleteFile => false
  | EvRateCheck api _ => negb (str_eqb api (lit "gemini_flash"))
  | _ => true
  end.




(** * Properties *)

(** ** Running the monad *)

Lemma bind_returned {A B} (c : M A) (k : A -> M B) w a w1 :
  c w = (Returned a, w1) -> bind c k w = k a w1.
Proof. intros H. unfold bind. rewrite H. reflexivity. Qed.

Lemma bind_raised {A B} (c : M A) (k : A -> M B) w e w1 :
  c w = (Raised e, w1) -> bind c k w = (Raised e, w1).
Proof. intros H. unfold bind. rewrite H. reflexivity. Qed.

Lemma bind_inv {A B} (c : M A) (k : A -> M B) w b w' :
  bind c k w = (Returned b, w') ->
  exists a w1, c w = (Returned a, w1) /\ k a w1 = (Returned b, w').
Proof.
  unfold bind. destruct (c w) as [[a|e|] w1]; intros H; try discriminate.
  exists a, w1. split; [reflexivity | exact H].
Qed.

(** ** C1: a response that is no JSON *)

Lemma await_processing_settles answers : forall st st' w,
  settle st answers = Some st' ->
  exists w', await_processing st answers w = (Returned st', w')
             /\ ticks w' = ticks w.
Proof.
  induction answers as [|a rest IH]; intros st st' w H.
  - destruct st; simpl in *; try discriminate;
      injection H as <-; eexists; split; reflexivity.
  - destruct st; simpl in H;
      try (injection H as <-; eexists; split; reflexivity).
    cbn [await_processing].
    destruct (IH a st' (snd (emit EvGetFile (snd (sleep 5 w)))) H) as [w' [E T]].
    exists w'. split; [exact E | exact T].
Qed.

Lemma parse_response_invalid X s raw e w :
  response_text s = Some raw ->
  json_loads X (clean_response raw) = DecodeError e ->
  exists w',
    parse_response X s w
    = (Returned (degraded_result X (clean_response raw) e s (ticks w)), w').
Proof.
  intros Ht Hj. unfold parse_response. rewrite Ht. cbn [or_raise].
  unfold bind at 1. cbn [ret]. rewrite Hj.
  eexists. reflexivity.
Qed.

(** C1, amended. When [json.loads] rejects the text of the response,
    cleaned of its code-fence markers, with [JSONDecodeError], the parsing
    step does not raise: from any state it returns.  A call of [analyze_video_with_gemini] that reaches it returns
    the degraded result: ['summary'] is the first 1000 characters of the
    cleaned text, ['error'] carries the parser's message, ['raw_response']
    the cleaned text, and ['_metadata'] holds the model identifier, the
    completion time and the token count, 0 where the service reports
    none. *)
Theorem analyze_invalid_json_degraded
    X video_path title description w s st0 raw e :
  gemini_reply X (ticks w) = s ->
  key_present (GEMINI_API_KEY X) = true ->
  upload_state s = Some st0 ->
  settle st0 (poll_states s) = Some ACTIVE ->
  generate_ok s = true ->
  response_text s = Some raw ->
  json_loads X (clean_response raw) = DecodeError e ->
  (forall w1, exists analysis w2,
      parse_response X s w1 = (Returned analysis, w2)) /\
  exists analysis w',
    analyze_video_with_gemini X video_path title description w
    = (Returned analysis, w')
    /\ dict_get analysis (lit "summary") JNull
       = JStr (str_prefix 1000 (clean_response raw))
    /\ dict_get analysis (lit "error") JNull = JStr e
    /\ dict_get analysis (lit "raw_response") JNull = JStr (clean_response raw)
    /\ dict_get analysis (lit "_metadata") JNull
       = JDict [(lit "model", JStr (lit "gemini-1.5-flash"));
                (lit "analyzed_at", JStr (now_iso X (S (ticks w))));
                (lit "tokens_used",
                 JInt (match total_token_count s with
                       | Some t => t
                       | None => 0
                       end))].
Proof.
  intros Hs Hkey Hup Hpoll Hgen Htext Hjson. split.
  - intros w1.
    destruct (parse_response_invalid X s raw e w1 Htext Hjson) as [w2 E].
    eauto.
  - unfold analyze_video_with_gemini. rewrite Hkey. cbn [negb].
    unfold bind at 1. cbn [tick]. rewrite Hs.
    unfold bind at 1. cbn [print emit].
    unfold bind at 1. cbn [emit].
    rewrite Hup. unfold bind at 1. cbn [or_raise ret].
    unfold bind at 1. cbn [print emit].
    match goal with
    | |- context [bind (await_processing st0 (poll_states s)) _ ?w1] =>
        destruct (await_processing_settles (poll_states s) st0 ACTIVE w1 Hpoll)
          as [w2 [E T]];
        rewrite (bind_returned _ _ _ _ _ E)
    end.
    unfold bind at 1. cbn [print emit].
    unfold bind at 1. cbn [emit].
    rewrite Hgen. unfold bind at 1. cbn [ret].
    unfold bind at 1. cbn [emit].
    match goal with
    | |- context [parse_response X s ?w3] =>
        destruct (parse_response_invalid X s raw e w3 Htext Hjson) as [w4 E4];
        rewrite E4
    end.
    eexists _, w4. split; [reflexivity |].
    cbn [ticks]. rewrite T. cbn [ticks].
    unfold degraded_result, degraded, metadata, model_name.
    generalize (str_prefix 1000 (clean_response raw)).
    generalize (clean_response raw).
    generalize (now_iso X (S (ticks w))).
    intros. repeat split; reflexivity.
Qed.

Lemma analyze_invalid_json_degraded_witness :
  exists analysis w',
    analyze_video_with_gemini Scenario.X_prose [lit "v.mp4"] (lit "t") None
      Scenario.w0 = (Returned analysis, w')
    /\ dict_get analysis (lit "error") JNull = JStr (lit "Expecting value").
Proof.
  destruct (analyze_invalid_json_degraded Scenario.X_prose [lit "v.mp4"]
              (lit "t") None Scenario.w0
              (Scenario.session "```Sorry, I cannot watch this.``` ")
              PROCESSING (lit "```Sorry, I cannot watch this.``` ")
              (lit "Expecting value")
              eq_refl eq_refl eq_refl eq_refl eq_refl eq_refl eq_refl)
    as [_ [analysis [w' [E [_ [He _]]]]]].
  exists analysis, w'. split; [exact E | exact He].
Defined.

(** C1, as stated, fails: a response of two thousand opening brackets is
    no valid JSON, and the parser gives up on it with [RecursionError],
    which the handler of [JSONDecodeError] does not catch; the call raises
    and returns no substitute result. *)
Lemma analyze_deep_nesting_raises :
  json_loads Scenario.X_deep (clean_response Scenario.deep_text)
  = NestedTooDeep
  /\ response_text (gemini_reply Scenario.X_deep 0) = Some Scenario.deep_text
  /\ fst (analyze_video_with_gemini Scenario.X_deep [lit "v.mp4"] (lit "t")
            None Scenario.w0)
     = Raised RecursionError.
Proof. repeat split; vm_compute; reflexivity. Qed.

(** ** C7: waiting for the rate limit *)

Section RateLimit.

Variable X : Externals.
Variable api : pystr.

Lemma rollback_same d : rollback d d = d.
Proof. destruct d; reflexivity. Qed.

Lemma check_rate_limit_denied w :
  rate_reply X (ticks w) = Denied ->
  check_rate_limit X api w = (Returned false, after_check api Denied w).
Proof.
  intros H. unfold check_rate_limit, with_connection, bind. cbn.
  rewrite H. reflexivity.
Qed.

Lemma check_rate_limit_granted w :
  rate_reply X (ticks w) = Granted ->
  check_rate_limit X api w
  = (Returned true, set_db (consume_unit api (db w)) (after_check api Granted w)).
Proof.
  intros H. unfold check_rate_limit, with_connection, bind. cbn.
  rewrite H. reflexivity.
Qed.

Lemma denied_trace_checks k : forall waited,
  List.length (List.filter is_check (denied_trace api k waited)) = k.
Proof. induction k; intros; cbn; [reflexivity | rewrite IHk; reflexivity]. Qed.

Lemma denied_trace_sleeps k : forall waited,
  List.filter is_sleep (denied_trace api k waited) = repeat (EvSleep 10) k.
Proof. induction k; intros; cbn; [reflexivity | rewrite IHk; reflexivity]. Qed.

Lemma wait_loop_all_denied max_wait : forall k waited w,
  max_wait - waited <= 10 * Z.of_nat k < max_wait - waited + 10 ->
  (forall i, rate_reply X (ticks w + i)%nat = Denied) ->
  exists w',
    wait_loop X api max_wait waited w = (Raised (RateLimitTimeout max_wait), w')
    /\ events w'
       = rev (denied_trace api k waited ++ [EvRateCheck api Denied]) ++ events w
    /\ db w' = db w.
Proof.
  induction k as [|k IH]; intros waited w Hk Hden.
  - rewrite wait_loop_equation_1.
    rewrite (bind_returned _ _ _ _ _ (check_rate_limit_denied w
               ltac:(rewrite <- (Hden O); f_equal; lia))).
    destruct (Z_le_dec max_wait waited) as [_|Hn]; [| lia].
    eexists. split; [reflexivity |]. split; reflexivity.
  - rewrite wait_loop_equation_1.
    rewrite (bind_returned _ _ _ _ _ (check_rate_limit_denied w
               ltac:(rewrite <- (Hden O); f_equal; lia))).
    destruct (Z_le_dec max_wait waited) as [Hle|_]; [lia |].
    unfold bind at 1. cbn [print emit].
    unfold bind at 1. cbn [sleep emit].
    match goal with
    | |- context [wait_loop X api max_wait (waited + 10) ?w1] =>
        destruct (IH (waited + 10) w1 ltac:(lia)) as [w' [E [Ev Ed]]]
    end.
    { intros i. cbn [ticks after_check]. rewrite <- (Hden (S i)).
      f_equal. lia. }
    exists w'. split; [exact E |]. split; [| exact Ed].
    rewrite Ev. cbn [events after_check denied_trace].
    cbn [app rev]. rewrite <- !app_assoc. reflexivity.
Qed.

Lemma units_used_consume_same d :
  units_used api (consume_unit api d) = S (units_used api d).
Proof.
  unfold units_used, consume_unit. cbn. unfold str_eqb.
  rewrite bool_decide_eq_true_2 by reflexivity. reflexivity.
Qed.

Lemma units_used_consume_other other d :
  other <> api -> units_used other (consume_unit api d) = units_used other d.
Proof.
  intros Hne. unfold units_used, consume_unit. cbn. unfold str_eqb.
  rewrite bool_decide_eq_false_2 by congruence. reflexivity.
Qed.

Lemma wait_loop_granted_at max_wait : forall j waited w,
  10 * Z.of_nat j < max_wait - waited + 10 ->
  (forall i, (i < j)%nat -> rate_reply X (ticks w + i)%nat = Denied) ->
  rate_reply X (ticks w + j)%nat = Granted ->
  exists w',
    wait_loop X api max_wait waited w = (Returned tt, w')
    /\ events w'
       = rev (denied_trace api j waited
              ++ [EvRateCheck api Granted; EvPrint MsgRateOk]) ++ events w
    /\ db w' = consume_unit api (db w).
Proof.
  induction j as [|j IH]; intros waited w Hj Hden Hgr.
  - rewrite wait_loop_equation_1.
    rewrite (bind_returned _ _ _ _ _ (check_rate_limit_granted w
               ltac:(rewrite <- Hgr; f_equal; lia))).
    eexists. split; [reflexivity |]. split; reflexivity.
  - rewrite wait_loop_equation_1.
    rewrite (bind_returned _ _ _ _ _ (check_rate_limit_denied w
               ltac:(rewrite <- (Hden O ltac:(lia)); f_equal; lia))).
    destruct (Z_le_dec max_wait waited) as [Hle|_]; [lia |].
    unfold bind at 1. cbn [print emit].
    unfold bind at 1. cbn [sleep emit].
    match goal with
    | |- context [wait_loop X api max_wait (waited + 10) ?w1] =>
        destruct (IH (waited + 10) w1 ltac:(lia)) as [w' [E [Ev Ed]]]
    end.
    { intros i Hi. cbn [ticks after_check]. rewrite <- (Hden (S i) ltac:(lia)).
      f_equal. lia. }
    { cbn [ticks after_check]. rewrite <- Hgr. f_equal. lia. }
    exists w'. split; [exact E |]. split; [| exact Ed].
    rewrite Ev. cbn [events after_check denied_trace].
    cbn [app rev]. rewrite <- !app_assoc. reflexivity.
Qed.

End RateLimit.

Lemma rounds_spec max_wait :
  0 <= max_wait ->
  max_wait <= 10 * Z.of_nat (rounds max_wait) < max_wait + 10.
Proof.
  intros H. unfold rounds.
  pose proof (Z.div_mod (max_wait + 9) 10 ltac:(lia)) as E.
  pose proof (Z.mod_pos_bound (max_wait + 9) 10 ltac:(lia)) as B.
  assert (0 <= (max_wait + 9) / 10) by (apply Z.div_pos; lia).
  rewrite Z2Nat.id by assumption. lia.
Qed.

(** C7. With a bound [max_wait >= 0]: if every check is denied, the wait
    raises its timeout failure, after one check and then
    [rounds max_wait] times a sleep of 10 seconds followed by a check,
    where [rounds max_wait] is [max_wait / 10] rounded up, so after
    [rounds max_wait + 1] checks in all (13 for the default 120), the time
    slept having reached [max_wait]; no quota is consumed.  If the check
    number [j] (from 0) is the first one granted and [j <= rounds max_wait],
    the wait returns without error after [j] sleeps, and that check consumes
    exactly one unit of quota of the resource and none of any other. *)
Theorem wait_for_rate_limit_bounded X api max_wait w :
  0 <= max_wait ->
  ((forall i, rate_reply X (ticks w + i)%nat = Denied) ->
   exists w' new,
     wait_for_rate_limit X api max_wait w
     = (Raised (RateLimitTimeout max_wait), w')
     /\ events w' = rev new ++ events w
     /\ new = denied_trace api (rounds max_wait) 0 ++ [EvRateCheck api Denied]
     /\ List.length (List.filter is_check new) = S (rounds max_wait)
     /\ List.filter is_sleep new = repeat (EvSleep 10) (rounds max_wait)
     /\ max_wait <= 10 * Z.of_nat (rounds max_wait) < max_wait + 10
     /\ db w' = db w)
  /\
  (forall j,
     (j <= rounds max_wait)%nat ->
     (forall i, (i < j)%nat -> rate_reply X (ticks w + i)%nat = Denied) ->
     rate_reply X (ticks w + j)%nat = Granted ->
     exists w' new,
       wait_for_rate_limit X api max_wait w = (Returned tt, w')
       /\ events w' = rev new ++ events w
       /\ new = denied_trace api j 0
                ++ [EvRateCheck api Granted; EvPrint MsgRateOk]
       /\ List.length (List.filter is_check new) = S j
       /\ units_used api (db w') = S (units_used api (db w))
       /\ forall other, other <> api ->
            units_used other (db w') = units_used other (db w)).
Proof.
  intros Hmw. pose proof (rounds_spec max_wait Hmw) as Hr. split.
  - intros Hden.
    destruct (wait_loop_all_denied X api max_wait (rounds max_wait) 0 w
                ltac:(lia) Hden) as [w' [E [Ev Ed]]].
    exists w', (denied_trace api (rounds max_wait) 0 ++ [EvRateCheck api Denied]).
    split; [exact E |]. split; [exact Ev |]. split; [reflexivity |].
    split.
    { rewrite List.filter_app, List.length_app, denied_trace_checks.
      cbn. lia. }
    split.
    { rewrite List.filter_app, denied_trace_sleeps. cbn.
      apply app_nil_r. }
    split; [exact Hr | exact Ed].
  - intros j Hj Hden Hgr.
    destruct (wait_loop_granted_at X api max_wait j 0 w ltac:(lia) Hden Hgr)
      as [w' [E [Ev Ed]]].
    exists w', (denied_trace api j 0
                ++ [EvRateCheck api Granted; EvPrint MsgRateOk]).
    split; [exact E |]. split; [exact Ev |]. split; [reflexivity |].
    split.
    { rewrite List.filter_app, List.length_app, denied_trace_checks.
      cbn. lia. }
    rewrite Ed. split.
    + apply units_used_consume_same.
    + intros other Hne. apply units_used_consume_other. exact Hne.
Qed.

Lemma wait_for_rate_limit_bounded_witness :
  fst (wait_for_rate_limit
         (Scenario.installation "" (fun _ => Denied)
            (fun _ => (TimedOut, false)) (fun _ => (TimedOut, false)))
         (lit "gemini_flash") 120 Scenario.w0)
  = Raised (RateLimitTimeout 120)
  /\ fst (wait_for_rate_limit
            (Scenario.installation ""
               (fun n => if (n <? 2)%nat then Denied else Granted)
               (fun _ => (TimedOut, false)) (fun _ => (TimedOut, false)))
            (lit "gemini_flash") 120 Scenario.w0)
     = Returned tt.
Proof.
  split.
  - destruct (proj1 (wait_for_rate_limit_bounded
                       (Scenario.installation "" (fun _ => Denied)
                          (fun _ => (TimedOut, false))
                          (fun _ => (TimedOut, false)))
                       (lit "gemini_flash") 120 Scenario.w0 ltac:(lia))
                    (fun i => eq_refl)) as [w' [new [E _]]].
    rewrite E. reflexivity.
  - destruct (proj2 (wait_for_rate_limit_bounded
                       (Scenario.installation ""
                          (fun n => if (n <? 2)%nat then Denied else Granted)
                          (fun _ => (TimedOut, false))
                          (fun _ => (TimedOut, false)))
                       (lit "gemini_flash") 120 Scenario.w0 ltac:(lia))
                    2%nat ltac:(vm_compute; lia)
                    ltac:(intros [|[|i]] Hi; [reflexivity | reflexivity | lia])
                    eq_refl) as [w' [new [E _]]].
    rewrite E. reflexivity.
Defined.

(** ** Reasoning about runs *)

Lemma sat_bind {A B} (c : M A) (k : A -> M B) w Q :
  sat c w (fun r w1 =>
             match r with
             | Returned a => sat (k a) w1 Q
             | Raised e => Q (Raised e) w1
             | Diverged => Q Diverged w1
             end) ->
  sat (bind c k) w Q.
Proof. unfold sat, bind. destruct (c w) as [[a|e|] w1]; cbn; auto. Qed.

Lemma sat_conseq {A} (c : M A) w (Q Q' : Outcome A -> World -> Prop) :
  sat c w Q -> (forall r w', Q r w' -> Q' r w') -> sat c w Q'.
Proof. unfold sat. auto. Qed.

Lemma sat_or_raise {A} (o : option A) e w (Q : Outcome A -> World -> Prop) :
  match o with
  | Some a => Q (Returned a) w
  | None => Q (Raised e) w
  end ->
  sat (or_raise o e) w Q.
Proof. unfold sat. destruct o; cbn; auto. Qed.

Lemma sat_ret {A} (a : A) w (Q : Outcome A -> World -> Prop) :
  Q (Returned a) w -> sat (ret a) w Q.
Proof. exact (fun H => H). Qed.

Lemma sat_raise {A} e w (Q : Outcome A -> World -> Prop) :
  Q (Raised e) w -> sat (raise e) w Q.
Proof. exact (fun H => H). Qed.

Lemma sat_tick w (Q : Outcome nat -> World -> Prop) :
  Q (Returned (ticks w)) (ticked w) -> sat tick w Q.
Proof. exact (fun H => H). Qed.

Lemma sat_emit e w (Q : Outcome unit -> World -> Prop) :
  Q (Returned tt) (emitted e w) -> sat (emit e) w Q.
Proof. exact (fun H => H). Qed.

Lemma sat_modify_db f w (Q : Outcome unit -> World -> Prop) :
  Q (Returned tt) (set_db (f (db w)) w) -> sat (modify_db f) w Q.
Proof. exact (fun H => H). Qed.

Lemma sat_get_db w (Q : Outcome Database -> World -> Prop) :
  Q (Returned (db w)) w -> sat get_db w Q.
Proof. exact (fun H => H). Qed.

Lemma sat_path_exists p w (Q : Outcome bool -> World -> Prop) :
  Q (Returned (bool_decide (p ∈ files w))) w -> sat (path_exists p) w Q.
Proof. exact (fun H => H). Qed.

Lemma sat_execute X stmt w (Q : Outcome unit -> World -> Prop) :
  (if execute_fault X (ticks w)
   then Q (Raised DatabaseError) (ticked w)
   else Q (Returned tt) (set_db (stmt (db w)) (ticked w))) ->
  sat (execute X stmt) w Q.
Proof.
  unfold sat, execute, bind. cbn.
  destruct (execute_fault X (ticks w)); exact (fun H => H).
Qed.

Lemma sat_execute_returning {A} X (stmt : Database -> A * Database) w
    (Q : Outcome A -> World -> Prop) :
  (if execute_fault X (ticks w)
   then Q (Raised DatabaseError) (ticked w)
   else Q (Returned (fst (stmt (db w))))
          (set_db (snd (stmt (db w))) (ticked w))) ->
  sat (execute_returning X stmt) w Q.
Proof.
  unfold sat, execute_returning, bind. cbn.
  destruct (execute_fault X (ticks w)); exact (fun H => H).
Qed.

Lemma sat_execute_query {A} X (q : Database -> A) w
    (Q : Outcome A -> World -> Prop) :
  (if execute_fault X (ticks w)
   then Q (Raised DatabaseError) (ticked w)
   else Q (Returned (q (db w))) (ticked w)) ->
  sat (execute_query X q) w Q.
Proof.
  unfold sat, execute_query, bind. cbn.
  destruct (execute_fault X (ticks w)); exact (fun H => H).
Qed.

(** [with DatabaseConnection()]: what the body establishes holds at the end
    of the block, after the rollback where the body raised. *)
Lemma sat_with_connection {A} X (body : Z -> M A) w
    (Q : Outcome A -> World -> Prop) :
  sat (body (db_now X (ticks w))) w (fun r w' =>
    match r with
    | Raised e => Q (Raised e) (set_db (rollback (db w) (db w')) w')
    | _ => Q r w'
    end) ->
  sat (with_connection X body) w Q.
Proof.
  unfold sat, with_connection.
  destruct (body (db_now X (ticks w)) w) as [[a|e|] w']; exact (fun H => H).
Qed.

(** One step of a run, by the shape of the computation. *)
Ltac sat_step :=
  lazymatch goal with
  | |- sat (bind _ _) _ _ => apply sat_bind
  | |- sat (ret _) _ _ => apply sat_ret
  | |- sat (raise _) _ _ => apply sat_raise
  | |- sat (or_raise _ _) _ _ => apply sat_or_raise
  | |- sat tick _ _ => apply sat_tick
  | |- sat (emit _) _ _ => apply sat_emit
  | |- sat (print _) _ _ => apply sat_emit
  | |- sat (sleep _) _ _ => apply sat_emit
  | |- sat (mkdir _) _ _ => apply sat_emit
  | |- sat (modify_db _) _ _ => apply sat_modify_db
  | |- sat get_db _ _ => apply sat_get_db
  | |- sat (path_exists _) _ _ => apply sat_path_exists
  | |- sat (execute _ _) _ _ => apply sat_execute
  | |- sat (execute_returning _ _) _ _ => apply sat_execute_returning
  | |- sat (execute_query _ _) _ _ => apply sat_execute_query
  | |- sat (with_connection _ _) _ _ => apply sat_with_connection
  end; cbv beta iota.

(** ** C2: the save is one transaction *)

Section Save.

Variable X : Externals.
Variable video_id : Z.

Lemma save_moment_sat item w :
  sat (save_moment X video_id item) w (fun r w' =>
    files w' = files w /\ events w' = events w /\
    match r with
    | Returned _ =>
        exists row, moment_inserted X video_id item row
                    /\ db w' = insert_moment row (db w)
                    /\ execute_fault X (ticks w) = false
                    /\ ticks w' = S (ticks w)
    | Raised _ => True
    | Diverged => False
    end).
Proof.
  unfold sat, save_moment, bind, moment_inserted.
  destruct (as_dict item) as [moment|] eqn:Hd; cbn; [| auto].
  destruct (execute_fault X (ticks w)) eqn:Hf; cbn; [auto |].
  destruct (pg_int X _) as [ts|] eqn:Hp; cbn; [| auto].
  repeat split. exists (moment_of video_id ts moment).
  repeat split. exists moment, ts. auto.
Qed.

Lemma save_moments_sat items : forall w,
  sat (for_each items (save_moment X video_id)) w (fun r w' =>
    files w' = files w /\ events w' = events w /\
    match r with
    | Returned _ =>
        exists rows, Forall2 (moment_inserted X video_id) items rows
                     /\ db w' = insert_moments rows (db w)
                     /\ (forall n, (ticks w <= n < ticks w')%nat ->
                                   execute_fault X n = false)
                     /\ ticks w' = (ticks w + List.length items)%nat
    | Raised _ => True
    | Diverged => False
    end).
Proof.
  induction items as [|item rest IH]; intros w.
  - unfold sat. cbn. repeat split. exists []. repeat split.
    + constructor.
    + intros n Hn. lia.
    + lia.
  - cbn [for_each]. apply sat_bind.
    eapply sat_conseq; [apply save_moment_sat |].
    intros [[]|e|] w1 (Hf & He & H); cbn; [| rewrite Hf, He; auto | contradiction].
    destruct H as (row & Hrow & Hdb & Hfault & Ht).
    eapply sat_conseq; [apply IH |].
    intros [[]|e|] w2 (Hf2 & He2 & H2); cbn;
      (split; [congruence |]); (split; [congruence |]); auto.
    destruct H2 as (rows & Hrows & Hdb2 & Hfault2 & Ht2).
    exists (row :: rows). split; [constructor; assumption |].
    split; [rewrite Hdb2, Hdb; reflexivity |].
    split; [| cbn; lia].
    intros n Hn. destruct (decide (n = ticks w)) as [->|Hne]; [exact Hfault |].
    apply Hfault2. lia.
Qed.

Lemma save_transaction_sat analysis now w :
  sat (save_transaction X video_id analysis now) w (fun r w' =>
    files w' = files w /\
    match r with
    | Returned analysis_id =>
        exists meta items rows,
          as_dict (dict_get analysis (lit "_metadata") (JDict [])) = Some meta
          /\ py_iter (key_moments analysis) = Some items
          /\ Forall2 (moment_inserted X video_id) items rows
          /\ analysis_id
             = fst (upsert_analysis
                      (proposed_row X video_id analysis
                         (dict_get meta (lit "model") (JStr model_name))
                         (dict_get meta (lit "tokens_used") (JInt 0)) now)
                      now (db w))
          /\ db w'
             = update_analysis_status video_id now
                 (insert_moments rows
                    (snd (upsert_analysis
                            (proposed_row X video_id analysis
                               (dict_get meta (lit "model") (JStr model_name))
                               (dict_get meta (lit "tokens_used") (JInt 0)) now)
                            now (db w))))
    | Raised _ => True
    | Diverged => False
    end).
Proof.
  unfold save_transaction, get_of.
  destruct (as_dict (dict_get analysis (lit "_metadata") (JDict [])))
    as [meta|] eqn:Hm; [| repeat sat_step; cbn; auto].
  repeat sat_step.
  destruct (execute_fault X (ticks w)) eqn:Hf1; [cbn; auto |].
  repeat sat_step.
  destruct (py_iter (key_moments analysis)) as [items|] eqn:Hi; [| cbn; auto].
  repeat sat_step.
  eapply sat_conseq; [apply save_moments_sat |].
  intros [[]|e|] w2 (Hfl & Hel & Hl); cbn [files set_db ticked] in Hfl;
    [| split; [exact Hfl | exact I] | contradiction].
  destruct Hl as (rows & Hrows & Hdb & _ & _).
  repeat sat_step.
  destruct (execute_fault X (ticks w2)) eqn:Hf2; [split; [exact Hfl | exact I] |].
  repeat sat_step.
  destruct (py_len (key_moments analysis)) as [n|] eqn:Hn;
    [| split; [exact Hfl | exact I]].
  repeat sat_step.
  split; [exact Hfl |].
  exists meta, items, rows.
  repeat split; try assumption. cbn [db set_db emitted ticked]. rewrite Hdb.
  reflexivity.
Qed.

End Save.

Lemma save_analysis_to_db_sat X video_id analysis w :
  sat (save_analysis_to_db X video_id analysis) w (fun r w' =>
    files w' = files w /\
    match r with
    | Returned analysis_id =>
        exists meta items rows,
          as_dict (dict_get analysis (lit "_metadata") (JDict [])) = Some meta
          /\ py_iter (key_moments analysis) = Some items
          /\ Forall2 (moment_inserted X video_id) items rows
          /\ analysis_id
             = fst (upsert_analysis
                      (proposed_row X video_id analysis
                         (dict_get meta (lit "model") (JStr model_name))
                         (dict_get meta (lit "tokens_used") (JInt 0))
                         (db_now X (ticks w)))
                      (db_now X (ticks w)) (db w))
          /\ db w'
             = update_analysis_status video_id (db_now X (ticks w))
                 (insert_moments rows
                    (snd (upsert_analysis
                            (proposed_row X video_id analysis
                               (dict_get meta (lit "model") (JStr model_name))
                               (dict_get meta (lit "tokens_used") (JInt 0))
                               (db_now X (ticks w)))
                            (db_now X (ticks w)) (db w))))
    | Raised _ => same_tables (db w) (db w')
    | Diverged => False
    end).
Proof.
  pose proof (save_transaction_sat X video_id analysis (db_now X (ticks w)) w)
    as H.
  unfold sat in *. unfold save_analysis_to_db, with_connection.
  destruct (save_transaction X video_id analysis (db_now X (ticks w)) w)
    as [[aid|e|] w1]; cbn [fst snd] in *.
  - exact H.
  - destruct H as [Hf _]. split; [exact Hf |].
    unfold same_tables. cbn. auto.
  - destruct H as [_ []].
Qed.

(** C2. [save_analysis_to_db] never diverges and leaves the files alone.
    When it raises, the three tables it writes ([videos], [video_analysis],
    [video_moments]) are those of before the call, so none of its writes is
    visible and the video keeps its prior status.  When it returns, the
    database is the one before the call with the upsert of the analysis
    row, the insert of every key moment and the update of the video's
    status to ['completed'] applied, in this order. *)
Theorem save_analysis_to_db_atomic X video_id analysis w :
  sat (save_analysis_to_db X video_id analysis) w (fun r w' =>
    files w' = files w /\
    match r with
    | Returned analysis_id =>
        exists meta items rows,
          as_dict (dict_get analysis (lit "_metadata") (JDict [])) = Some meta
          /\ py_iter (key_moments analysis) = Some items
          /\ Forall2 (moment_inserted X video_id) items rows
          /\ analysis_id
             = fst (upsert_analysis
                      (proposed_row X video_id analysis
                         (dict_get meta (lit "model") (JStr model_name))
                         (dict_get meta (lit "tokens_used") (JInt 0))
                         (db_now X (ticks w)))
                      (db_now X (ticks w)) (db w))
          /\ db w'
             = update_analysis_status video_id (db_now X (ticks w))
                 (insert_moments rows
                    (snd (upsert_analysis
                            (proposed_row X video_id analysis
                               (dict_get meta (lit "model") (JStr model_name))
                               (dict_get meta (lit "tokens_used") (JInt 0))
                               (db_now X (ticks w)))
                            (db_now X (ticks w)) (db w))))
    | Raised _ => same_tables (db w) (db w')
    | Diverged => False
    end).
Proof. apply save_analysis_to_db_sat. Qed.

(** ** C3 and C4: upsert of the analysis, insert of the moments *)

Lemma video_moments_insert_moment r d :
  video_moments (insert_moment r d) = insert_row r (video_moments d).
Proof.
  unfold insert_moment, insert_row.
  destruct (existsb _ (video_moments d)); reflexivity.
Qed.

Lemma video_analysis_insert_moment r d :
  video_analysis (insert_moment r d) = video_analysis d.
Proof. unfold insert_moment. destruct (existsb _ _); reflexivity. Qed.

Lemma videos_insert_moment r d : videos (insert_moment r d) = videos d.
Proof. unfold insert_moment. destruct (existsb _ _); reflexivity. Qed.

Lemma video_moments_insert_moments rows : forall d,
  video_moments (insert_moments rows d)
  = fold_left (fun l r => insert_row r l) rows (video_moments d).
Proof.
  induction rows as [|r rows IH]; intros d; [reflexivity |].
  cbn. unfold insert_moments in IH. rewrite IH, video_moments_insert_moment.
  reflexivity.
Qed.

Lemma video_analysis_insert_moments rows : forall d,
  video_analysis (insert_moments rows d) = video_analysis d.
Proof.
  induction rows as [|r rows IH]; intros d; [reflexivity |].
  cbn. unfold insert_moments in IH. rewrite IH.
  apply video_analysis_insert_moment.
Qed.

Lemma videos_insert_moments rows : forall d,
  videos (insert_moments rows d) = videos d.
Proof.
  induction rows as [|r rows IH]; intros d; [reflexivity |].
  cbn. unfold insert_moments in IH. rewrite IH. apply videos_insert_moment.
Qed.

Lemma video_moments_upsert e now d :
  video_moments (snd (upsert_analysis e now d)) = video_moments d.
Proof. unfold upsert_analysis. destruct (List.find _ _); reflexivity. Qed.

Lemma videos_upsert e now d :
  videos (snd (upsert_analysis e now d)) = videos d.
Proof. unfold upsert_analysis. destruct (List.find _ _); reflexivity. Qed.

Lemma same_moment_key video_id ts r :
  same_moment video_id ts r = true <-> moment_key r = (video_id, ts).
Proof.
  unfold same_moment, moment_key. rewrite andb_true_iff, !Z.eqb_eq.
  split; [intros [-> ->]; reflexivity | intros [= -> ->]; auto].
Qed.

Lemma has_moment_key video_id ts l :
  has_moment video_id ts l <-> In (video_id, ts) (List.map moment_key l).
Proof.
  unfold has_moment. rewrite existsb_exists, in_map_iff.
  split; intros [r [H1 H2]]; exists r.
  - split; [apply same_moment_key; exact H2 | exact H1].
  - split; [exact H2 | apply same_moment_key; exact H1].
Qed.

Lemma insert_row_unique r l :
  NoDup (List.map moment_key l) -> NoDup (List.map moment_key (insert_row r l)).
Proof.
  intros H. unfold insert_row.
  destruct (existsb _ l) eqn:E; [exact H |].
  rewrite List.map_app. cbn.
  apply NoDup_app. split; [exact H |]. split.
  - intros k Hk Hin. apply list_elem_of_In in Hk, Hin.
    destruct Hin as [<-|[]].
    assert (has_moment (m_video_id r) (m_timestamp_seconds r) l) as Hm
      by (apply has_moment_key; exact Hk).
    unfold has_moment in Hm. congruence.
  - apply NoDup_singleton.
Qed.

Lemma insert_rows_unique rows : forall l,
  NoDup (List.map moment_key l) ->
  NoDup (List.map moment_key (fold_left (fun l r => insert_row r l) rows l)).
Proof.
  induction rows as [|r rows IH]; intros l H; [exact H |].
  cbn. apply IH, insert_row_unique, H.
Qed.

Lemma insert_row_present r l :
  has_moment (m_video_id r) (m_timestamp_seconds r) l -> insert_row r l = l.
Proof. unfold has_moment, insert_row. intros ->. reflexivity. Qed.

Lemma has_moment_insert_row video_id ts r l :
  has_moment video_id ts l -> has_moment video_id ts (insert_row r l).
Proof.
  unfold has_moment, insert_row. intros H.
  destruct (existsb (same_moment (m_video_id r) (m_timestamp_seconds r)) l);
    [exact H |].
  rewrite existsb_app, H. reflexivity.
Qed.

Lemma has_moment_inserted r l :
  has_moment (m_video_id r) (m_timestamp_seconds r) (insert_row r l).
Proof.
  unfold has_moment, insert_row.
  destruct (existsb _ l) eqn:E; [exact E |].
  rewrite existsb_app. cbn. unfold same_moment at 2.
  rewrite !Z.eqb_refl. cbn. apply orb_true_r.
Qed.

Lemma has_moment_insert_rows video_id ts rows : forall l,
  has_moment video_id ts l ->
  has_moment video_id ts (fold_left (fun l r => insert_row r l) rows l).
Proof.
  induction rows as [|r rows IH]; intros l H; [exact H |].
  cbn. apply IH, has_moment_insert_row, H.
Qed.

Lemma insert_rows_all_present rows : forall l,
  Forall (fun r => has_moment (m_video_id r) (m_timestamp_seconds r)
                     (fold_left (fun l r => insert_row r l) rows l)) rows.
Proof.
  induction rows as [|r rows IH]; intros l; [constructor |].
  cbn. constructor; [| apply IH].
  apply has_moment_insert_rows, has_moment_inserted.
Qed.

Lemma insert_rows_present rows : forall l,
  Forall (fun r => has_moment (m_video_id r) (m_timestamp_seconds r) l) rows ->
  fold_left (fun l r => insert_row r l) rows l = l.
Proof.
  induction rows as [|r rows IH]; intros l H; [reflexivity |].
  inversion H as [|? ? Hr Hrest]; subst. cbn.
  rewrite (insert_row_present r l Hr). apply IH, Hrest.
Qed.

Section Upsert.

Variable e : analysis_row.
Variable now : Z.

Local Abbreviation on_conflict := (on_conflict_row e now).

Lemma on_conflict_key r : a_video_id (on_conflict r) = a_video_id r.
Proof. unfold on_conflict_row. destruct (same_video _ r); reflexivity. Qed.

Lemma on_conflict_keys l :
  List.map a_video_id (List.map on_conflict l) = List.map a_video_id l.
Proof.
  induction l as [|r l IH]; [reflexivity |].
  cbn. rewrite on_conflict_key, IH. reflexivity.
Qed.

Lemma absent_no_rows l :
  ~ In (a_video_id e) (List.map a_video_id l) ->
  List.filter (same_video (a_video_id e)) (List.map on_conflict l) = [].
Proof.
  induction l as [|r l IH]; intros H; [reflexivity |].
  cbn in H. cbn.
  assert (same_video (a_video_id e) r = false) as Hr.
  { unfold same_video. apply Z.eqb_neq. intros E. apply H. left. exact E. }
  unfold on_conflict_row at 1. rewrite Hr, Hr. apply IH. tauto.
Qed.

Lemma find_none_absent l :
  List.find (same_video (a_video_id e)) l = None ->
  ~ In (a_video_id e) (List.map a_video_id l).
Proof.
  induction l as [|r l IH]; intros H; [intros [] |].
  cbn in H. destruct (same_video (a_video_id e) r) eqn:Hr; [discriminate |].
  intros [E|Hin]; [| exact (IH H Hin)].
  unfold same_video in Hr. apply Z.eqb_neq in Hr. congruence.
Qed.

Lemma conflict_rows l : forall old,
  NoDup (List.map a_video_id l) ->
  List.find (same_video (a_video_id e)) l = Some old ->
  List.filter (same_video (a_video_id e)) (List.map on_conflict l)
  = [conflict_update e now old].
Proof.
  induction l as [|r l IH]; intros old Hnd Hf; [discriminate |].
  cbn in Hnd. apply NoDup_cons in Hnd as [Hnotin Hnd].
  cbn in Hf. cbn [List.map List.filter].
  destruct (same_video (a_video_id e) r) eqn:Hr.
  - injection Hf as <-.
    assert (on_conflict r = conflict_update e now r) as ->
      by (unfold on_conflict_row; rewrite Hr; reflexivity).
    assert (same_video (a_video_id e) (conflict_update e now r) = true) as ->
      by exact Hr.
    f_equal. apply absent_no_rows.
    unfold same_video in Hr. apply Z.eqb_eq in Hr. rewrite <- Hr.
    intros Hin. apply Hnotin, list_elem_of_In, Hin.
  - assert (on_conflict r = r) as ->
      by (unfold on_conflict_row; rewrite Hr; reflexivity).
    rewrite Hr. apply IH; assumption.
Qed.

Lemma upsert_rows d :
  analysis_unique d ->
  analysis_rows (a_video_id e) (snd (upsert_analysis e now d))
  = [upserted_row e now d]
  /\ fst (upsert_analysis e now d) = a_id (upserted_row e now d)
  /\ analysis_unique (snd (upsert_analysis e now d)).
Proof.
  intros Hu. unfold analysis_unique, analysis_rows, upsert_analysis, upserted_row in *.
  destruct (List.find (same_video (a_video_id e)) (video_analysis d))
    as [old|] eqn:Hf; cbn.
  - split; [apply conflict_rows; assumption |]. split; [reflexivity |].
    change (NoDup (List.map a_video_id (List.map on_conflict (video_analysis d)))).
    rewrite on_conflict_keys. exact Hu.
  - pose proof (find_none_absent _ Hf) as Habs.
    split; [| split; [reflexivity |]].
    + rewrite List.filter_app. cbn.
      assert (same_video (a_video_id e)
                (with_id (video_analysis_id_seq d + 1) e) = true) as ->
        by (unfold same_video; cbn; apply Z.eqb_refl).
      replace (List.filter (same_video (a_video_id e)) (video_analysis d))
        with (@nil analysis_row); [reflexivity |].
      symmetry. clear -Hf. induction (video_analysis d) as [|r l IH];
        [reflexivity |].
      cbn in *. destruct (same_video (a_video_id e) r); [discriminate |].
      apply IH, Hf.
    + rewrite List.map_app. cbn. apply NoDup_app. split; [exact Hu |].
      split; [| apply NoDup_singleton].
      intros k Hk Hin. apply list_elem_of_In in Hk, Hin.
      destruct Hin as [<-|[]]. exact (Habs Hk).
Qed.

End Upsert.

Lemma save_returned X video_id analysis w analysis_id w' :
  save_analysis_to_db X video_id analysis w = (Returned analysis_id, w') ->
  exists meta items rows,
    as_dict (dict_get analysis (lit "_metadata") (JDict [])) = Some meta
    /\ py_iter (key_moments analysis) = Some items
    /\ Forall2 (moment_inserted X video_id) items rows
    /\ analysis_id
       = fst (upsert_analysis
                (proposed_row X video_id analysis
                   (dict_get meta (lit "model") (JStr model_name))
                   (dict_get meta (lit "tokens_used") (JInt 0))
                   (db_now X (ticks w)))
                (db_now X (ticks w)) (db w))
    /\ db w'
       = update_analysis_status video_id (db_now X (ticks w))
           (insert_moments rows
              (snd (upsert_analysis
                      (proposed_row X video_id analysis
                         (dict_get meta (lit "model") (JStr model_name))
                         (dict_get meta (lit "tokens_used") (JInt 0))
                         (db_now X (ticks w)))
                      (db_now X (ticks w)) (db w)))).
Proof.
  intros E. pose proof (save_analysis_to_db_sat X video_id analysis w) as H.
  unfold sat in H. rewrite E in H. cbn [fst snd] in H. apply H.
Qed.

Lemma filter_singleton_find {A} (f : A -> bool) l r :
  List.filter f l = [r] -> List.find f l = Some r.
Proof.
  induction l as [|x l IH]; [discriminate |].
  cbn. destruct (f x); [intros [= -> _]; reflexivity | exact IH].
Qed.

Lemma filter_nil_find {A} (f : A -> bool) l :
  List.filter f l = [] -> List.find f l = None.
Proof.
  induction l as [|x l IH]; [reflexivity |].
  cbn. destruct (f x); [discriminate | exact IH].
Qed.

(** The analysis rows a returned save leaves. *)
Lemma save_returned_rows X video_id analysis w analysis_id w' :
  analysis_unique (db w) ->
  save_analysis_to_db X video_id analysis w = (Returned analysis_id, w') ->
  exists meta,
    as_dict (dict_get analysis (lit "_metadata") (JDict [])) = Some meta
    /\ analysis_rows video_id (db w')
       = [upserted_row
            (proposed_row X video_id analysis
               (dict_get meta (lit "model") (JStr model_name))
               (dict_get meta (lit "tokens_used") (JInt 0))
               (db_now X (ticks w)))
            (db_now X (ticks w)) (db w)]
    /\ analysis_id
       = a_id (upserted_row
                 (proposed_row X video_id analysis
                    (dict_get meta (lit "model") (JStr model_name))
                    (dict_get meta (lit "tokens_used") (JInt 0))
                    (db_now X (ticks w)))
                 (db_now X (ticks w)) (db w))
    /\ analysis_unique (db w').
Proof.
  intros Hu E.
  destruct (save_returned _ _ _ _ _ _ E)
    as (meta & items & rows & Hm & _ & _ & Hid & Hdb).
  exists meta. split; [exact Hm |].
  pose proof (upsert_rows
                (proposed_row X video_id analysis
                   (dict_get meta (lit "model") (JStr model_name))
                   (dict_get meta (lit "tokens_used") (JInt 0))
                   (db_now X (ticks w)))
                (db_now X (ticks w)) (db w) Hu) as (Hrows & Hfst & Hu').
  assert (video_analysis (db w')
          = video_analysis
              (snd (upsert_analysis
                      (proposed_row X video_id analysis
                         (dict_get meta (lit "model") (JStr model_name))
                         (dict_get meta (lit "tokens_used") (JInt 0))
                         (db_now X (ticks w)))
                      (db_now X (ticks w)) (db w)))) as Hva.
  { rewrite Hdb. cbn [update_analysis_status set_videos video_analysis].
    apply video_analysis_insert_moments. }
  unfold analysis_rows, analysis_unique in *. rewrite Hva.
  split; [exact Hrows |]. split; [rewrite Hid; exact Hfst | exact Hu'].
Qed.

(** C3. On a table with at most one analysis row per video, two calls of
    [save_analysis_to_db] for one video id that both return leave exactly
    one row for that id.  The second call replaces [summary], [summary_pt],
    [difficulty_level], [key_topics], [techniques_shown] and [raw_response]
    by its own values and sets [updated_at] to its [NOW()]; [id],
    [video_id], [models_mentioned], [custom_nodes_mentioned],
    [prerequisites], [model_used] and [tokens_used] stay as the first call
    left them, and both calls return the same id.  Where no row existed
    before the first call, the columns that stay hold the first call's
    values. *)
Theorem save_twice_one_row X video_id a1 a2 w id1 w1 id2 w2 :
  analysis_unique (db w) ->
  save_analysis_to_db X video_id a1 w = (Returned id1, w1) ->
  save_analysis_to_db X video_id a2 w1 = (Returned id2, w2) ->
  exists r1 r2 meta1,
    analysis_rows video_id (db w1) = [r1]
    /\ analysis_rows video_id (db w2) = [r2]
    /\ analysis_unique (db w2)
    /\ (a_summary r2 = dict_get a2 (lit "summary") (JStr [])
        /\ a_summary_pt r2 = dict_get a2 (lit "summary_pt") (JStr [])
        /\ a_difficulty_level r2
           = dict_get a2 (lit "difficulty") (JStr (lit "intermediate"))
        /\ a_key_topics r2 = dict_get a2 (lit "key_topics") (JList [])
        /\ a_techniques_shown r2 = dict_get a2 (lit "techniques") (JList [])
        /\ a_raw_response r2 = json_dumps X (JDict a2)
        /\ a_updated_at r2 = Some (db_now X (ticks w1)))
    /\ (a_id r2 = a_id r1
        /\ a_video_id r2 = a_video_id r1
        /\ a_models_mentioned r2 = a_models_mentioned r1
        /\ a_custom_nodes_mentioned r2 = a_custom_nodes_mentioned r1
        /\ a_prerequisites r2 = a_prerequisites r1
        /\ a_model_used r2 = a_model_used r1
        /\ a_tokens_used r2 = a_tokens_used r1
        /\ id1 = a_id r1 /\ id2 = a_id r1)
    /\ as_dict (dict_get a1 (lit "_metadata") (JDict [])) = Some meta1
    /\ (analysis_rows video_id (db w) = [] ->
        a_video_id r1 = video_id
        /\ a_models_mentioned r1 = dict_get a1 (lit "models_mentioned") (JList [])
        /\ a_custom_nodes_mentioned r1
           = dict_get a1 (lit "custom_nodes_mentioned") (JList [])
        /\ a_prerequisites r1 = dict_get a1 (lit "prerequisites") (JList [])
        /\ a_model_used r1 = dict_get meta1 (lit "model") (JStr model_name)
        /\ a_tokens_used r1 = dict_get meta1 (lit "tokens_used") (JInt 0)).
Proof.
  intros Hu E1 E2.
  destruct (save_returned_rows _ _ _ _ _ _ Hu E1)
    as (meta1 & Hm1 & Hr1 & Hid1 & Hu1).
  destruct (save_returned_rows _ _ _ _ _ _ Hu1 E2)
    as (meta2 & Hm2 & Hr2 & Hid2 & Hu2).
  pose proof (filter_singleton_find _ _ _ Hr1) as Hfind.
  unfold upserted_row at 1 in Hr2. unfold upserted_row at 1 in Hid2.
  cbn [proposed_row a_video_id] in Hr2, Hid2.
  unfold analysis_rows in Hfind. rewrite Hfind in Hr2, Hid2.
  eexists _, _, meta1.
  split; [exact Hr1 |]. split; [exact Hr2 |]. split; [exact Hu2 |].
  split; [cbn; repeat split |].
  split; [cbn; repeat split; assumption |].
  split; [exact Hm1 |].
  intros Hnone. unfold upserted_row. cbn [proposed_row a_video_id].
  unfold analysis_rows in Hnone. rewrite (filter_nil_find _ _ Hnone).
  cbn. repeat split.
Qed.

Lemma save_twice_one_row_witness :
  exists r2,
    analysis_rows 42
      (db (snd (save_analysis_to_db Scenario.X0 42 Scenario.second_analysis
                  (snd (save_analysis_to_db Scenario.X0 42
                          Scenario.first_analysis Scenario.w0)))))
    = [r2]
    /\ a_summary r2 = JStr (lit "second")
    /\ a_models_mentioned r2 = JList [JStr (lit "SDXL")].
Proof.
  destruct (save_twice_one_row Scenario.X0 42
              Scenario.first_analysis Scenario.second_analysis Scenario.w0
              1 (snd (save_analysis_to_db Scenario.X0 42
                        Scenario.first_analysis Scenario.w0))
              1 (snd (save_analysis_to_db Scenario.X0 42
                        Scenario.second_analysis
                        (snd (save_analysis_to_db Scenario.X0 42
                                Scenario.first_analysis Scenario.w0))))
              ltac:(constructor) ltac:(vm_compute; reflexivity)
              ltac:(vm_compute; reflexivity))
    as (r1 & r2 & meta1 & H1 & H2 & _ & (Hs & _) & (_ & _ & Hmm & _) & _ & Hfresh).
  exists r2. split; [exact H2 |]. split; [exact Hs |].
  rewrite Hmm.
  destruct (Hfresh ltac:(reflexivity)) as (_ & -> & _). reflexivity.
Defined.

Lemma py_iter_len v items :
  py_iter v = Some items -> exists n, py_len v = Some n.
Proof. destruct v; cbn; intros E; try discriminate; eauto. Qed.

Section SaveRuns.

Variable X : Externals.
Variable video_id : Z.

Lemma save_moments_run items rows :
  Forall2 (moment_inserted X video_id) items rows ->
  forall w,
    (forall n, (ticks w <= n)%nat -> execute_fault X n = false) ->
    sat (for_each items (save_moment X video_id)) w (fun r w' =>
      r = Returned tt
      /\ db w' = insert_moments rows (db w)
      /\ (ticks w <= ticks w')%nat).
Proof.
  induction 1 as [|item row items rows Hrow Hrest IH]; intros w Hfault.
  - unfold sat. cbn. auto.
  - destruct Hrow as (moment & ts & Hd & Hp & ->).
    cbn [for_each]. unfold save_moment. rewrite Hd.
    repeat sat_step. rewrite (Hfault (ticks w)) by lia.
    repeat sat_step. rewrite Hp. repeat sat_step.
    eapply sat_conseq; [apply IH |].
    + intros n Hn. apply Hfault. cbn in Hn. lia.
    + intros r w' (-> & Hdb & Ht). cbn in Ht, Hdb.
      split; [reflexivity |]. split; [exact Hdb | lia].
Qed.

Lemma save_runs analysis meta items rows w :
  as_dict (dict_get analysis (lit "_metadata") (JDict [])) = Some meta ->
  py_iter (key_moments analysis) = Some items ->
  Forall2 (moment_inserted X video_id) items rows ->
  (forall n, (ticks w <= n)%nat -> execute_fault X n = false) ->
  exists analysis_id w',
    save_analysis_to_db X video_id analysis w = (Returned analysis_id, w')
    /\ db w'
       = update_analysis_status video_id (db_now X (ticks w))
           (insert_moments rows
              (snd (upsert_analysis
                      (proposed_row X video_id analysis
                         (dict_get meta (lit "model") (JStr model_name))
                         (dict_get meta (lit "tokens_used") (JInt 0))
                         (db_now X (ticks w)))
                      (db_now X (ticks w)) (db w)))).
Proof.
  intros Hm Hi Hrows Hfault.
  destruct (py_iter_len _ _ Hi) as [n Hn].
  assert (sat (save_analysis_to_db X video_id analysis) w (fun r w' =>
            (exists analysis_id, r = Returned analysis_id)
            /\ db w'
               = update_analysis_status video_id (db_now X (ticks w))
                   (insert_moments rows
                      (snd (upsert_analysis
                              (proposed_row X video_id analysis
                                 (dict_get meta (lit "model") (JStr model_name))
                                 (dict_get meta (lit "tokens_used") (JInt 0))
                                 (db_now X (ticks w)))
                              (db_now X (ticks w)) (db w)))))) as H.
  { unfold save_analysis_to_db, save_transaction, get_of.
    sat_step. rewrite Hm. repeat sat_step.
    rewrite (Hfault (ticks w)) by lia. repeat sat_step.
    rewrite Hi. repeat sat_step.
    eapply sat_conseq; [apply (save_moments_run items rows Hrows) |].
    { intros k Hk. apply Hfault. cbn in Hk. lia. }
    intros r w2 (-> & Hdb & Ht). cbn in Ht.
    repeat sat_step. rewrite (Hfault (ticks w2)) by lia.
    repeat sat_step. rewrite Hn. repeat sat_step.
    split; [eauto |]. cbn [db set_db emitted ticked]. rewrite Hdb.
    reflexivity. }
  unfold sat in H.
  destruct (save_analysis_to_db X video_id analysis w) as [r w'].
  cbn [fst snd] in H. destruct H as [[analysis_id ->] Hdb].
  exists analysis_id, w'. split; [reflexivity | exact Hdb].
Qed.

End SaveRuns.

Lemma moment_inserted_key X video_id item r :
  moment_inserted X video_id item r -> m_video_id r = video_id.
Proof. intros (moment & ts & _ & _ & ->). reflexivity. Qed.

Lemma saved_moments video_id now e rows d :
  video_moments
    (update_analysis_status video_id now
       (insert_moments rows (snd (upsert_analysis e now d))))
  = fold_left (fun l r => insert_row r l) rows (video_moments d).
Proof.
  cbn [update_analysis_status set_videos video_moments].
  rewrite video_moments_insert_moments, video_moments_upsert. reflexivity.
Qed.

(** C4. Inserting a key moment whose (video id, timestamp) is already in
    the table changes nothing and raises nothing: the statement is
    idempotent, and a save repeated on the result of a returned save, the
    store refusing no statement, returns again and leaves [video_moments]
    as it was.  Every call of [save_analysis_to_db], however it ends,
    keeps the table free of two rows with the same (video id,
    timestamp). *)
Theorem key_moment_insert_idempotent X video_id analysis w :
  moments_unique (db w) ->
  moments_unique (db (snd (save_analysis_to_db X video_id analysis w)))
  /\ (forall r d, insert_moment r (insert_moment r d) = insert_moment r d)
  /\ (forall id1 w1,
        save_analysis_to_db X video_id analysis w = (Returned id1, w1) ->
        (forall n, (ticks w1 <= n)%nat -> execute_fault X n = false) ->
        exists id2 w2,
          save_analysis_to_db X video_id analysis w1 = (Returned id2, w2)
          /\ video_moments (db w2) = video_moments (db w1)
          /\ moments_unique (db w2)).
Proof.
  intros Hu.
  assert (forall id1 w1,
            save_analysis_to_db X video_id analysis w = (Returned id1, w1) ->
            moments_unique (db w1)) as Hret.
  { intros id1 w1 E.
    destruct (save_returned _ _ _ _ _ _ E)
      as (meta & items & rows & _ & _ & _ & _ & Hdb).
    unfold moments_unique in *. rewrite Hdb, saved_moments.
    apply insert_rows_unique, Hu. }
  split; [| split].
  - pose proof (save_analysis_to_db_sat X video_id analysis w) as H.
    unfold sat in H.
    destruct (save_analysis_to_db X video_id analysis w) as [[id1|e|] w1] eqn:E;
      cbn [fst snd] in *.
    + eapply Hret; reflexivity.
    + destruct H as (_ & _ & _ & Hm). unfold moments_unique in *.
      rewrite Hm. exact Hu.
    + destruct H as [_ []].
  - intros r d. unfold insert_moment at 1.
    assert (existsb (same_moment (m_video_id r) (m_timestamp_seconds r))
              (video_moments (insert_moment r d)) = true) as ->;
      [| reflexivity].
    rewrite video_moments_insert_moment. apply has_moment_inserted.
  - intros id1 w1 E Hfault.
    destruct (save_returned _ _ _ _ _ _ E)
      as (meta & items & rows & Hm & Hi & Hrows & _ & Hdb).
    destruct (save_runs X video_id analysis meta items rows w1 Hm Hi Hrows Hfault)
      as (id2 & w2 & E2 & Hdb2).
    exists id2, w2. split; [exact E2 |].
    assert (video_moments (db w2) = video_moments (db w1)) as Hsame.
    { rewrite Hdb2, saved_moments. apply insert_rows_present.
      rewrite Hdb, saved_moments. apply insert_rows_all_present. }
    split; [exact Hsame |].
    unfold moments_unique. rewrite Hsame. eapply Hret, E.
Qed.

Lemma key_moment_insert_idempotent_witness :
  moments_unique
    (db (snd (save_analysis_to_db Scenario.X0 42 Scenario.second_analysis
                Scenario.w0)))
  /\ List.length
       (video_moments
          (db (snd (save_analysis_to_db Scenario.X0 42
                      Scenario.second_analysis Scenario.w0)))) = 1%nat.
Proof.
  split.
  - apply (key_moment_insert_idempotent Scenario.X0 42
             Scenario.second_analysis Scenario.w0).
    constructor.
  - vm_compute. reflexivity.
Defined.

(** ** C6: batch extraction of frames *)

Lemma results_set_In results : forall ts p k q,
  In (k, q) (results_set results ts p) ->
  (k = ts /\ q = p) \/ In (k, q) results.
Proof.
  induction results as [|[k0 v0] rest IH]; intros ts p k q H.
  - cbn in H. destruct H as [[= <- <-]|[]]. auto.
  - cbn in H. destruct (k0 =? ts) eqn:E.
    + apply Z.eqb_eq in E. subst k0.
      destruct H as [[= <- <-]|H]; [auto | right; right; exact H].
    + destruct H as [[= <- <-]|H]; [right; left; reflexivity |].
      destruct (IH _ _ _ _ H) as [?|?]; [auto | right; right; assumption].
Qed.

Lemma results_set_keys results : forall ts p k,
  In k (List.map fst (results_set results ts p))
  <-> k = ts \/ In k (List.map fst results).
Proof.
  induction results as [|[k0 v0] rest IH]; intros ts p k.
  - cbn. intuition congruence.
  - cbn. destruct (k0 =? ts) eqn:E.
    + apply Z.eqb_eq in E. subst k0. cbn. intuition congruence.
    + cbn. rewrite IH. intuition congruence.
Qed.

Lemma results_set_nodup results : forall ts p,
  NoDup (List.map fst results) ->
  NoDup (List.map fst (results_set results ts p)).
Proof.
  induction results as [|[k0 v0] rest IH]; intros ts p H.
  - cbn. apply NoDup_singleton.
  - cbn in H. apply NoDup_cons in H as [Hn H].
    cbn. destruct (k0 =? ts) eqn:E.
    + cbn. apply NoDup_cons. split; assumption.
    + cbn. apply NoDup_cons. split; [| apply IH, H].
      intros Hin. apply list_elem_of_In, results_set_keys in Hin.
      apply Z.eqb_neq in E. destruct Hin as [->|Hin]; [congruence |].
      apply Hn, list_elem_of_In, Hin.
Qed.

Lemma ffmpeg_files_mono X n p fs : fs ⊆ ffmpeg_files X n p fs.
Proof. unfold ffmpeg_files. destruct (snd _); set_solver. Qed.

Lemma ffmpeg_runs_mono X output_dir tss : forall n fs,
  fs ⊆ ffmpeg_runs X output_dir tss n fs.
Proof.
  induction tss as [|ts rest IH]; intros n fs; [set_solver |].
  cbn. etransitivity; [apply ffmpeg_files_mono | apply IH].
Qed.

Lemma extract_frame_run X video_path ts p w :
  exists w',
    extract_frame X video_path ts p w
    = (Returned (frame_extracted X (ticks w) p (files w)), w')
    /\ files w' = ffmpeg_files X (ticks w) p (files w)
    /\ db w' = db w
    /\ ticks w' = S (ticks w).
Proof.
  unfold extract_frame, frame_extracted, ffmpeg_files, bind. cbn.
  destruct (ffmpeg_reply X (ticks w)) as [[rc| |] written]; cbn;
    destruct written; cbn; eexists; repeat split.
Qed.

Lemma frame_extracted_exists X n p fs :
  frame_extracted X n p fs = true -> p ∈ ffmpeg_files X n p fs.
Proof.
  unfold frame_extracted. destruct (fst _); try discriminate.
  apply bool_decide_eq_true_1.
Qed.

Lemma extract_loop_run X video_path output_dir tss : forall acc w,
  NoDup (List.map fst acc) ->
  (forall k q, In (k, q) acc -> q = frame_path output_dir k /\ q ∈ files w) ->
  exists results w',
    extract_loop X video_path output_dir (List.map JInt tss) acc w
    = (Returned results, w')
    /\ NoDup (List.map fst results)
    /\ (forall k q, In (k, q) results ->
                    q = frame_path output_dir k /\ q ∈ files w')
    /\ (forall k, In k (List.map fst results)
                  <-> In k (List.map fst acc)
                      \/ extracted_in X output_dir tss (ticks w) (files w) k)
    /\ files w' = ffmpeg_runs X output_dir tss (ticks w) (files w)
    /\ db w' = db w.
Proof.
  induction tss as [|ts rest IH]; intros acc w Hnd Hacc.
  - exists acc, w. cbn. split; [reflexivity |]. split; [exact Hnd |].
    split; [exact Hacc |]. split; [| split; reflexivity].
    intros k. split; [auto |]. intros [H|(pre & post & E & _)]; [exact H |].
    destruct pre; discriminate.
  - cbn [List.map extract_loop as_int or_raise].
    unfold bind at 1. cbn [ret].
    destruct (extract_frame_run X video_path ts (output_dir ++ [frame_name ts]) w)
      as (w1 & E1 & Hf1 & Hd1 & Ht1).
    rewrite (bind_returned _ _ _ _ _ E1).
    fold (frame_path output_dir ts) in *.
    assert (forall k, extracted_in X output_dir (ts :: rest) (ticks w) (files w) k
                      <-> (k = ts /\ frame_extracted X (ticks w)
                                       (frame_path output_dir ts) (files w) = true)
                          \/ extracted_in X output_dir rest (ticks w1) (files w1) k)
      as Hsplit.
    { intros k. unfold extracted_in. rewrite Hf1, Ht1. split.
      - intros (pre & post & E & Hok). destruct pre as [|t pre].
        + injection E as <- <-. left. split; [reflexivity |].
          cbn in Hok. rewrite Nat.add_0_r in Hok. exact Hok.
        + injection E as <- ->. right. exists pre, post.
          split; [reflexivity |]. cbn in Hok.
          replace (S (ticks w) + List.length pre)%nat
            with (ticks w + S (List.length pre))%nat by lia.
          exact Hok.
      - intros [[-> Hok]|(pre & post & -> & Hok)].
        + exists [], rest. split; [reflexivity |]. cbn.
          rewrite Nat.add_0_r. exact Hok.
        + exists (ts :: pre), post. split; [reflexivity |]. cbn.
          replace (ticks w + S (List.length pre))%nat
            with (S (ticks w) + List.length pre)%nat by lia.
          exact Hok. }
    destruct (frame_extracted X (ticks w) (frame_path output_dir ts) (files w))
      eqn:Hok.
    + unfold bind at 1. cbn [print emit].
      match goal with
      | |- context [extract_loop X video_path output_dir (List.map JInt rest)
                      ?acc1 ?w2] =>
          destruct (IH acc1 w2) as (results & w' & E & Hnd' & Hres & Hkeys & Hf & Hd)
      end.
      { apply results_set_nodup, Hnd. }
      { intros k q Hin. cbn [files]. rewrite Hf1.
        apply results_set_In in Hin as [[-> ->]|Hin].
        - split; [reflexivity |]. apply frame_extracted_exists, Hok.
        - destruct (Hacc k q Hin) as [Hq Hfile]. split; [exact Hq |].
          apply (ffmpeg_files_mono X (ticks w) (frame_path output_dir ts)), Hfile. }
      exists results, w'. split; [exact E |]. split; [exact Hnd' |].
      split; [exact Hres |]. cbn [files db ticks] in *.
      split; [| split; [rewrite Hf, Hf1, Ht1; reflexivity | congruence]].
      intros k. rewrite Hkeys, results_set_keys, Hsplit. tauto.
    + unfold bind at 1. cbn [print emit].
      match goal with
      | |- context [extract_loop X video_path output_dir (List.map JInt rest)
                      ?acc1 ?w2] =>
          destruct (IH acc1 w2) as (results & w' & E & Hnd' & Hres & Hkeys & Hf & Hd)
      end.
      { exact Hnd. }
      { intros k q Hin. cbn [files]. rewrite Hf1.
        destruct (Hacc k q Hin) as [Hq Hfile]. split; [exact Hq |].
        apply (ffmpeg_files_mono X (ticks w) (frame_path output_dir ts)), Hfile. }
      exists results, w'. split; [exact E |]. split; [exact Hnd' |].
      split; [exact Hres |]. cbn [files db ticks] in *.
      split; [| split; [rewrite Hf, Hf1, Ht1; reflexivity | congruence]].
      intros k. rewrite Hkeys, Hsplit. intuition congruence.
Qed.

Lemma extract_frames_batch_run X video_path output_dir tss w :
  exists results w',
    extract_frames_batch X video_path (List.map JInt tss) output_dir w
    = (Returned results, w')
    /\ NoDup (List.map fst results)
    /\ (forall ts p, In (ts, p) results ->
                     p = frame_path output_dir ts /\ p ∈ files w')
    /\ (forall ts, In ts (List.map fst results)
                   <-> extracted_in X output_dir tss (ticks w) (files w) ts)
    /\ files w' = ffmpeg_runs X output_dir tss (ticks w) (files w)
    /\ db w' = db w.
Proof.
  unfold extract_frames_batch. unfold bind at 1. cbn [mkdir emit].
  match goal with
  | |- context [extract_loop X video_path output_dir (List.map JInt tss) [] ?w1] =>
      destruct (extract_loop_run X video_path output_dir tss [] w1)
        as (results & w' & E & Hnd & Hres & Hkeys & Hf & Hd)
  end.
  { constructor. }
  { intros k q []. }
  exists results, w'. split; [exact E |]. split; [exact Hnd |].
  split; [exact Hres |]. split; [| split; [exact Hf | exact Hd]].
  intros ts. rewrite Hkeys. cbn. tauto.
Qed.

(** C6, as stated, fails on a re-run: the image of timestamp 99999 is left
    from an earlier run, ffmpeg writes the frames of 0 and 30 and nothing
    for 99999, and the mapping has an entry for 99999 all the same, a
    timestamp whose extraction produced no file. *)
Lemma extract_frames_batch_stale_frame :
  exists results,
    fst (extract_frames_batch Scenario.X_stale Scenario.video_42
           (List.map JInt [0; 30; 99999]) Scenario.frames_42 Scenario.w_stale)
    = Returned results
    /\ In 99999 (List.map fst results)
    /\ ~ produced_in Scenario.X_stale [0; 30; 99999]
           (ticks Scenario.w_stale) 99999
    /\ ~ (forall ts, In ts (List.map fst results)
                     <-> produced_in Scenario.X_stale [0; 30; 99999]
                           (ticks Scenario.w_stale) ts).
Proof.
  assert (~ produced_in Scenario.X_stale [0; 30; 99999]
            (ticks Scenario.w_stale) 99999) as Hnot.
  { intros (pre & post & E & Hw).
    destruct pre as [|a [|b [|c pre]]]; cbn in E; discriminate. }
  eexists. split; [vm_compute; reflexivity |].
  split; [cbn; auto |]. split; [exact Hnot |].
  intros H. apply Hnot, H. cbn. auto.
Qed.

(** The example of C6 on a fresh directory: the frames of 0 and 30 are
    written, the seek to 99999 writes nothing, and the mapping has the
    entries of 0 and 30 only. *)
Example extract_frames_batch_out_of_range :
  List.map fst
    (match fst (extract_frames_batch Scenario.X_stale Scenario.video_42
                  (List.map JInt [0; 30; 99999]) Scenario.frames_42
                  Scenario.w0) with
     | Returned results => results
     | _ => []
     end)
  = [0; 30].
Proof. vm_compute. reflexivity. Qed.

(** C6, amended. For every video path, output directory and list of integer
    timestamps, [extract_frames_batch] returns: no failure of a single
    call, a timeout included, ends the batch.  The mapping has no key
    twice, sends each key [ts] to [output_dir / frame_{ts:05d}s.jpg], a
    file that exists when the batch ends, and its keys are exactly the
    timestamps for which some ffmpeg call ended by itself with the output
    path in place afterwards, written by this call or there before it.  The
    database is not touched. *)
Theorem extract_frames_batch_total X video_path output_dir tss w :
  exists results w',
    extract_frames_batch X video_path (List.map JInt tss) output_dir w
    = (Returned results, w')
    /\ NoDup (List.map fst results)
    /\ (forall ts p, In (ts, p) results ->
                     p = output_dir ++ [frame_name ts] /\ p ∈ files w')
    /\ (forall ts, In ts (List.map fst results)
                   <-> extracted_in X output_dir tss (ticks w) (files w) ts)
    /\ db w' = db w.
Proof.
  destruct (extract_frames_batch_run X video_path output_dir tss w)
    as (results & w' & E & Hnd & Hres & Hkeys & _ & Hd).
  exists results, w'. auto.
Qed.

(** ** C8: the batch *)

Lemma batch_item_run X i n v w :
  batch_item X i n v w
  = match process_video X (Some (v_id v)) None false (announced i n v w) with
    | (Returned _, w1) =>
        (Returned tt, if (i <? n)%nat then paused w1 else w1)
    | (Raised e, w1) => (Returned tt, emitted (EvPrint (MsgError e)) w1)
    | (Diverged, w1) => (Diverged, w1)
    end.
Proof.
  unfold batch_item, bind, try_except, print, sleep, emit, ret, announced,
    paused, emitted.
  destruct (process_video X (Some (v_id v)) None false _)
    as [[a|e|] w1]; [| reflexivity | reflexivity].
  destruct (i <? n)%nat; reflexivity.
Qed.

Lemma batch_item_never_raises X i n v w e :
  fst (batch_item X i n v w) <> Raised e.
Proof.
  rewrite batch_item_run.
  destruct (process_video X (Some (v_id v)) None false (announced i n v w))
    as [[a|e'|] w1]; cbn; discriminate.
Qed.

Lemma batch_loop_never_raises X vs : forall i n w e,
  fst (batch_loop X vs i n w) <> Raised e.
Proof.
  induction vs as [|v rest IH]; intros i n w e; [cbn; discriminate |].
  cbn [batch_loop]. unfold bind.
  pose proof (batch_item_never_raises X i n v w) as Hi.
  destruct (batch_item X i n v w) as [[[]|e'|] w1]; cbn in *.
  - apply IH.
  - exfalso. exact (Hi e' eq_refl).
  - discriminate.
Qed.

(** C8. The batch goes on after a job that failed, but misses the pause
    before the next one: of three pending jobs the second fails to
    download; the batch returns and the third job is processed, but it is
    announced right after the report of the error, with no pause before
    it.  The handler ends with [continue], which skips the pause that the
    comment of the loop places between any two videos. *)
Lemma process_batch_no_pause_after_failure :
  fst (process_batch Scenario.X_job2 10 None Scenario.w3) = Returned tt
  /\ In (EvPrint (MsgError DownloadFailed))
        (history (snd (process_batch Scenario.X_job2 10 None Scenario.w3)))
  /\ In (EvPrint (MsgItem 3 3 (lit "title")))
        (history (snd (process_batch Scenario.X_job2 10 None Scenario.w3)))
  /\ pauses_between_items
       (history (snd (process_batch Scenario.X_job2 10 None Scenario.w3)))
     = false.
Proof.
  split; [vm_compute; reflexivity |].
  split; [vm_compute; tauto |].
  split; [vm_compute; tauto |].
  vm_compute. reflexivity.
Qed.

(** Where every job succeeds, each item after the first follows a pause. *)
Example process_batch_pauses_when_all_succeed :
  pauses_between_items
    (history (snd (process_batch Scenario.X0 10 None Scenario.w3)))
  = true.
Proof. vm_compute. reflexivity. Qed.

(** [process_batch] raises only where the selection of the jobs does,
    before any job is started. *)
Lemma process_batch_raises_in_selection_only X limit source_id w :
  match fst (process_batch X limit source_id w) with
  | Raised e =>
      e = DatabaseError
      /\ events (snd (process_batch X limit source_id w)) = events w
  | _ => True
  end.
Proof.
  change (sat (process_batch X limit source_id) w (fun r w' =>
            match r with
            | Raised e => e = DatabaseError /\ events w' = events w
            | _ => True
            end)).
  unfold process_batch. repeat sat_step.
  destruct (execute_fault X (ticks w)); [cbn; auto |].
  repeat sat_step.
  destruct (select_pending (source_given source_id) limit (db w)) as [vs|];
    [| cbn; auto].
  repeat sat_step. unfold sat.
  match goal with
  | |- context [batch_loop X vs ?i ?n ?w1] =>
      pose proof (batch_loop_never_raises X vs i n w1) as Hn;
      destruct (batch_loop X vs i n w1) as [[[]|e|] w2]
  end; cbn in *; auto.
  exfalso. exact (Hn e eq_refl).
Qed.

(** ** What a stage leaves alone *)

Section Preserves.

Context (R : World -> World -> Prop) `{HF : !Frame R}.

Lemma preserves_ret {A} (a : A) : preserves R (ret a).
Proof. intros w. apply frame_refl. Qed.

Lemma preserves_raise {A} e : preserves R (@raise A e).
Proof. intros w. apply frame_refl. Qed.

Lemma preserves_diverge {A} : preserves R (@diverge A).
Proof. intros w. apply frame_refl. Qed.

Lemma preserves_or_raise {A} (o : option A) e : preserves R (or_raise o e).
Proof. intros w. destruct o; apply frame_refl. Qed.

Lemma preserves_get_db : preserves R get_db.
Proof. intros w. apply frame_refl. Qed.

Lemma preserves_path_exists p : preserves R (path_exists p).
Proof. intros w. apply frame_refl. Qed.

Lemma preserves_bind {A B} (c : M A) (k : A -> M B) :
  preserves R c -> (forall a, preserves R (k a)) -> preserves R (bind c k).
Proof.
  intros Hc Hk w. unfold bind. specialize (Hc w).
  destruct (c w) as [[a|e|] w1]; cbn in *; [| exact Hc | exact Hc].
  eapply frame_trans; [exact Hc | apply Hk].
Qed.

Lemma preserves_try_except {A} (c : M A) (h : exn -> M A) :
  preserves R c -> (forall e, preserves R (h e)) ->
  preserves R (try_except c h).
Proof.
  intros Hc Hh w. unfold try_except. specialize (Hc w).
  destruct (c w) as [[a|e|] w1]; cbn in *; [exact Hc | | exact Hc].
  eapply frame_trans; [exact Hc | apply Hh].
Qed.

Lemma preserves_for_each {A} (l : list A) (body : A -> M unit) :
  (forall x, preserves R (body x)) -> preserves R (for_each l body).
Proof.
  intros Hb. induction l as [|x l IH]; [apply preserves_ret |].
  cbn. apply preserves_bind; [apply Hb | intros _; exact IH].
Qed.

Lemma preserves_map_m {A B} (f : A -> M B) (l : list A) :
  (forall x, preserves R (f x)) -> preserves R (map_m f l).
Proof.
  intros Hf. induction l as [|x l IH]; [apply preserves_ret |].
  cbn. apply preserves_bind; [apply Hf | intros y].
  apply preserves_bind; [exact IH | intros ys; apply preserves_ret].
Qed.

Lemma preserves_with_connection {A} X (body : Z -> M A) :
  (forall now, preserves R (body now)) ->
  preserves R (with_connection X body).
Proof.
  intros Hb w. unfold with_connection. specialize (Hb (db_now X (ticks w)) w).
  destruct (body (db_now X (ticks w)) w) as [[a|e|] w1]; cbn in *;
    [exact Hb | | exact Hb].
  apply frame_rollback, Hb.
Qed.

Lemma preserves_await st answers :
  (forall e, preserves R (emit e)) ->
  preserves R (await_processing st answers).
Proof.
  intros He. revert st. induction answers as [|a rest IH]; intros st.
  - destruct st; first [apply preserves_ret | apply preserves_diverge].
  - destruct st; try apply preserves_ret. cbn.
    apply preserves_bind; [apply He | intros _].
    apply preserves_bind; [apply He | intros _; apply IH].
Qed.

Lemma preserves_wait_loop X api max_wait :
  preserves R (check_rate_limit X api) ->
  (forall m, preserves R (print m)) ->
  preserves R (sleep 10) ->
  forall waited, preserves R (wait_loop X api max_wait waited).
Proof.
  intros Hc Hp Hs.
  assert (forall n waited, (Z.to_nat (max_wait - waited) <= n)%nat ->
                           preserves R (wait_loop X api max_wait waited)) as H.
  { induction n as [|n IH]; intros waited Hn; rewrite wait_loop_equation_1;
      (apply preserves_bind; [exact Hc | intros granted]);
      (destruct granted; [apply Hp |]);
      (destruct (Z_le_dec max_wait waited) as [Hle|Hgt];
         [apply preserves_raise |]).
    - lia.
    - apply preserves_bind; [apply Hp | intros _].
      apply preserves_bind; [apply Hs | intros _].
      intros w. apply IH. lia. }
  intros waited. eapply H. reflexivity.
Qed.

End Preserves.

(** [apply] for the lemmas above: the [Frame] instance is found by
    resolution. *)
Ltac fapply lem := apply lem; try tc_solve.

(** The steps of a preservation proof that follow the shape of the
    computation; [leaf] closes what is left. *)
Ltac frame_with leaf :=
  repeat first
    [ fapply preserves_ret
    | fapply preserves_raise
    | fapply preserves_diverge
    | fapply preserves_or_raise
    | fapply preserves_get_db
    | fapply preserves_path_exists
    | fapply preserves_bind; [| intros ?]
    | fapply preserves_with_connection; intros ?
    | fapply preserves_for_each; intros ?
    | fapply preserves_map_m; intros ?
    | fapply preserves_try_except; [| intros ?]
    | match goal with
      | |- preserves _ (match ?x with _ => _ end) => destruct x
      end
    | solve [leaf] ].

#[export] Instance same_files_frame : Frame same_files.
Proof.
  split; unfold same_files.
  - reflexivity.
  - intros w1 w2 w3 H1 H2. congruence.
  - intros w w' H. exact H.
Qed.

#[export] Instance tables_kept_frame : Frame tables_kept.
Proof.
  split; unfold tables_kept.
  - intros w. repeat split.
  - intros w1 w2 w3 (A1 & A2 & A3 & A4 & A5) (B1 & B2 & B3 & B4 & B5).
    repeat split; congruence.
  - intros w w' _. cbn. repeat split.
Qed.

#[export] Instance emits_frame P : Frame (emits P).
Proof.
  split; unfold emits.
  - intros w. exists []. split; reflexivity.
  - intros w1 w2 w3 (n1 & E1 & F1) (n2 & E2 & F2).
    exists (n2 ++ n1). split.
    + rewrite E2, E1. apply app_assoc.
    + rewrite forallb_app, F1, F2. reflexivity.
  - intros w w' H. exact H.
Qed.

Create HintDb frame discriminated.

Lemma preserves_extract_loop R `{!Frame R} X video_path output_dir :
  (forall ts p, preserves R (extract_frame X video_path ts p)) ->
  (forall m, preserves R (print m)) ->
  forall timestamps acc,
    preserves R (extract_loop X video_path output_dir timestamps acc).
Proof.
  intros He Hp. induction timestamps as [|v rest IH]; intros acc.
  - fapply preserves_ret.
  - cbn. fapply preserves_bind; [fapply preserves_or_raise | intros ts].
    fapply preserves_bind; [apply He | intros ok].
    destruct ok; (fapply preserves_bind; [apply Hp | intros _; apply IH]).
Qed.

Ltac unfold_program :=
  unfold process_video, analyze_and_finish, download_stage, extract_stage,
    cleanup_stage,
    save_frame_paths, frame_paths_transaction, lookup_video,
    save_analysis_to_db, save_transaction, save_moment, get_of, timestamp_of,
    analyze_video_with_gemini, parse_response, extract_frames_batch,
    extract_frame, download_video, wait_for_rate_limit, check_rate_limit,
    execute, execute_returning, execute_query, unlink, write_output, mkdir,
    print, sleep.

(** *** The files *)

Ltac split_ifs :=
  repeat match goal with
         | |- context [if ?b then _ else _] => destruct b
         end.

Ltac files_leaf :=
  first [ solve [eauto with frame] | intros; intros ?; reflexivity ].

Lemma wait_keeps_files X api max_wait :
  preserves same_files (wait_for_rate_limit X api max_wait).
Proof.
  unfold wait_for_rate_limit. fapply preserves_wait_loop; try tc_solve;
  unfold_program; frame_with files_leaf.
Qed.
#[export] Hint Resolve wait_keeps_files : frame.

Lemma await_keeps_files st answers :
  preserves same_files (await_processing st answers).
Proof. fapply preserves_await. intros e w. reflexivity. Qed.
#[export] Hint Resolve await_keeps_files : frame.

Lemma lookup_keeps_files X video_id video_url :
  preserves same_files (lookup_video X video_id video_url).
Proof. unfold_program. frame_with files_leaf. Qed.

Lemma analyze_keeps_files X video_path title description :
  preserves same_files
    (analyze_video_with_gemini X video_path title description).
Proof. unfold_program. frame_with files_leaf. Qed.



(** *** The tables *)

Ltac tables_leaf :=
  first [ solve [eauto with frame]
        | intros; intros ?; unfold tables_kept; cbn; split_ifs; cbn; tauto ].

Lemma wait_keeps_tables X api max_wait :
  preserves tables_kept (wait_for_rate_limit X api max_wait).
Proof.
  unfold wait_for_rate_limit. fapply preserves_wait_loop; try tc_solve;
  unfold_program; frame_with tables_leaf.
Qed.
#[export] Hint Resolve wait_keeps_tables : frame.

Lemma await_keeps_tables st answers :
  preserves tables_kept (await_processing st answers).
Proof.
  fapply preserves_await. intros e w.
  unfold tables_kept. cbn. tauto.
Qed.
#[export] Hint Resolve await_keeps_tables : frame.

Lemma lookup_keeps_tables X video_id video_url :
  preserves tables_kept (lookup_video X video_id video_url).
Proof. unfold_program. frame_with tables_leaf. Qed.

Lemma download_stage_keeps_tables X url video_path skip_download :
  preserves tables_kept (download_stage X url video_path skip_download).
Proof.
  unfold download_stage, download_video.
  unfold execute, write_output, mkdir, print, sleep.
  frame_with tables_leaf.
Qed.

Lemma analyze_keeps_tables X video_path title description :
  preserves tables_kept
    (analyze_video_with_gemini X video_path title description).
Proof. unfold_program. frame_with tables_leaf. Qed.



Lemma cleanup_keeps_tables video_path :
  preserves tables_kept (cleanup_stage video_path).
Proof. unfold_program. frame_with tables_leaf. Qed.

(** *** The events *)

Ltac emits_leaf :=
  first [ solve [eauto with frame]
        | intros; intros ?; cbn; split_ifs; exists []; split; reflexivity
        | intros; intros ?; cbn; split_ifs; eexists [_]; split; reflexivity ].

Lemma await_emits P st answers :
  P (EvSleep 5) = true -> P EvGetFile = true ->
  preserves (emits P) (await_processing st answers).
Proof.
  intros H1 H2. revert st. induction answers as [|a rest IH]; intros st.
  - destruct st; first [fapply preserves_ret | fapply preserves_diverge].
  - destruct st; try fapply preserves_ret. cbn.
    fapply preserves_bind.
    { intros w. exists [EvSleep 5]. cbn. rewrite H1. auto. }
    intros _. fapply preserves_bind; [| intros _; apply IH].
    intros w. exists [EvGetFile]. cbn. rewrite H2. auto.
Qed.

Lemma lookup_emits P X video_id video_url :
  preserves (emits P) (lookup_video X video_id video_url).
Proof. unfold_program. frame_with emits_leaf. Qed.

Lemma wait_gemini_no_download X max_wait :
  preserves (emits not_download)
    (wait_for_rate_limit X (lit "gemini_flash") max_wait).
Proof.
  unfold wait_for_rate_limit. apply preserves_wait_loop; try tc_solve;
  unfold_program; frame_with emits_leaf.
Qed.

Lemma analyze_no_download X video_path title description :
  preserves (emits not_download)
    (analyze_video_with_gemini X video_path title description).
Proof.
  unfold analyze_video_with_gemini, parse_response, print.
  frame_with ltac:(first [ solve [apply await_emits; reflexivity]
                         | emits_leaf ]).
Qed.

Lemma save_no_download X video_id analysis :
  preserves (emits not_download) (save_analysis_to_db X video_id analysis).
Proof. unfold_program. frame_with emits_leaf. Qed.

Lemma extract_stage_no_download X video_id video_path moments :
  preserves (emits not_download) (extract_stage X video_id video_path moments).
Proof.
  unfold extract_stage, save_frame_paths, frame_paths_transaction,
    extract_frames_batch, timestamp_of, get_of, execute, mkdir, print.
  frame_with ltac:(first
    [ solve [fapply preserves_extract_loop;
             [ intros; unfold extract_frame, write_output, print;
               frame_with emits_leaf
             | emits_leaf ]]
    | emits_leaf ]).
Qed.

Lemma cleanup_no_download video_path :
  preserves (emits not_download) (cleanup_stage video_path).
Proof. unfold_program. frame_with emits_leaf. Qed.

Lemma wait_no_ffmpeg X api max_wait :
  preserves (emits not_ffmpeg) (wait_for_rate_limit X api max_wait).
Proof.
  unfold wait_for_rate_limit. apply preserves_wait_loop; try tc_solve;
  unfold_program; frame_with emits_leaf.
Qed.

Lemma download_stage_no_ffmpeg X url video_path skip_download :
  preserves (emits not_ffmpeg) (download_stage X url video_path skip_download).
Proof.
  unfold download_stage, download_video, write_output, print.
  frame_with ltac:(first [ solve [apply wait_no_ffmpeg] | emits_leaf ]).
Qed.

Lemma analyze_no_ffmpeg X video_path title description :
  preserves (emits not_ffmpeg)
    (analyze_video_with_gemini X video_path title description).
Proof.
  unfold analyze_video_with_gemini, parse_response, print.
  frame_with ltac:(first [ solve [apply await_emits; reflexivity]
                         | emits_leaf ]).
Qed.

Lemma save_no_ffmpeg X video_id analysis :
  preserves (emits not_ffmpeg) (save_analysis_to_db X video_id analysis).
Proof. unfold_program. frame_with emits_leaf. Qed.

Lemma cleanup_no_ffmpeg video_path :
  preserves (emits not_ffmpeg) (cleanup_stage video_path).
Proof. unfold_program. frame_with emits_leaf. Qed.

#[export] Hint Resolve wait_gemini_no_download analyze_no_download
  save_no_download extract_stage_no_download cleanup_no_download
  wait_no_ffmpeg download_stage_no_ffmpeg analyze_no_ffmpeg save_no_ffmpeg
  cleanup_no_ffmpeg : frame.

Lemma emits_mono (P Q : Event -> bool) {A} (c : M A) :
  (forall e, P e = true -> Q e = true) ->
  preserves (emits P) c -> preserves (emits Q) c.
Proof.
  intros HPQ H w. destruct (H w) as (new & E & F). exists new.
  split; [exact E |]. rewrite forallb_forall in *. auto.
Qed.

Lemma analyze_and_finish_no_download X v video_path :
  preserves (emits not_download) (analyze_and_finish X v video_path).
Proof. unfold analyze_and_finish, print. frame_with emits_leaf. Qed.

(** *** The quota *)

#[export] Instance units_kept_frame api : Frame (units_kept api).
Proof.
  split; unfold units_kept.
  - reflexivity.
  - intros w1 w2 w3 H1 H2. congruence.
  - intros w w' _. reflexivity.
Qed.

Ltac units_leaf :=
  first [ solve [eauto with frame]
        | intros; intros ?; unfold units_kept, units_used, upsert_analysis,
            insert_moment; cbn;
          repeat match goal with
                 | |- context [match ?x with _ => _ end] => destruct x
                 end; reflexivity ].

Lemma await_keeps_units api st answers :
  preserves (units_kept api) (await_processing st answers).
Proof. fapply preserves_await. intros e w. reflexivity. Qed.
#[export] Hint Resolve await_keeps_units : frame.

Lemma lookup_keeps_units api X video_id video_url :
  preserves (units_kept api) (lookup_video X video_id video_url).
Proof. unfold_program. frame_with units_leaf. Qed.

Lemma wait_gemini_keeps_download_units X max_wait :
  preserves (units_kept (lit "youtube_data"))
    (wait_for_rate_limit X (lit "gemini_flash") max_wait).
Proof.
  unfold wait_for_rate_limit. apply preserves_wait_loop; try tc_solve;
  unfold_program;
  frame_with ltac:(first
    [ solve [intros w; apply units_used_consume_other;
             intros H; vm_compute in H; discriminate]
    | units_leaf ]).
Qed.

Lemma analyze_keeps_units api X video_path title description :
  preserves (units_kept api)
    (analyze_video_with_gemini X video_path title description).
Proof. unfold_program. frame_with units_leaf. Qed.

Lemma save_keeps_units api X video_id analysis :
  preserves (units_kept api) (save_analysis_to_db X video_id analysis).
Proof. unfold_program. frame_with units_leaf. Qed.

Lemma extract_stage_keeps_units api X video_id video_path moments :
  preserves (units_kept api) (extract_stage X video_id video_path moments).
Proof.
  unfold extract_stage, save_frame_paths, frame_paths_transaction,
    extract_frames_batch, timestamp_of, get_of, execute, mkdir, print.
  frame_with ltac:(first
    [ solve [fapply preserves_extract_loop;
             [ intros; unfold extract_frame, write_output, print;
               frame_with units_leaf
             | units_leaf ]]
    | units_leaf ]).
Qed.

Lemma cleanup_keeps_units api video_path :
  preserves (units_kept api) (cleanup_stage video_path).
Proof. unfold_program. frame_with units_leaf. Qed.

#[export] Hint Resolve wait_gemini_keeps_download_units analyze_keeps_units
  save_keeps_units extract_stage_keeps_units cleanup_keeps_units : frame.

Lemma analyze_and_finish_keeps_download_units X v video_path :
  preserves (units_kept (lit "youtube_data"))
    (analyze_and_finish X v video_path).
Proof. unfold analyze_and_finish, print. frame_with units_leaf. Qed.

(** ** C9: the download stage *)

Lemma download_stage_skipped X url p w :
  p ∈ files w ->
  download_stage X url p true w
  = (Returned tt, emitted (EvPrint MsgUsingDownloaded) w).
Proof.
  intros Hp. unfold download_stage, bind, path_exists.
  rewrite bool_decide_eq_true_2 by exact Hp. reflexivity.
Qed.

Lemma checks_first_bind {A B} (c : M A) (k : A -> M B) :
  checks_download_first c ->
  (forall a, preserves (emits (fun _ => true)) (k a)) ->
  checks_download_first (bind c k).
Proof.
  intros Hc Hk w. destruct (Hc w) as (new & r & E). unfold bind.
  destruct (c w) as [[a|e|] w1]; cbn in *; eauto.
  destruct (Hk a w1) as (new' & E' & _).
  exists (new' ++ new), r. rewrite E', E. apply app_assoc.
Qed.

Lemma check_rate_limit_first X :
  checks_download_first (check_rate_limit X (lit "youtube_data")).
Proof.
  intros w. exists [], (rate_reply X (ticks w)).
  unfold check_rate_limit, with_connection, bind. cbn.
  destruct (rate_reply X (ticks w)); reflexivity.
Qed.

Lemma wait_grows X api max_wait waited :
  preserves (emits (fun _ => true)) (wait_loop X api max_wait waited).
Proof.
  apply preserves_wait_loop; try tc_solve;
  unfold_program; frame_with emits_leaf.
Qed.

Lemma download_video_grows X url p max_height :
  preserves (emits (fun _ => true)) (download_video X url p max_height).
Proof. unfold download_video, write_output, print. frame_with emits_leaf. Qed.

Lemma download_stage_runs X url p skip_download :
  forall w, skip_download = false \/ p ∉ files w ->
  exists new r,
    events (snd (download_stage X url p skip_download w))
    = new ++ EvRateCheck (lit "youtube_data") r :: events w.
Proof.
  intros w Hrun. unfold download_stage. unfold bind at 1. cbn [path_exists].
  assert (negb skip_download || negb (bool_decide (p ∈ files w)) = true) as ->.
  { destruct Hrun as [->|Hp]; [reflexivity |].
    rewrite (bool_decide_eq_false_2 _ Hp). apply orb_true_r. }
  revert w Hrun.
  change (forall w, skip_download = false \/ p ∉ files w ->
          exists new r,
            events (snd ((wait_for_rate_limit X (lit "youtube_data") 120 ;;
                          ok <- download_video X url p 720 ;;
                          (if ok then ret tt else raise DownloadFailed)) w))
            = new ++ EvRateCheck (lit "youtube_data") r :: events w).
  intros w _. revert w.
  change (checks_download_first
            (wait_for_rate_limit X (lit "youtube_data") 120 ;;
             ok <- download_video X url p 720 ;;
             (if ok then ret tt else raise DownloadFailed))).
  apply checks_first_bind.
  - unfold wait_for_rate_limit. rewrite wait_loop_equation_1.
    apply checks_first_bind; [apply check_rate_limit_first |].
    intros granted. unfold print.
    frame_with ltac:(first [ solve [intros w; apply wait_grows] | emits_leaf ]).
  - intros _.
    frame_with ltac:(first [ solve [apply download_video_grows] | emits_leaf ]).
Qed.

Lemma lookup_run X video_id video_url w r w1 :
  lookup_video X video_id video_url w = (r, w1) ->
  events w1 = events w /\ files w1 = files w
  /\ tables_kept w w1
  /\ units_used (lit "youtube_data") (db w1)
     = units_used (lit "youtube_data") (db w).
Proof.
  intros E.
  pose proof (lookup_emits (fun _ => false) X video_id video_url w) as (new & He & Hn).
  pose proof (lookup_keeps_files X video_id video_url w) as Hf.
  pose proof (lookup_keeps_tables X video_id video_url w) as Ht.
  pose proof (lookup_keeps_units (lit "youtube_data") X video_id video_url w) as Hu.
  rewrite E in *. cbn [snd] in *.
  destruct new as [|e new]; [| discriminate].
  repeat split; try assumption; apply Ht.
Qed.

(** C9. For a video that the lookup finds: [process_video] makes no event
    of the download stage, neither a run of the downloader nor a check of
    the quota of the download resource, exactly when [skip_download] is set
    and the local video file exists; in that case no unit of that quota is
    consumed either.  Otherwise the stage runs, starting with the check of
    the quota. *)
Theorem skip_download_skips_downloader
    X video_id video_url skip_download w jv w1 :
  lookup_video X video_id video_url w = (Returned jv, w1) ->
  exists new,
    events (snd (process_video X video_id video_url skip_download w))
    = new ++ events w
    /\ (forallb not_download new = true
        <-> skip_download = true
            /\ video_file X (v_id (video jv)) ∈ files w)
    /\ (skip_download = true ->
        video_file X (v_id (video jv)) ∈ files w ->
        units_used (lit "youtube_data")
          (db (snd (process_video X video_id video_url skip_download w)))
        = units_used (lit "youtube_data") (db w)).
Proof.
  intros E. destruct (lookup_run _ _ _ _ _ _ E) as (Hev & Hfi & _ & Hun).
  set (p := video_file X (v_id (video jv))).
  set (w2 := emitted (EvMkdir (VIDEOS_DIR X ++ [str_of_Z (v_id (video jv))]))
               (emitted (EvPrint (MsgProcessing (v_title (video jv))
                                    (creator_name jv))) w1)).
  assert (process_video X video_id video_url skip_download w
          = (download_stage X (v_url (video jv)) p skip_download ;;
             analyze_and_finish X (video jv) p) w2) as ->.
  { unfold process_video. rewrite (bind_returned _ _ _ _ _ E). reflexivity. }
  destruct (decide (skip_download = true /\ p ∈ files w)) as [[-> Hp]|Hno].
  - rewrite (bind_returned _ _ _ _ _
               (download_stage_skipped X _ p w2 ltac:(cbn; rewrite Hfi; exact Hp))).
    destruct (analyze_and_finish_no_download X (video jv) p
                (emitted (EvPrint MsgUsingDownloaded) w2)) as (new & En & Fn).
    pose proof (analyze_and_finish_keeps_download_units X (video jv) p
                  (emitted (EvPrint MsgUsingDownloaded) w2)) as Hu.
    exists (new ++ [EvPrint MsgUsingDownloaded;
                    EvMkdir (VIDEOS_DIR X ++ [str_of_Z (v_id (video jv))]);
                    EvPrint (MsgProcessing (v_title (video jv)) (creator_name jv))]).
    split; [| split].
    + rewrite En. unfold w2. cbn [events emitted]. rewrite Hev, <- app_assoc.
      reflexivity.
    + rewrite forallb_app, Fn. cbn. tauto.
    + intros _ _. unfold units_kept in Hu. rewrite Hu. exact Hun.
  - assert (skip_download = false \/ p ∉ files w2) as Hrun.
    { destruct skip_download; [right | left; reflexivity].
      cbn. rewrite Hfi. intros Hp. apply Hno. auto. }
    destruct (download_stage_runs X (v_url (video jv)) p skip_download w2 Hrun)
      as (new & r & En).
    assert (exists new',
              events (snd ((download_stage X (v_url (video jv)) p skip_download ;;
                            analyze_and_finish X (video jv) p) w2))
              = new' ++ EvRateCheck (lit "youtube_data") r :: events w2)
      as (new' & En').
    { unfold bind.
      destruct (download_stage X (v_url (video jv)) p skip_download w2)
        as [[[]|e|] w3]; cbn [snd] in *; eauto.
      destruct (analyze_and_finish_no_download X (video jv) p w3)
        as (new3 & E3 & _).
      exists (new3 ++ new). rewrite E3, En. apply app_assoc. }
    exists (new' ++ [EvRateCheck (lit "youtube_data") r;
                     EvMkdir (VIDEOS_DIR X ++ [str_of_Z (v_id (video jv))]);
                     EvPrint (MsgProcessing (v_title (video jv)) (creator_name jv))]).
    split; [| split].
    + rewrite En'. unfold w2. cbn [events emitted]. rewrite Hev, <- app_assoc.
      reflexivity.
    + rewrite forallb_app. cbn. rewrite andb_false_r. split; [discriminate |].
      intros H. exfalso. exact (Hno H).
    + intros Hs Hp. exfalso. apply Hno. auto.
Qed.

Lemma skip_download_skips_downloader_witness :
  exists new,
    events (snd (process_video Scenario.X0 (Some 42) None true
                   Scenario.w_present))
    = new ++ events Scenario.w_present
    /\ forallb not_download new = true.
Proof.
  destruct (skip_download_skips_downloader Scenario.X0 (Some 42) None true
              Scenario.w_present
              {| video := Scenario.a_video 42 3; platform := lit "youtube";
                 creator_name := lit "creator" |}
              (ticked Scenario.w_present) ltac:(vm_compute; reflexivity))
    as (new & E & Hiff & _).
  exists new. split; [exact E |]. apply Hiff. split; [reflexivity |].
  change (Scenario.video_42 ∈ ({[ Scenario.video_42 ]} : gset path)).
  apply elem_of_singleton_2. reflexivity.
Defined.

(** ** C10 and C5: the end of a run *)

(** What [E : c w = (r, w')] says of [w'], by a preservation lemma. *)
Ltac learn L E :=
  let H := fresh "H" in
  pose proof L as H; unfold preserves in H;
  match type of E with
  | ?c ?w = _ => specialize (H w); rewrite E in H; cbn [snd] in H
  end.

Lemma extract_loop_returned X video_path output_dir timestamps :
  forall acc w results w',
    extract_loop X video_path output_dir timestamps acc w
    = (Returned results, w') ->
    NoDup (List.map fst acc) ->
    (forall k q, In (k, q) acc -> q = frame_path output_dir k /\ q ∈ files w) ->
    NoDup (List.map fst results)
    /\ (forall k q, In (k, q) results ->
                    q = frame_path output_dir k /\ q ∈ files w')
    /\ (forall k, In k (List.map fst results) ->
                  In k (List.map fst acc)
                  \/ exists t, In t timestamps /\ as_int t = Some k)
    /\ db w' = db w.
Proof.
  induction timestamps as [|v rest IH]; intros acc w results w' E Hnd Hacc.
  - cbn in E. injection E as <- <-. auto.
  - cbn [extract_loop] in E.
    apply bind_inv in E as (ts & w0 & E0 & E).
    destruct (as_int v) as [ts0|] eqn:Hv; cbn in E0; [| discriminate].
    injection E0 as -> <-.
    destruct (extract_frame_run X video_path ts (output_dir ++ [frame_name ts]) w)
      as (w1 & E1 & Hf1 & Hd1 & Ht1).
    rewrite (bind_returned _ _ _ _ _ E1) in E.
    fold (frame_path output_dir ts) in *.
    destruct (frame_extracted X (ticks w) (frame_path output_dir ts) (files w))
      eqn:Hok; unfold bind at 1 in E; cbn [print emit] in E;
      apply IH in E as (Hnd' & Hres & Hkeys & Hd).
    + split; [exact Hnd' |]. split; [exact Hres |].
      split; [| cbn in Hd; congruence].
      intros k Hk. destruct (Hkeys k Hk) as [Hin|(t & Ht & Hk')].
      * apply results_set_keys in Hin as [->|Hin]; [| auto].
        right. exists v. split; [left; reflexivity | exact Hv].
      * right. exists t. split; [right; exact Ht | exact Hk'].
    + apply results_set_nodup, Hnd.
    + intros k q Hin. cbn [files]. rewrite Hf1.
      apply results_set_In in Hin as [[-> ->]|Hin].
      * split; [reflexivity |]. apply frame_extracted_exists, Hok.
      * destruct (Hacc k q Hin) as [Hq Hfile]. split; [exact Hq |].
        apply (ffmpeg_files_mono X (ticks w) (frame_path output_dir ts)), Hfile.
    + split; [exact Hnd' |]. split; [exact Hres |].
      split; [| cbn in Hd; congruence].
      intros k Hk. destruct (Hkeys k Hk) as [Hin|(t & Ht & Hk')]; [auto |].
      right. exists t. split; [right; exact Ht | exact Hk'].
    + exact Hnd.
    + intros k q Hin. cbn [files]. rewrite Hf1.
      destruct (Hacc k q Hin) as [Hq Hfile]. split; [exact Hq |].
      apply (ffmpeg_files_mono X (ticks w) (frame_path output_dir ts)), Hfile.
Qed.

Lemma extract_batch_returned X video_path timestamps output_dir w results w' :
  extract_frames_batch X video_path timestamps output_dir w
  = (Returned results, w') ->
  NoDup (List.map fst results)
  /\ (forall ts p, In (ts, p) results ->
                   p = frame_path output_dir ts /\ p ∈ files w')
  /\ (forall ts, In ts (List.map fst results) ->
                 exists t, In t timestamps /\ as_int t = Some ts)
  /\ db w' = db w.
Proof.
  unfold extract_frames_batch. intros E.
  apply bind_inv in E as ([] & w0 & E0 & E). injection E0 as <-.
  apply extract_loop_returned in E as (Hnd & Hres & Hkeys & Hd).
  - split; [exact Hnd |]. split; [exact Hres |]. split; [| exact Hd].
    intros ts Hts. destruct (Hkeys ts Hts) as [[]|H]. exact H.
  - constructor.
  - intros k q [].
Qed.

Section FramePaths.

Variable X : Externals.
Variable video_id : Z.

Lemma frame_path_updates_sat extracted : forall w,
  sat (for_each extracted (fun item =>
         execute X (update_frame_path (path_str (snd item)) video_id (fst item))))
      w (fun r w' =>
           files w' = files w /\
           match r with
           | Returned _ => db w' = set_frame_paths video_id extracted (db w)
           | Raised _ => True
           | Diverged => False
           end).
Proof.
  induction extracted as [|item rest IH]; intros w.
  - unfold sat. cbn. auto.
  - cbn [for_each]. repeat sat_step.
    destruct (execute_fault X (ticks w)); [cbn; auto |].
    eapply sat_conseq; [apply IH |].
    intros [[]|e|] w' [Hf H]; cbn in *; auto.
Qed.

Lemma save_frame_paths_returned extracted w w' :
  save_frame_paths X video_id extracted w = (Returned tt, w') ->
  files w' = files w
  /\ db w' = update_frames_status video_id
               (set_frame_paths video_id extracted (db w)).
Proof.
  intros E.
  assert (sat (save_frame_paths X video_id extracted) w (fun r w' =>
            match r with
            | Returned _ =>
                files w' = files w
                /\ db w' = update_frames_status video_id
                             (set_frame_paths video_id extracted (db w))
            | _ => True
            end)) as H.
  { unfold save_frame_paths, frame_paths_transaction. repeat sat_step.
    eapply sat_conseq; [apply frame_path_updates_sat |].
    intros [[]|e|] w1 [Hf H]; cbn in *; auto.
    repeat sat_step. destruct (execute_fault X (ticks w1)); [exact I |].
    cbn. rewrite H. auto. }
  unfold sat in H. rewrite E in H. exact H.
Qed.

Lemma video_moments_set_frame_paths extracted : forall d,
  video_moments (set_frame_paths video_id extracted d)
  = List.map (set_frame_path_of video_id extracted) (video_moments d).
Proof.
  induction extracted as [|item rest IH]; intros d.
  - cbn. symmetry. apply List.map_id.
  - cbn [set_frame_paths fold_left] in *. unfold set_frame_paths in IH.
    rewrite IH. cbn [update_frame_path set_video_moments video_moments].
    rewrite List.map_map. reflexivity.
Qed.

Lemma videos_set_frame_paths extracted : forall d,
  videos (set_frame_paths video_id extracted d) = videos d.
Proof.
  induction extracted as [|item rest IH]; intros d; [reflexivity |].
  cbn [set_frame_paths fold_left] in *. unfold set_frame_paths in IH.
  rewrite IH. reflexivity.
Qed.

Lemma set_frame_path_of_key extracted : forall r,
  moment_key (set_frame_path_of video_id extracted r) = moment_key r.
Proof.
  induction extracted as [|item rest IH]; intros r; [reflexivity |].
  cbn [set_frame_path_of fold_left] in *. unfold set_frame_path_of in IH.
  rewrite IH. destruct (same_moment video_id (fst item) r); reflexivity.
Qed.

Lemma set_frame_path_of_other extracted ts : forall r,
  ~ In ts (List.map fst extracted) ->
  moment_key r = (video_id, ts) ->
  set_frame_path_of video_id extracted r = r.
Proof.
  induction extracted as [|[k q] rest IH]; intros r Hn Hk; [reflexivity |].
  cbn [set_frame_path_of fold_left fst snd] in *.
  unfold set_frame_path_of in IH.
  assert (same_moment video_id k r = false) as ->.
  { destruct (same_moment video_id k r) eqn:E; [| reflexivity].
    apply same_moment_key in E. rewrite Hk in E. injection E as ->.
    exfalso. apply Hn. left. reflexivity. }
  apply IH; [| exact Hk]. intros Hin. apply Hn. right. exact Hin.
Qed.

Lemma set_frame_path_of_found extracted ts p : forall r,
  NoDup (List.map fst extracted) ->
  In (ts, p) extracted ->
  moment_key r = (video_id, ts) ->
  m_frame_path (set_frame_path_of video_id extracted r) = Some (path_str p).
Proof.
  induction extracted as [|[k q] rest IH]; intros r Hnd Hin Hk; [destruct Hin |].
  cbn in Hnd. apply NoDup_cons in Hnd as [Hnotin Hnd].
  cbn [set_frame_path_of fold_left fst snd] in *.
  unfold set_frame_path_of in IH.
  destruct Hin as [[= -> ->]|Hin].
  - assert (same_moment video_id ts r = true) as ->
      by (apply same_moment_key; exact Hk).
    fold (set_frame_path_of video_id rest (with_frame_path (path_str p) r)).
    rewrite (set_frame_path_of_other rest ts); [reflexivity | | exact Hk].
    intros H. apply Hnotin, list_elem_of_In, H.
  - assert (same_moment video_id k r = false) as ->.
    { destruct (same_moment video_id k r) eqn:E; [| reflexivity].
      apply same_moment_key in E. rewrite Hk in E. injection E as ->.
      exfalso. apply Hnotin, list_elem_of_In.
      apply (in_map fst) in Hin. exact Hin. }
    apply IH; assumption.
Qed.

End FramePaths.

Lemma cleanup_run video_path w :
  exists w',
    cleanup_stage video_path w = (Returned tt, w')
    /\ db w' = db w
    /\ files w' = files w ∖ {[video_path]}.
Proof.
  unfold cleanup_stage, bind, path_exists, unlink, bind. cbn.
  destruct (decide (video_path ∈ files w)) as [Hin|Hout].
  - rewrite bool_decide_eq_true_2 by exact Hin. cbn.
    eexists. split; [reflexivity |]. split; reflexivity.
  - rewrite bool_decide_eq_false_2 by exact Hout. cbn.
    eexists. split; [reflexivity |]. split; [reflexivity |].
    apply set_eq. intros x. rewrite elem_of_difference, elem_of_singleton.
    split; [| intros [Hx _]; exact Hx].
    intros Hx. split; [exact Hx |]. intros ->. exact (Hout Hx).
Qed.

Lemma map_m_timestamps items : forall w timestamps w',
  map_m timestamp_of items w = (Returned timestamps, w') ->
  w' = w
  /\ Forall2 (fun item t =>
                exists moment,
                  as_dict item = Some moment
                  /\ t = dict_get moment (lit "timestamp_seconds") (JInt 0))
             items timestamps.
Proof.
  induction items as [|item rest IH]; intros w timestamps w' E.
  - cbn in E. injection E as <- <-. split; [reflexivity | constructor].
  - cbn [map_m] in E. apply bind_inv in E as (t & w1 & E1 & E).
    apply bind_inv in E as (ts & w2 & E2 & E).
    cbn in E. injection E as <- <-.
    unfold timestamp_of, get_of in E1.
    destruct (as_dict item) as [moment|] eqn:Hd; cbn in E1; [| discriminate].
    injection E1 as <- <-.
    apply IH in E2 as [-> Hrest]. split; [reflexivity |].
    constructor; [| exact Hrest]. exists moment. auto.
Qed.

Lemma extract_stage_returned X video_id video_path moments w w' :
  extract_stage X video_id video_path moments w = (Returned tt, w') ->
  py_truthy moments = true ->
  exists items timestamps extracted w1 w2 w3,
    py_iter moments = Some items
    /\ Forall2 (fun item t =>
                  exists moment,
                    as_dict item = Some moment
                    /\ t = dict_get moment (lit "timestamp_seconds") (JInt 0))
               items timestamps
    /\ db w1 = db w /\ files w1 = files w
    /\ extract_frames_batch X video_path timestamps
         (FRAMES_DIR X ++ [str_of_Z video_id]) w1 = (Returned extracted, w2)
    /\ save_frame_paths X video_id extracted w2 = (Returned tt, w3)
    /\ w' = emitted (EvPrint (MsgFramesDone (List.length extracted))) w3.
Proof.
  intros E Ht. unfold extract_stage in E. rewrite Ht in E.
  apply bind_inv in E as (n & w0 & E0 & E).
  destruct (py_len moments) as [n0|]; cbn in E0; [| discriminate].
  injection E0 as <- <-.
  apply bind_inv in E as ([] & w0 & E0 & E). injection E0 as <-.
  apply bind_inv in E as (items & w0 & E0 & E).
  destruct (py_iter moments) as [its|] eqn:Hi; cbn in E0; [| discriminate].
  injection E0 as <- <-.
  apply bind_inv in E as (timestamps & w1 & E1 & E).
  apply map_m_timestamps in E1 as [-> Hts].
  apply bind_inv in E as (extracted & w2 & E2 & E).
  apply bind_inv in E as ([] & w3 & E3 & E).
  cbn in E. injection E as <-.
  exists its, timestamps, extracted,
    (emitted (EvPrint (MsgExtracting n0)) w), w2, w3.
  split; [reflexivity |]. split; [exact Hts |].
  split; [reflexivity |]. split; [reflexivity |].
  split; [exact E2 |]. split; [exact E3 | reflexivity].
Qed.

Lemma analyze_and_finish_returned X v video_path w analysis w' :
  analyze_and_finish X v video_path w = (Returned analysis, w') ->
  exists w_a analysis_id w_s w_e w_c,
    tables_kept w w_a /\ files w_a = files w /\ emits not_ffmpeg w w_a
    /\ save_analysis_to_db X (v_id v) analysis w_a = (Returned analysis_id, w_s)
    /\ extract_stage X (v_id v) video_path (key_moments analysis) w_s
       = (Returned tt, w_e)
    /\ cleanup_stage video_path w_e = (Returned tt, w_c)
    /\ w' = emitted (EvPrint (MsgCompleted analysis_id)) w_c.
Proof.
  intros E. unfold analyze_and_finish in E.
  apply bind_inv in E as ([] & w0 & E0 & E). injection E0 as <-.
  apply bind_inv in E as ([] & w1 & E1 & E).
  apply bind_inv in E as (a & w2 & E2 & E).
  apply bind_inv in E as (n1 & w3 & E3 & E).
  destruct (py_len (dict_get a (lit "summary") (JStr []))); cbn in E3;
    [| discriminate].
  injection E3 as <- <-.
  apply bind_inv in E as (n2 & w3 & E3 & E).
  destruct (py_len (key_moments a)); cbn in E3; [| discriminate].
  injection E3 as <- <-.
  apply bind_inv in E as ([] & w3 & E3 & E). injection E3 as <-.
  apply bind_inv in E as (analysis_id & w_s & Es & E).
  apply bind_inv in E as ([] & w_e & Ee & E).
  apply bind_inv in E as ([] & w_c & Ec & E).
  cbn in E. injection E as <- <-.
  learn (wait_keeps_tables X (lit "gemini_flash") 120) E1.
  learn (wait_keeps_files X (lit "gemini_flash") 120) E1.
  learn (wait_no_ffmpeg X (lit "gemini_flash") 120) E1.
  learn (analyze_keeps_tables X video_path (v_title v) (v_description v)) E2.
  learn (analyze_keeps_files X video_path (v_title v) (v_description v)) E2.
  learn (analyze_no_ffmpeg X video_path (v_title v) (v_description v)) E2.
  eexists _, analysis_id, w_s, w_e, w_c.
  split; [| split; [| split; [| split; [exact Es |
                                        split; [exact Ee |
                                                split; [exact Ec | reflexivity]]]]]].
  - unfold tables_kept in *. cbn in *.
    destruct H as (A1 & A2 & A3 & A4 & A5), H2 as (B1 & B2 & B3 & B4 & B5).
    repeat split; congruence.
  - cbn. unfold same_files in *. cbn in *. congruence.
  - eapply (frame_trans (R := emits not_ffmpeg)).
    2: { eexists [_]. split; reflexivity. }
    eapply (frame_trans (R := emits not_ffmpeg)); [| exact H4].
    eapply (frame_trans (R := emits not_ffmpeg)); [| exact H1].
    eexists [_]. split; reflexivity.
Qed.

Lemma select_video_in cond d jv :
  select_video cond d = Some jv -> In (video jv) (videos d).
Proof.
  unfold select_video. intros H.
  assert (In jv (flat_map (join_video d) (List.filter cond (videos d)))) as Hin.
  { destruct (flat_map _ _) as [|x l]; [discriminate |].
    injection H as ->. left. reflexivity. }
  apply in_flat_map in Hin as (v & Hv & Hj).
  apply filter_In in Hv as [Hv _].
  unfold join_video in Hj. apply in_flat_map in Hj as (s & _ & Hj).
  destruct (s_id s =? v_source_id v); [| destruct Hj].
  apply in_flat_map in Hj as (c & _ & Hj).
  destruct (c_id c =? s_creator_id s); [| destruct Hj].
  destruct Hj as [<-|[]]. exact Hv.
Qed.

Lemma lookup_found X video_id video_url w jv w1 :
  lookup_video X video_id video_url w = (Returned jv, w1) ->
  In (video jv) (videos (db w)).
Proof.
  intros E.
  assert (sat (lookup_video X video_id video_url) w (fun r _ =>
            match r with
            | Returned jv => In (video jv) (videos (db w))
            | _ => True
            end)) as H.
  { unfold lookup_video. repeat sat_step.
    destruct (id_given video_id).
    - repeat sat_step. destruct (execute_fault X (ticks w)); [exact I |].
      repeat sat_step.
      destruct (select_video _ (db w)) as [j|] eqn:Hs; [| exact I].
      eapply select_video_in, Hs.
    - destruct (url_given video_url); [| exact I].
      destruct (search_video_id _); [| exact I].
      repeat sat_step. destruct (execute_fault X (ticks w)); [exact I |].
      repeat sat_step.
      destruct (select_video _ (db w)) as [j|] eqn:Hs; [| exact I].
      eapply select_video_in, Hs. }
  unfold sat in H. rewrite E in H. exact H.
Qed.

Lemma process_video_returned X video_id video_url skip_download w analysis w' :
  process_video X video_id video_url skip_download w = (Returned analysis, w') ->
  exists jv w1 w3,
    lookup_video X video_id video_url w = (Returned jv, w1)
    /\ tables_kept w w3
    /\ emits not_ffmpeg w w3
    /\ analyze_and_finish X (video jv) (video_file X (v_id (video jv))) w3
       = (Returned analysis, w').
Proof.
  intros E. unfold process_video in E.
  apply bind_inv in E as (jv & w1 & E1 & E).
  apply bind_inv in E as ([] & w0 & E0 & E). injection E0 as <-.
  apply bind_inv in E as ([] & w0 & E0 & E). injection E0 as <-.
  apply bind_inv in E as ([] & w3 & E3 & E).
  exists jv, w1, w3. split; [exact E1 |].
  destruct (lookup_run _ _ _ _ _ _ E1) as (Hev & _ & Ht & _).
  learn (download_stage_keeps_tables X (v_url (video jv))
           (video_file X (v_id (video jv))) skip_download) E3.
  learn (download_stage_no_ffmpeg X (v_url (video jv))
           (video_file X (v_id (video jv))) skip_download) E3.
  split; [| split; [| exact E]].
  - unfold tables_kept in *. cbn in *.
    destruct H as (A1 & A2 & A3 & A4 & A5), Ht as (B1 & B2 & B3 & B4 & B5).
    repeat split; congruence.
  - eapply (frame_trans (R := emits not_ffmpeg)); [| exact H0].
    eexists [_; _]. cbn. rewrite Hev. split; reflexivity.
Qed.

Lemma py_len_zero_falsy v : py_len v = Some 0%nat -> py_truthy v = false.
Proof.
  destruct v as [| | | |s|l|d]; cbn; try discriminate; intros [= H].
  - apply length_zero_iff_nil in H. subst. reflexivity.
  - rewrite H. reflexivity.
  - rewrite H. reflexivity.
Qed.

(** C10. When [process_video] returns an analysis with zero key moments:
    no ffmpeg runs, the [frames_status] of every video is what it was
    before the run, while the [analysis_status] of the video found is
    ['completed']. *)
Theorem no_key_moments_frames_status_untouched
    X video_id video_url skip_download w analysis w' :
  process_video X video_id video_url skip_download w = (Returned analysis, w') ->
  py_len (key_moments analysis) = Some 0%nat ->
  List.map v_frames_status (videos (db w'))
  = List.map v_frames_status (videos (db w))
  /\ (exists new, events w' = new ++ events w /\ forallb not_ffmpeg new = true)
  /\ exists jv w1,
       lookup_video X video_id video_url w = (Returned jv, w1)
       /\ In (v_id (video jv)) (List.map v_id (videos (db w')))
       /\ forall v, In v (videos (db w')) -> v_id v = v_id (video jv) ->
                    v_analysis_status v = lit "completed".
Proof.
  intros E Hzero.
  apply process_video_returned in E as (jv & w1 & w3 & El & Ht3 & He3 & E).
  apply analyze_and_finish_returned in E
    as (w_a & analysis_id & w_s & w_e & w_c & Hta & _ & Hea & Es & Ee & Ec & ->).
  unfold extract_stage in Ee. rewrite (py_len_zero_falsy _ Hzero) in Ee.
  injection Ee as <-.
  destruct (cleanup_run (video_file X (v_id (video jv))) w_s)
    as (w_c' & Ec' & Hdc & _).
  rewrite Ec in Ec'. injection Ec' as <-.
  learn (save_no_ffmpeg X (v_id (video jv)) analysis) Es.
  learn (cleanup_no_ffmpeg (video_file X (v_id (video jv)))) Ec.
  destruct (save_returned _ _ _ _ _ _ Es)
    as (meta & items & rows & _ & _ & _ & _ & Hdb).
  assert (videos (db w_c)
          = List.map (fun v => if v_id v =? v_id (video jv)
                               then mark_analysis_completed
                                      (db_now X (ticks w_a)) v
                               else v) (videos (db w))) as Hv.
  { rewrite Hdc, Hdb.
    cbn [update_analysis_status set_videos videos].
    rewrite videos_insert_moments, videos_upsert.
    destruct Hta as (-> & _), Ht3 as (-> & _). reflexivity. }
  cbn [db emitted]. rewrite Hv. split; [| split].
  - rewrite List.map_map. apply List.map_ext. intros v.
    destruct (v_id v =? v_id (video jv)); reflexivity.
  - eapply (frame_trans (R := emits not_ffmpeg)).
    2: { eexists [_]. split; reflexivity. }
    eapply (frame_trans (R := emits not_ffmpeg)); [| exact H0].
    eapply (frame_trans (R := emits not_ffmpeg)); [| exact H].
    eapply (frame_trans (R := emits not_ffmpeg)); [exact He3 | exact Hea].
  - exists jv, w1. split; [exact El |]. split.
    + rewrite List.map_map.
      apply in_map_iff. exists (video jv).
      split; [| eapply lookup_found, El].
      destruct (v_id (video jv) =? v_id (video jv)); reflexivity.
    + intros v Hin Hid. apply in_map_iff in Hin as (v0 & <- & _).
      destruct (v_id v0 =? v_id (video jv)) eqn:Eq; [reflexivity |].
      apply Z.eqb_neq in Eq. cbn in Hid. congruence.
Qed.

Lemma Forall2_In_r {A B} (P : A -> B -> Prop) l l' y :
  Forall2 P l l' -> In y l' -> exists x, In x l /\ P x y.
Proof.
  induction 1 as [|x y' l l' Hxy HF IH]; intros Hin; [destruct Hin |].
  destruct Hin as [<-|Hin].
  - exists x. split; [left; reflexivity | exact Hxy].
  - destruct (IH Hin) as (x' & Hx' & HP). exists x'. split; [right |]; assumption.
Qed.

Lemma Forall2_In_l {A B} (P : A -> B -> Prop) l l' x :
  Forall2 P l l' -> In x l -> exists y, In y l' /\ P x y.
Proof.
  induction 1 as [|x' y l l' Hxy HF IH]; intros Hin; [destruct Hin |].
  destruct Hin as [<-|Hin].
  - exists y. split; [left; reflexivity | exact Hxy].
  - destruct (IH Hin) as (y' & Hy' & HP). exists y'. split; [right |]; assumption.
Qed.

Lemma frame_is_not_video X video_id ts :
  frame_path (FRAMES_DIR X ++ [str_of_Z video_id]) ts <> video_file X video_id.
Proof.
  unfold frame_path, video_file, VIDEOS_DIR. intros H.
  rewrite !app_assoc in H. apply app_inj_tail in H as [_ H].
  unfold frame_name in H. vm_compute in H. discriminate.
Qed.

(** The stages of a run that returns, each from the world the one before
    it left. *)
Lemma process_video_staged X video_id video_url skip_download w analysis w' :
  process_video X video_id video_url skip_download w = (Returned analysis, w') ->
  exists jv analysis_id w_a w_s w_e w_c,
    saved_in X video_id video_url skip_download w jv analysis analysis_id w_s
    /\ tables_kept w w_a
    /\ save_analysis_to_db X (v_id (video jv)) analysis w_a
       = (Returned analysis_id, w_s)
    /\ extract_stage X (v_id (video jv)) (video_file X (v_id (video jv)))
         (key_moments analysis) w_s
       = (Returned tt, w_e)
    /\ cleanup_stage (video_file X (v_id (video jv))) w_e = (Returned tt, w_c)
    /\ w' = emitted (EvPrint (MsgCompleted analysis_id)) w_c.
Proof.
  intros E. unfold process_video in E.
  apply bind_inv in E as (jv & w1 & E1 & E).
  apply bind_inv in E as ([] & w0 & E0 & E). injection E0 as <-.
  apply bind_inv in E as ([] & w0 & E0 & E). injection E0 as <-.
  apply bind_inv in E as ([] & w_d & Ed & E).
  unfold analyze_and_finish in E.
  apply bind_inv in E as ([] & w0 & E0 & E). injection E0 as <-.
  apply bind_inv in E as ([] & w_r & Er & E).
  apply bind_inv in E as (a & w_g & Eg & E).
  apply bind_inv in E as (n1 & w0 & E0 & E).
  destruct (py_len (dict_get a (lit "summary") (JStr []))) as [n_summary|]
    eqn:Hn1; cbn in E0; [| discriminate].
  injection E0 as <- <-.
  apply bind_inv in E as (n2 & w0 & E0 & E).
  destruct (py_len (key_moments a)) as [n_moments|] eqn:Hn2; cbn in E0;
    [| discriminate].
  injection E0 as <- <-.
  apply bind_inv in E as ([] & w0 & E0 & E). injection E0 as <-.
  apply bind_inv in E as (analysis_id & w_s & Es & E).
  apply bind_inv in E as ([] & w_e & Ee & E).
  apply bind_inv in E as ([] & w_c & Ec & E).
  cbn in E. injection E as <- <-.
  learn (lookup_keeps_tables X video_id video_url) E1.
  learn (download_stage_keeps_tables X (v_url (video jv))
           (video_file X (v_id (video jv))) skip_download) Ed.
  learn (wait_keeps_tables X (lit "gemini_flash") 120) Er.
  learn (analyze_keeps_tables X (video_file X (v_id (video jv)))
           (v_title (video jv)) (v_description (video jv))) Eg.
  eexists jv, analysis_id, _, w_s, w_e, w_c.
  split; [| split; [| split; [exact Es |
                              split; [exact Ee |
                                      split; [exact Ec | reflexivity]]]]].
  - exists w1, w_d, w_r, w_g, n_summary, n_moments.
    split; [exact E1 |]. split; [exact Ed |]. split; [exact Er |].
    split; [exact Eg |]. split; [exact Hn1 |]. split; [exact Hn2 | exact Es].
  - unfold tables_kept in *. cbn in *.
    destruct H as (A1 & A2 & A3 & A4 & A5), H0 as (B1 & B2 & B3 & B4 & B5),
      H1 as (C1 & C2 & C3 & C4 & C5), H2 as (D1 & D2 & D3 & D4 & D5).
    repeat split; congruence.
Qed.

Lemma extract_stage_frames X jv analysis w_s w_e :
  extract_stage X (v_id (video jv)) (video_file X (v_id (video jv)))
    (key_moments analysis) w_s
  = (Returned tt, w_e) ->
  py_truthy (key_moments analysis) = true ->
  exists extracted w_x w_f,
    frames_in X jv analysis w_s extracted w_x w_f
    /\ w_e = emitted (EvPrint (MsgFramesDone (List.length extracted))) w_f.
Proof.
  intros E Ht. unfold extract_stage in E. rewrite Ht in E.
  apply bind_inv in E as (n & w0 & E0 & E).
  destruct (py_len (key_moments analysis)) as [n0|] eqn:Hn; cbn in E0;
    [| discriminate].
  injection E0 as <- <-.
  apply bind_inv in E as ([] & w0 & E0 & E). injection E0 as <-.
  apply bind_inv in E as (items & w0 & E0 & E).
  destruct (py_iter (key_moments analysis)) as [its|] eqn:Hi; cbn in E0;
    [| discriminate].
  injection E0 as <- <-.
  apply bind_inv in E as (timestamps & w1 & E1 & E).
  apply map_m_timestamps in E1 as [-> Hts].
  apply bind_inv in E as (extracted & w_x & Eb & E).
  apply bind_inv in E as ([] & w_f & Ef & E).
  cbn in E. injection E as <-.
  exists extracted, w_x, w_f. split; [| reflexivity].
  exists its, timestamps, n0.
  split; [exact Hi |]. split; [exact Hts |]. split; [exact Hn |].
  split; [exact Eb | exact Ef].
Qed.

(** C5. When [process_video] returns an analysis whose key moments are not
    empty, the run went, stage after stage, through the save of the
    analysis, the batch for the timestamps of the key moments and the
    transaction that records the mapping [extracted] the batch returned.
    At the end the database is the one the save left with one update of
    [frame_path] per entry of [extracted] and the update of
    [frames_status] applied, and the files are those the batch left
    without the local video file.  So the video found has [frames_status]
    ['completed'], whatever the number of frames the batch extracted; for
    every entry of [extracted] the image exists at the end and every
    moment row of the video at that timestamp holds its path, and such a
    row exists where the store keeps integers as they are; the local video
    file does not exist at the end. *)
Theorem frames_completed_video_deleted
    X video_id video_url skip_download w analysis w' :
  process_video X video_id video_url skip_download w = (Returned analysis, w') ->
  py_truthy (key_moments analysis) = true ->
  exists jv analysis_id w_s extracted w_x w_f w_c,
    saved_in X video_id video_url skip_download w jv analysis analysis_id w_s
    /\ frames_in X jv analysis w_s extracted w_x w_f
    /\ cleanup_stage (video_file X (v_id (video jv)))
         (emitted (EvPrint (MsgFramesDone (List.length extracted))) w_f)
       = (Returned tt, w_c)
    /\ w' = emitted (EvPrint (MsgCompleted analysis_id)) w_c
    /\ db w'
       = update_frames_status (v_id (video jv))
           (set_frame_paths (v_id (video jv)) extracted (db w_s))
    /\ files w' = files w_x ∖ {[video_file X (v_id (video jv))]}
    /\ In (v_id (video jv)) (List.map v_id (videos (db w')))
    /\ (forall v, In v (videos (db w')) -> v_id v = v_id (video jv) ->
                  v_frames_status v = lit "completed")
    /\ (forall ts p, In (ts, p) extracted ->
          p = frame_path (FRAMES_DIR X ++ [str_of_Z (v_id (video jv))]) ts
          /\ p ∈ files w'
          /\ (forall r, In r (video_moments (db w')) ->
                        moment_key r = (v_id (video jv), ts) ->
                        m_frame_path r = Some (path_str p))
          /\ (pg_agrees X ->
              has_moment (v_id (video jv)) ts (video_moments (db w'))))
    /\ video_file X (v_id (video jv)) ∉ files w'.
Proof.
  intros E Htruthy.
  apply process_video_staged in E
    as (jv & analysis_id & w_a & w_s & w_e & w_c
        & Hsaved & Hta & Es & Ee & Ec & ->).
  pose proof Hsaved as (w1 & _ & _ & _ & _ & _ & El & _).
  apply extract_stage_frames in Ee
    as (extracted & w_x & w_f & Hframes & ->); [| exact Htruthy].
  pose proof Hframes as (items & timestamps & n & Hi & Hts & _ & Eb & Ef).
  set (vid := v_id (video jv)) in *.
  destruct (extract_batch_returned _ _ _ _ _ _ _ Eb) as (Hnd & Hres & Hkeys & Hdx).
  destruct (save_frame_paths_returned _ _ _ _ _ Ef) as (Hff & Hdf).
  match type of Ec with
  | cleanup_stage ?p ?w0 = _ =>
      destruct (cleanup_run p w0) as (w_c' & Ec' & Hdc & Hfc)
  end.
  rewrite Ec in Ec'. injection Ec' as <-.
  destruct (save_returned _ _ _ _ _ _ Es)
    as (meta & items0 & rows & _ & Hi0 & Hrows & _ & Hdb_s).
  rewrite Hi in Hi0. injection Hi0 as <-.
  cbn [db files emitted] in *.
  assert (db w_c = update_frames_status vid
                     (set_frame_paths vid extracted (db w_s))) as Hdb.
  { rewrite Hdc, Hdf, Hdx. reflexivity. }
  assert (videos (db w_c)
          = List.map (fun v => if v_id v =? vid then mark_frames_completed v else v)
              (List.map (fun v => if v_id v =? vid
                                  then mark_analysis_completed
                                         (db_now X (ticks w_a)) v
                                  else v) (videos (db w)))) as Hv.
  { rewrite Hdb. cbn [update_frames_status set_videos videos].
    rewrite videos_set_frame_paths, Hdb_s.
    cbn [update_analysis_status set_videos videos].
    rewrite videos_insert_moments, videos_upsert.
    destruct Hta as (-> & _). reflexivity. }
  assert (video_moments (db w_c)
          = List.map (set_frame_path_of vid extracted) (video_moments (db w_s)))
    as Hm.
  { rewrite Hdb. cbn [update_frames_status set_videos video_moments].
    rewrite video_moments_set_frame_paths. reflexivity. }
  exists jv, analysis_id, w_s, extracted, w_x, w_f, w_c.
  split; [exact Hsaved |]. split; [exact Hframes |]. split; [exact Ec |].
  split; [reflexivity |]. split; [exact Hdb |].
  split; [rewrite Hfc, Hff; reflexivity |].
  split; [| split; [| split]].
  - rewrite Hv, !List.map_map. apply in_map_iff. exists (video jv).
    split; [| eapply lookup_found, El].
    destruct (v_id (video jv) =? vid);
      destruct (v_id _ =? vid); reflexivity.
  - intros v Hin Hid. rewrite Hv in Hin.
    apply in_map_iff in Hin as (v0 & <- & _).
    destruct (v_id v0 =? vid) eqn:Eq; [reflexivity |].
    apply Z.eqb_neq in Eq. unfold vid in Eq. congruence.
  - intros ts p Hin. destruct (Hres ts p Hin) as [Hp Hfile].
    split; [exact Hp |]. split; [| split].
    + rewrite Hfc, Hff. apply elem_of_difference. split; [exact Hfile |].
      intros Hv'. apply elem_of_singleton in Hv'. subst p.
      exact (frame_is_not_video X vid ts Hv').
    + intros r Hr Hk. rewrite Hm in Hr.
      apply in_map_iff in Hr as (r0 & <- & _).
      rewrite set_frame_path_of_key in Hk.
      apply set_frame_path_of_found with (ts := ts); assumption.
    + intros Hpg. rewrite Hm. apply has_moment_key.
      rewrite List.map_map.
      rewrite (List.map_ext _ moment_key (set_frame_path_of_key vid extracted)).
      apply has_moment_key.
      destruct (Hkeys ts (in_map fst _ _ Hin)) as (t & Ht & Hint).
      destruct (Forall2_In_r _ _ _ _ Hts Ht) as (item & Hitem & moment & Hd & ->).
      destruct (Forall2_In_l _ _ _ _ Hrows Hitem)
        as (row & Hrow & moment' & ts' & Hd' & Hpgi & ->).
      rewrite Hd in Hd'. injection Hd' as <-.
      rewrite (Hpg _ _ _ Hint Hpgi) in Hrow.
      rewrite Hdb_s, saved_moments.
      pose proof (insert_rows_all_present rows (video_moments (db w_a))) as Hall.
      rewrite Forall_forall in Hall.
      apply list_elem_of_In in Hrow. exact (Hall _ Hrow).
  - rewrite Hfc. intros H. apply elem_of_difference in H as [_ H].
    apply H, elem_of_singleton. reflexivity.
Qed.

Lemma frames_completed_video_deleted_witness :
  exists jv w_s extracted,
    db (snd (process_video Scenario.X_partial (Some 42) None false
               Scenario.w0))
    = update_frames_status (v_id (video jv))
        (set_frame_paths (v_id (video jv)) extracted (db w_s))
    /\ (video_file Scenario.X_partial (v_id (video jv))
        ∉ files (snd (process_video Scenario.X_partial (Some 42) None false
                        Scenario.w0)))
    /\ forall v,
         In v (videos (db (snd (process_video Scenario.X_partial (Some 42)
                                  None false Scenario.w0)))) ->
         v_id v = v_id (video jv) -> v_frames_status v = lit "completed".
Proof.
  destruct (frames_completed_video_deleted Scenario.X_partial (Some 42) None
              false Scenario.w0
              (Scenario.returned_of
                 (process_video Scenario.X_partial (Some 42) None false
                    Scenario.w0))
              (snd (process_video Scenario.X_partial (Some 42) None false
                      Scenario.w0))
              ltac:(vm_compute; reflexivity) ltac:(vm_compute; reflexivity))
    as (jv & analysis_id & w_s & extracted & w_x & w_f & w_c
        & _ & _ & _ & _ & Hdb & _ & _ & Hst & _ & Hdel).
  exists jv, w_s, extracted.
  split; [exact Hdb |]. split; [exact Hdel | exact Hst].
Defined.

Lemma no_key_moments_frames_status_untouched_witness :
  List.map v_frames_status
    (videos (db (snd (process_video Scenario.X_prose (Some 42) None false
                        Scenario.w0))))
  = [lit "pending"].
Proof.
  apply (proj1 (no_key_moments_frames_status_untouched Scenario.X_prose
                  (Some 42) None false Scenario.w0
                  (Scenario.returned_of
                     (process_video Scenario.X_prose (Some 42) None false
                        Scenario.w0))
                  (snd (process_video Scenario.X_prose (Some 42) None false
                          Scenario.w0))
                  ltac:(vm_compute; reflexivity)
                  ltac:(vm_compute; reflexivity))).
Defined.

(** * Further properties of the program *)

(** ** What holds across every step holds across a whole run *)

Section WholeProgram.

Context (R : World -> World -> Prop) `{HF : !Frame R} (HR : Respected R).

Lemma respected_emit_m e : preserves R (emit e).
Proof. intros w. apply (respected_emit R HR). Qed.

Lemma respected_tick_m : preserves R tick.
Proof. intros w. apply (respected_tick R HR). Qed.

Lemma respected_modify f : program_statement f -> preserves R (modify_db f).
Proof. intros Hf w. apply (respected_statement R HR), Hf. Qed.

Lemma respected_write_output written p : preserves R (write_output written p).
Proof.
  intros w. unfold write_output. cbn. destruct written;
    [apply (respected_write R HR) | apply frame_refl].
Qed.

Lemma respected_unlink_m p : preserves R (unlink p).
Proof.
  unfold unlink. fapply preserves_bind; [apply respected_emit_m | intros _].
  intros w. apply (respected_unlink R HR).
Qed.

Lemma respected_execute X f : program_statement f -> preserves R (execute X f).
Proof.
  intros Hf. unfold execute.
  fapply preserves_bind; [apply respected_tick_m | intros n].
  destruct (execute_fault X n); [fapply preserves_raise | apply respected_modify, Hf].
Qed.

Lemma respected_execute_query {A} X (q : Database -> A) :
  preserves R (execute_query X q).
Proof.
  unfold execute_query.
  fapply preserves_bind; [apply respected_tick_m | intros n].
  destruct (execute_fault X n); [fapply preserves_raise |].
  fapply preserves_bind; [fapply preserves_get_db | intros d; fapply preserves_ret].
Qed.

Lemma respected_upsert X e now :
  preserves R (execute_returning X (upsert_analysis e now)).
Proof.
  unfold execute_returning.
  fapply preserves_bind; [apply respected_tick_m | intros n].
  destruct (execute_fault X n); [fapply preserves_raise |].
  intros w. apply (respected_statement R HR _ w (st_upsert e now)).
Qed.

Ltac respected_leaf :=
  first [ apply respected_emit_m
        | apply respected_tick_m
        | apply respected_write_output
        | apply respected_unlink_m
        | apply respected_execute_query
        | apply respected_upsert
        | apply respected_execute; constructor
        | apply respected_modify; constructor
        | intros w; apply (respected_statement R HR _ w (st_upsert _ _))
        | intros w; apply (respected_unlink R HR) ].

Lemma respected_check_rate_limit X api : preserves R (check_rate_limit X api).
Proof. unfold check_rate_limit. frame_with respected_leaf. Qed.

Lemma respected_wait X api max_wait :
  preserves R (wait_for_rate_limit X api max_wait).
Proof.
  unfold wait_for_rate_limit. fapply preserves_wait_loop.
  - apply respected_check_rate_limit.
  - intros m. apply respected_emit_m.
  - apply respected_emit_m.
Qed.

Lemma respected_download_video X url p max_height :
  preserves R (download_video X url p max_height).
Proof. unfold download_video, print. frame_with respected_leaf. Qed.

Lemma respected_extract_frame X video_path ts p :
  preserves R (extract_frame X video_path ts p).
Proof. unfold extract_frame, print. frame_with respected_leaf. Qed.

Lemma respected_extract_batch X video_path timestamps output_dir :
  preserves R (extract_frames_batch X video_path timestamps output_dir).
Proof.
  unfold extract_frames_batch, mkdir.
  fapply preserves_bind; [apply respected_emit_m | intros _].
  fapply preserves_extract_loop.
  - intros ts p. apply respected_extract_frame.
  - intros m. apply respected_emit_m.
Qed.

Lemma respected_analyze X video_path title description :
  preserves R (analyze_video_with_gemini X video_path title description).
Proof.
  unfold analyze_video_with_gemini, parse_response, print.
  frame_with ltac:(first [ solve [fapply preserves_await; apply respected_emit_m]
                         | respected_leaf ]).
Qed.

Lemma respected_save X video_id analysis :
  preserves R (save_analysis_to_db X video_id analysis).
Proof.
  unfold save_analysis_to_db, save_transaction, save_moment, get_of, print.
  frame_with respected_leaf.
Qed.

Lemma respected_lookup X video_id video_url :
  preserves R (lookup_video X video_id video_url).
Proof. unfold lookup_video. frame_with respected_leaf. Qed.

Lemma respected_save_frame_paths X video_id extracted :
  preserves R (save_frame_paths X video_id extracted).
Proof.
  unfold save_frame_paths, frame_paths_transaction. frame_with respected_leaf.
Qed.

Lemma respected_extract_stage X video_id video_path moments :
  preserves R (extract_stage X video_id video_path moments).
Proof.
  unfold extract_stage, timestamp_of, get_of, mkdir, print.
  frame_with ltac:(first
    [ solve [apply respected_extract_batch]
    | solve [fapply preserves_extract_loop;
             [ intros; apply respected_extract_frame
             | intros; apply respected_emit_m ]]
    | solve [apply respected_save_frame_paths]
    | respected_leaf ]).
Qed.

Lemma respected_cleanup video_path : preserves R (cleanup_stage video_path).
Proof. unfold cleanup_stage, print. frame_with respected_leaf. Qed.

Lemma respected_process_video X video_id video_url skip_download :
  preserves R (process_video X video_id video_url skip_download).
Proof.
  unfold process_video, analyze_and_finish, download_stage, extract_stage,
    cleanup_stage, timestamp_of, get_of, mkdir, print.
  frame_with ltac:(first
    [ solve [apply respected_lookup]
    | solve [apply respected_wait]
    | solve [apply respected_download_video]
    | solve [apply respected_analyze]
    | solve [apply respected_save]
    | solve [apply respected_extract_batch]
    | solve [fapply preserves_extract_loop;
             [ intros; apply respected_extract_frame
             | intros; apply respected_emit_m ]]
    | solve [apply respected_save_frame_paths]
    | respected_leaf ]).
Qed.

Lemma respected_batch_loop X vs : forall i n,
  preserves R (batch_loop X vs i n).
Proof.
  induction vs as [|v rest IH]; intros i n; [fapply preserves_ret |].
  cbn [batch_loop]. fapply preserves_bind; [| intros _; apply IH].
  unfold batch_item.
  fapply preserves_bind; [apply respected_emit_m | intros _].
  fapply preserves_bind.
  - fapply preserves_try_except.
    + fapply preserves_bind; [apply respected_process_video | intros _].
      fapply preserves_ret.
    + intros e. fapply preserves_bind; [apply respected_emit_m | intros _].
      fapply preserves_ret.
  - intros done. destruct done; [| fapply preserves_ret].
    destruct (i <? n)%nat; [| fapply preserves_ret].
    fapply preserves_bind; [apply respected_emit_m | intros _].
    apply respected_emit_m.
Qed.

Lemma respected_process_batch X limit source_id :
  preserves R (process_batch X limit source_id).
Proof.
  unfold process_batch, print.
  frame_with ltac:(first [ solve [apply respected_batch_loop]
                         | respected_leaf ]).
Qed.

End WholeProgram.

(** ** The rows of the tables *)

Lemma video_step_refl v : video_step v v.
Proof. unfold video_step. tauto. Qed.

Lemma video_step_trans v1 v2 v3 :
  video_step v1 v2 -> video_step v2 v3 -> video_step v1 v3.
Proof.
  unfold video_step.
  intros (A1 & A2 & A3 & A4 & A5 & A6 & A7 & A8 & A9)
         (B1 & B2 & B3 & B4 & B5 & B6 & B7 & B8 & B9).
  repeat split; try congruence.
  - destruct B8 as [B8|B8]; [rewrite B8; exact A8 | right; exact B8].
  - destruct B9 as [B9|B9]; [rewrite B9; exact A9 | right; exact B9].
Qed.

Lemma videos_step_map (g : video_row -> video_row) l :
  (forall v, video_step v (g v)) -> Forall2 video_step l (List.map g l).
Proof.
  intros Hg. induction l as [|v l IH]; cbn; constructor; auto.
Qed.

Lemma videos_step_same l : Forall2 video_step l l.
Proof. induction l; constructor; auto using video_step_refl. Qed.

#[export] Instance videos_step_frame : Frame videos_step.
Proof.
  split; unfold videos_step.
  - intros w. apply videos_step_same.
  - intros w1 w2 w3 H1 H2.
    eapply Forall2_trans; [| exact H1 | exact H2].
    intros a b c. apply video_step_trans.
  - intros w w' _. cbn. apply videos_step_same.
Qed.

Lemma videos_step_respected : Respected videos_step.
Proof.
  split; unfold videos_step; try (intros; cbn; apply videos_step_same).
  intros f w Hf. destruct Hf; cbn.
  - apply videos_step_same.
  - rewrite videos_upsert. apply videos_step_same.
  - rewrite videos_insert_moment. apply videos_step_same.
  - apply videos_step_map. intros v.
    destruct (v_id v =? video_id); [| apply video_step_refl].
    unfold video_step. cbn. tauto.
  - apply videos_step_same.
  - apply videos_step_map. intros v.
    destruct (v_id v =? video_id); [| apply video_step_refl].
    unfold video_step. cbn. tauto.
Qed.

(** X1. However a batch or a single run ends, [videos] has the same rows in
    the same order as before, each with its id, source, external id, url,
    title, description and publication date untouched, and with each of its
    two status fields either as it was or ['completed']: the program writes
    no other status, ['failed'] included. *)
Theorem statuses_only_completed X :
  (forall limit source_id w,
      videos_step w (snd (process_batch X limit source_id w)))
  /\ (forall video_id video_url skip_download w,
        videos_step w
          (snd (process_video X video_id video_url skip_download w))).
Proof.
  split.
  - intros limit source_id.
    apply (respected_process_batch videos_step videos_step_respected).
  - intros video_id video_url skip_download.
    apply (respected_process_video videos_step videos_step_respected).
Qed.

#[export] Instance rows_kept_frame : Frame rows_kept.
Proof.
  split; unfold rows_kept.
  - intros w. repeat split; reflexivity.
  - intros w1 w2 w3 (A1 & A2 & A3 & A4) (B1 & B2 & B3 & B4).
    repeat split; try congruence; etransitivity; eassumption.
  - intros w w' _. cbn. repeat split; reflexivity.
Qed.

Lemma update_frame_path_keys p video_id ts l :
  List.map moment_key
    (List.map (fun r => if same_moment video_id ts r
                        then with_frame_path p r else r) l)
  = List.map moment_key l.
Proof.
  rewrite List.map_map. apply List.map_ext. intros r.
  destruct (same_moment video_id ts r); reflexivity.
Qed.

Lemma rows_kept_respected : Respected rows_kept.
Proof.
  split; unfold rows_kept; try (intros; cbn; repeat split; reflexivity).
  intros f w Hf. destruct Hf; cbn.
  - repeat split; reflexivity.
  - rewrite video_moments_upsert. unfold upsert_analysis.
    destruct (List.find _ _); cbn; repeat split; try reflexivity.
    + fold (on_conflict_row e now). rewrite on_conflict_keys. reflexivity.
    + rewrite List.map_app. apply prefix_app_r. reflexivity.
  - rewrite video_analysis_insert_moment, video_moments_insert_moment.
    unfold insert_moment, insert_row.
    destruct (existsb _ _); cbn; repeat split; try reflexivity.
    rewrite List.map_app. apply prefix_app_r. reflexivity.
  - repeat split; reflexivity.
  - rewrite update_frame_path_keys. repeat split; reflexivity.
  - repeat split; reflexivity.
Qed.

(** X2. However a batch or a single run ends, [sources] and [creators] are
    as before, and [video_analysis] and [video_moments] have lost no row:
    the video ids of the analysis rows and the (video id, timestamp) of the
    moment rows of before are still there, in place, new rows coming after
    them. *)
Theorem rows_never_removed X :
  (forall limit source_id w,
      rows_kept w (snd (process_batch X limit source_id w)))
  /\ (forall video_id video_url skip_download w,
        rows_kept w (snd (process_video X video_id video_url skip_download w))).
Proof.
  split.
  - intros limit source_id.
    apply (respected_process_batch rows_kept rows_kept_respected).
  - intros video_id video_url skip_download.
    apply (respected_process_video rows_kept rows_kept_respected).
Qed.

(** ** The wait for the quota, whatever the store answers *)

#[export] Instance same_db_frame : Frame same_db.
Proof.
  split; unfold same_db.
  - reflexivity.
  - intros w1 w2 w3 H1 H2. congruence.
  - intros w w' H. cbn. rewrite H. apply rollback_same.
Qed.

#[export] Instance files_kept_frame : Frame files_kept.
Proof.
  split; unfold files_kept.
  - reflexivity.
  - intros w1 w2 w3 H1 H2. etransitivity; eassumption.
  - intros w w' H. exact H.
Qed.

Lemma wait_loop_outcome X api max_wait w0 : forall n waited w,
  (Z.to_nat (max_wait - waited) <= n)%nat ->
  db w = db w0 -> files w = files w0 ->
  sat (wait_loop X api max_wait waited) w (wait_outcome api max_wait w0).
Proof.
  induction n as [|n IH]; intros waited w Hn Hd Hf;
    rewrite wait_loop_equation_1; apply sat_bind;
    unfold check_rate_limit; repeat sat_step; cbv zeta;
    (destruct (rate_reply X (ticks w)); repeat sat_step;
     [ split; [exact Hf | cbn; rewrite Hd; reflexivity]
     | | | split; [exact Hf | split; [right; reflexivity |]];
           cbn; rewrite rollback_same; exact Hd ]);
    (destruct (Z_le_dec max_wait waited) as [Hle|Hgt]; repeat sat_step;
     [ split; [exact Hf | split; [left; reflexivity | exact Hd]] |]);
    try lia; apply IH; solve [lia | assumption].
Qed.

(** X3. Whatever the store answers to the quota checks, and for any
    [max_wait], [wait_for_rate_limit] ends.  When it returns, exactly one
    unit of the quota of the resource was consumed and nothing else changed
    in the database; when it raises, which it does for the timeout or for a
    failure of the store only, the database is as before.  No file
    changes. *)
Theorem wait_for_rate_limit_ends X api max_wait w :
  sat (wait_for_rate_limit X api max_wait) w (wait_outcome api max_wait w).
Proof.
  unfold wait_for_rate_limit.
  apply (wait_loop_outcome X api max_wait w (Z.to_nat (max_wait - 0)));
    reflexivity.
Qed.

(** ** The download *)

(** X4. [download_video] never raises, whatever happens to the downloader.
    It answers [True] exactly when the downloader exited with code 0 and the
    output file exists afterwards, be it a file that was there before the
    run.  The database is untouched, no file is removed, and the only file
    that may appear is the output file. *)
Theorem download_video_result X url p max_height w :
  exists ok w',
    download_video X url p max_height w = (Returned ok, w')
    /\ (ok = true
        <-> fst (ytdlp_reply X (ticks w)) = Exited 0 /\ p ∈ files w')
    /\ db w' = db w
    /\ files w ⊆ files w'
    /\ files w' ⊆ {[p]} ∪ files w.
Proof.
  unfold download_video, print, write_output, path_exists, bind. cbn.
  destruct (ytdlp_reply X (ticks w)) as [reply written]. cbn.
  assert (forall W : World, files W = (if written then {[p]} ∪ files w
                                       else files w) ->
          files w ⊆ files W /\ files W ⊆ {[p]} ∪ files w) as Hfiles.
  { intros W ->. destruct written; set_solver. }
  destruct reply as [rc| |]; cbn.
  - destruct (Z.eqb_spec rc 0) as [->|Hrc]; cbn.
    + eexists _, _. split; [reflexivity |].
      split; [| split; [destruct written; reflexivity |
                        apply Hfiles; destruct written; reflexivity]].
      rewrite bool_decide_eq_true. tauto.
    + eexists _, _. split; [reflexivity |].
      split; [| split; [destruct written; reflexivity |
                        apply Hfiles; destruct written; reflexivity]].
      split; [discriminate | intros [H _]; congruence].
  - eexists _, _. split; [reflexivity |].
    split; [| split; [destruct written; reflexivity |
                      apply Hfiles; destruct written; reflexivity]].
    split; [discriminate | intros [H _]; discriminate].
  - eexists _, _. split; [reflexivity |].
    split; [| split; [destruct written; reflexivity |
                      apply Hfiles; destruct written; reflexivity]].
    split; [discriminate | intros [H _]; discriminate].
Qed.

(** ** The conversation with the inference service *)

Lemma emits_emitted P e w : P e = true -> emits P w (emitted e w).
Proof. intros H. exists [e]. cbn. rewrite H. auto. Qed.

(** The polling loop ends as [settled] tells, and makes no other external
    call than its sleeps and polls. *)
Lemma sat_await P st answers : forall w (Q : Outcome FileState -> World -> Prop),
  P (EvSleep 5) = true -> P EvGetFile = true ->
  (forall w', emits P w w' -> db w' = db w -> files w' = files w ->
              ticks w' = ticks w -> Q (settled st answers) w') ->
  sat (await_processing st answers) w Q.
Proof.
  intros w Q H1 H2. revert st w Q.
  induction answers as [|a rest IH]; intros st w Q HQ.
  - destruct st; cbn; apply (HQ w); auto; apply frame_refl.
  - destruct st; cbn [await_processing];
      try (apply (HQ w); auto; apply frame_refl).
    repeat sat_step. apply IH. intros w' He Hd Hf Ht.
    apply HQ; [| exact Hd | exact Hf | exact Ht].
    eapply frame_trans; [| exact He].
    eapply frame_trans; apply emits_emitted; assumption.
Qed.

(** X5. [analyze_video_with_gemini] leaves the database and the files as
    they are, however it ends, and all it does outside is to print, to
    sleep and to call the inference service: no quota check, no external
    process, no change in the file system. *)
Theorem analyze_touches_nothing X video_path title description w :
  same_db w (snd (analyze_video_with_gemini X video_path title description w))
  /\ same_files w
       (snd (analyze_video_with_gemini X video_path title description w))
  /\ emits service_only w
       (snd (analyze_video_with_gemini X video_path title description w)).
Proof.
  split; [| split].
  - revert w. change (preserves same_db
      (analyze_video_with_gemini X video_path title description)).
    unfold analyze_video_with_gemini, parse_response, print.
    frame_with ltac:(first
      [ solve [fapply preserves_await; intros e w; reflexivity]
      | intros; intros ?; reflexivity ]).
  - apply analyze_keeps_files.
  - revert w. change (preserves (emits service_only)
      (analyze_video_with_gemini X video_path title description)).
    unfold analyze_video_with_gemini, parse_response, print.
    frame_with ltac:(first [ solve [apply await_emits; reflexivity]
                           | emits_leaf ]).
Qed.

Lemma sat_run {A} (c : M A) w (Q : Outcome A -> World -> Prop) r :
  sat c w (fun r' w' => r' = r /\ Q r w') ->
  exists w', c w = (r, w') /\ Q r w'.
Proof.
  unfold sat. destruct (c w) as [r' w']. cbn. intros [-> H]. eauto.
Qed.

(** X6. When the service ends the processing of the uploaded file in a state
    other than [ACTIVE], [analyze_video_with_gemini] raises with that state,
    having sent no generation request; the uploaded file is not removed
    from the service. *)
Theorem analyze_processing_failed X video_path title description w st0 st :
  key_present (GEMINI_API_KEY X) = true ->
  upload_state (gemini_reply X (ticks w)) = Some st0 ->
  settle st0 (poll_states (gemini_reply X (ticks w))) = Some st ->
  st <> ACTIVE ->
  exists w',
    analyze_video_with_gemini X video_path title description w
    = (Raised (ProcessingFailed st), w')
    /\ emits before_generate w w'.
Proof.
  intros Hkey Hup Hst Hna.
  apply (sat_run _ _ (fun _ w' => emits before_generate w w')).
  unfold analyze_video_with_gemini. rewrite Hkey. cbn [negb].
  repeat sat_step. cbv zeta. repeat sat_step. rewrite Hup. repeat sat_step.
  apply (sat_await before_generate); [reflexivity | reflexivity |].
  intros w' He _ _ _. unfold settled. rewrite Hst.
  assert (emits before_generate w w') as Hw.
  { eapply frame_trans; [| exact He].
    eexists [_; _; _]. split; reflexivity. }
  destruct st; try contradiction; repeat sat_step;
    (split; [reflexivity | exact Hw]).
Qed.

Lemma analyze_processing_failed_witness :
  exists w',
    analyze_video_with_gemini Cases.X_failed [lit "v.mp4"] (lit "t") None
      Scenario.w0 = (Raised (ProcessingFailed FAILED), w')
    /\ emits before_generate Scenario.w0 w'.
Proof.
  apply (analyze_processing_failed Cases.X_failed [lit "v.mp4"] (lit "t") None
           Scenario.w0 PROCESSING FAILED);
    [reflexivity | reflexivity | reflexivity | discriminate].
Defined.

Lemma dict_get_set_same d k v default :
  dict_get (dict_set d k v) k default = v.
Proof.
  induction d as [|[k' v'] d IH]; cbn.
  - unfold str_eqb. rewrite bool_decide_eq_true_2 by reflexivity. reflexivity.
  - destruct (str_eqb k' k) eqn:E; cbn.
    + unfold str_eqb. rewrite bool_decide_eq_true_2 by reflexivity.
      reflexivity.
    + rewrite E. exact IH.
Qed.

Lemma dict_get_set_other d k v k' default :
  k' <> k -> dict_get (dict_set d k v) k' default = dict_get d k' default.
Proof.
  intros Hk. induction d as [|[k0 v0] d IH]; cbn.
  - unfold str_eqb. rewrite bool_decide_eq_false_2 by congruence. reflexivity.
  - destruct (str_eqb k0 k) eqn:E; cbn.
    + unfold str_eqb in *. apply bool_decide_eq_true in E. subst k0.
      rewrite !bool_decide_eq_false_2 by congruence. reflexivity.
    + destruct (str_eqb k0 k'); [reflexivity | exact IH].
Qed.

(** X7. A response that is valid JSON but no object (an array, a string, a
    number, [null]) makes [analyze_video_with_gemini] raise [TypeError]
    where it attaches the metadata: the substitute result of the invalid
    JSON case is not used. *)
Theorem analyze_non_object_raises
    X video_path title description w st0 raw v :
  key_present (GEMINI_API_KEY X) = true ->
  upload_state (gemini_reply X (ticks w)) = Some st0 ->
  settle st0 (poll_states (gemini_reply X (ticks w))) = Some ACTIVE ->
  generate_ok (gemini_reply X (ticks w)) = true ->
  response_text (gemini_reply X (ticks w)) = Some raw ->
  json_loads X (clean_response raw) = Parsed v ->
  as_dict v = None ->
  exists w',
    analyze_video_with_gemini X video_path title description w
    = (Raised TypeError, w')
    /\ In EvDeleteFile (events w').
Proof.
  intros Hkey Hup Hst Hgen Htext Hjson Hv.
  apply (sat_run _ _ (fun _ w' => In EvDeleteFile (events w'))).
  unfold analyze_video_with_gemini, parse_response.
  rewrite Hkey. cbn [negb].
  repeat sat_step. cbv zeta. repeat sat_step. rewrite Hup. repeat sat_step.
  apply (sat_await (fun _ => true)); [reflexivity | reflexivity |].
  intros w' _ _ _ _. unfold settled. rewrite Hst.
  repeat sat_step. rewrite Hgen. repeat sat_step.
  rewrite Htext. repeat sat_step. cbv zeta. rewrite Hjson.
  repeat sat_step.
  destruct v; try discriminate; repeat sat_step;
    (split; [reflexivity | cbn; auto]).
Qed.

Lemma analyze_non_object_raises_witness :
  exists w',
    analyze_video_with_gemini Cases.X_array [lit "v.mp4"] (lit "t") None
      Scenario.w0 = (Raised TypeError, w')
    /\ In EvDeleteFile (events w').
Proof.
  apply (analyze_non_object_raises Cases.X_array [lit "v.mp4"] (lit "t") None
           Scenario.w0 PROCESSING (lit "```json{moments}``` ")
           (JList [JInt 1]));
    reflexivity.
Defined.

(** X8. Every analysis that [analyze_video_with_gemini] returns is what the
    parsing step took from the cleaned response, the object it holds or
    the substitute for a text that is no JSON, with ['_metadata'] set to the
    model name, the time of completion and the token count: every other
    key reads as in the parsed object, and a ['_metadata'] of the response
    itself is overwritten. *)
Theorem analyze_returned_metadata
    X video_path title description w analysis w' :
  analyze_video_with_gemini X video_path title description w
  = (Returned analysis, w') ->
  exists raw parsed,
    response_text (gemini_reply X (ticks w)) = Some raw
    /\ parsed_from X (clean_response raw) parsed
    /\ (forall default,
          dict_get analysis (lit "_metadata") default
          = metadata (now_iso X (S (ticks w)))
                     (total_token_count (gemini_reply X (ticks w))))
    /\ (forall k default,
          k <> lit "_metadata" ->
          dict_get analysis k default = dict_get parsed k default).
Proof.
  intros E.
  assert (sat (analyze_video_with_gemini X video_path title description) w
            (fun r _ =>
               match r with
               | Returned analysis =>
                   exists raw parsed,
                     response_text (gemini_reply X (ticks w)) = Some raw
                     /\ parsed_from X (clean_response raw) parsed
                     /\ analysis
                        = dict_set parsed (lit "_metadata")
                            (metadata (now_iso X (S (ticks w)))
                               (total_token_count (gemini_reply X (ticks w))))
               | _ => True
               end)) as H.
  { unfold analyze_video_with_gemini, parse_response.
    destruct (key_present (GEMINI_API_KEY X)); cbn [negb]; [| exact I].
    repeat sat_step. cbv zeta. repeat sat_step.
    destruct (upload_state _); repeat sat_step; [| exact I].
    apply (sat_await (fun _ => true)); [reflexivity | reflexivity |].
    intros w1 _ _ _ Ht. unfold settled.
    destruct (settle _ _) as [[]|]; repeat sat_step; try exact I.
    destruct (generate_ok _); repeat sat_step; [| exact I].
    destruct (response_text _) as [raw|] eqn:Hraw; repeat sat_step;
      [| exact I].
    cbv zeta.
    destruct (json_loads X (clean_response raw)) as [v|e| |msg] eqn:Hj;
      repeat sat_step.
    - destruct v; repeat sat_step; try exact I.
      exists raw, d. cbn [ticks emitted]. rewrite Ht. cbn [ticks emitted ticked].
      split; [reflexivity |]. split; [left; exact Hj | reflexivity].
    - exists raw, (degraded (clean_response raw) e).
      cbn [ticks emitted]. rewrite Ht. cbn [ticks emitted ticked].
      split; [reflexivity |].
      split; [right; exists e; split; [exact Hj | reflexivity] | reflexivity].
    - exact I.
    - exact I. }
  unfold sat in H. rewrite E in H. cbn in H.
  destruct H as (raw & parsed & Hraw & Hp & ->).
  exists raw, parsed. split; [exact Hraw |]. split; [exact Hp |].
  split.
  - intros default. apply dict_get_set_same.
  - intros k default Hk. apply dict_get_set_other. exact Hk.
Qed.

Lemma analyze_returned_metadata_witness :
  exists raw parsed,
    response_text (gemini_reply Scenario.X0 (ticks Scenario.w0)) = Some raw
    /\ parsed_from Scenario.X0 (clean_response raw) parsed
    /\ (forall default,
          dict_get
            (Scenario.returned_of
               (analyze_video_with_gemini Scenario.X0 [lit "v.mp4"] (lit "t")
                  None Scenario.w0))
            (lit "_metadata") default
          = metadata (now_iso Scenario.X0 (S (ticks Scenario.w0)))
              (total_token_count
                 (gemini_reply Scenario.X0 (ticks Scenario.w0)))).
Proof.
  destruct (analyze_returned_metadata Scenario.X0 [lit "v.mp4"] (lit "t") None
              Scenario.w0
              (Scenario.returned_of
                 (analyze_video_with_gemini Scenario.X0 [lit "v.mp4"] (lit "t")
                    None Scenario.w0))
              (snd (analyze_video_with_gemini Scenario.X0 [lit "v.mp4"]
                      (lit "t") None Scenario.w0))
              ltac:(vm_compute; reflexivity))
    as (raw & parsed & H1 & H2 & H3 & _).
  exists raw, parsed. split; [exact H1 |]. split; [exact H2 | exact H3].
Defined.

(** ** The quota a run consumes *)

Section Quota.

Variable api : pystr.

Lemma within_kept {A} (c : M A) :
  preserves (units_kept api) c -> preserves (units_within 0 api) c.
Proof.
  intros H w. specialize (H w). unfold units_kept in H.
  unfold units_within. rewrite H. lia.
Qed.

Lemma within_bind k1 k2 {A B} (c : M A) (k : A -> M B) :
  preserves (units_within k1 api) c ->
  (forall a, preserves (units_within k2 api) (k a)) ->
  preserves (units_within (k1 + k2) api) (bind c k).
Proof.
  intros Hc Hk w. specialize (Hc w). unfold bind.
  destruct (c w) as [[a|e|] w1]; cbn in *.
  - specialize (Hk a w1). unfold units_within in *. lia.
  - unfold units_within in *. lia.
  - unfold units_within in *. lia.
Qed.

Lemma within_mono k k' {A} (c : M A) :
  (k <= k')%nat ->
  preserves (units_within k api) c -> preserves (units_within k' api) c.
Proof. intros Hk H w. specialize (H w). unfold units_within in *. lia. Qed.

Lemma within_wait X api' max_wait :
  preserves (units_within (if str_eqb api api' then 1 else 0) api)
    (wait_for_rate_limit X api' max_wait).
Proof.
  intros w. unfold wait_for_rate_limit.
  pose proof (wait_loop_outcome X api' max_wait w
                (Z.to_nat (max_wait - 0)) 0 w (Nat.le_refl _)
                eq_refl eq_refl) as H.
  unfold sat, wait_outcome in H.
  destruct (wait_loop X api' max_wait 0 w) as [[[]|e|] w']; cbn in *.
  - destruct H as [_ H]. unfold units_within, str_eqb. rewrite H.
    destruct (decide (api = api')) as [->|Hne].
    + rewrite bool_decide_eq_true_2 by reflexivity.
      rewrite units_used_consume_same. lia.
    + rewrite bool_decide_eq_false_2 by exact Hne.
      rewrite units_used_consume_other by exact Hne. lia.
  - destruct H as [_ [_ H]]. unfold units_within. rewrite H. lia.
  - destruct H as [_ []].
Qed.

Lemma within_download_video X url p max_height :
  preserves (units_within 0 api) (download_video X url p max_height).
Proof.
  apply within_kept. unfold download_video, write_output, print.
  frame_with units_leaf.
Qed.

Lemma within_download_stage X url p skip_download :
  preserves
    (units_within (if str_eqb api (lit "youtube_data") then 1 else 0) api)
    (download_stage X url p skip_download).
Proof.
  unfold download_stage.
  apply (within_bind 0 _); [apply within_kept; frame_with units_leaf |].
  intros present. destruct (negb skip_download || negb present).
  - rewrite <- (Nat.add_0_r (if str_eqb _ _ then _ else _)).
    apply within_bind; [apply within_wait | intros _].
    apply (within_bind 0 0); [apply within_download_video | intros ok].
    apply within_kept. destruct ok; frame_with units_leaf.
  - apply (within_mono 0); [lia |]. apply within_kept. unfold print.
    frame_with units_leaf.
Qed.

Lemma within_analyze_and_finish X v p :
  preserves
    (units_within (if str_eqb api (lit "gemini_flash") then 1 else 0) api)
    (analyze_and_finish X v p).
Proof.
  unfold analyze_and_finish.
  apply (within_bind 0 _);
    [apply within_kept; unfold print; frame_with units_leaf | intros _].
  rewrite <- (Nat.add_0_r (if str_eqb _ _ then _ else _)).
  apply within_bind; [apply within_wait | intros _].
  apply within_kept. unfold print. frame_with units_leaf.
Qed.

End Quota.

(** X9. However it ends, a run of [process_video] consumes at most one unit
    of the quota of ['youtube_data'] and at most one of ['gemini_flash'],
    none of any other resource, and gives none back. *)
Theorem process_video_quota X video_id video_url skip_download api w :
  units_within (units_of_a_run api) api w
    (snd (process_video X video_id video_url skip_download w)).
Proof.
  revert w.
  change (preserves (units_within (units_of_a_run api) api)
            (process_video X video_id video_url skip_download)).
  unfold process_video.
  apply (within_bind api 0 _); [apply within_kept, lookup_keeps_units |].
  intros jv.
  apply (within_bind api 0 _);
    [apply within_kept; unfold print; frame_with units_leaf | intros _].
  apply (within_bind api 0 _);
    [apply within_kept; unfold mkdir; frame_with units_leaf | intros _].
  cbn [Nat.add].
  apply (within_mono api
           ((if str_eqb api (lit "youtube_data") then 1 else 0)
            + (if str_eqb api (lit "gemini_flash") then 1 else 0))).
  - unfold units_of_a_run, str_eqb.
    destruct (decide (api = lit "youtube_data")) as [->|H1].
    + rewrite bool_decide_eq_true_2 by reflexivity.
      rewrite (bool_decide_eq_false_2 (lit "youtube_data" = lit "gemini_flash"))
        by (intros H; vm_compute in H; discriminate).
      cbn. lia.
    + rewrite (bool_decide_eq_false_2 _ H1).
      destruct (bool_decide (api = lit "gemini_flash")); cbn; lia.
  - apply within_bind; [apply within_download_stage | intros _].
    apply within_analyze_and_finish.
Qed.

(** ** The files a run leaves *)





(** A step of a run that keeps [R], in a run of which [Q] asks no more
    than [R] where it does not return. *)
Lemma sat_frame_bind R `{!Frame R} {A B} (c : M A) (k : A -> M B) w0 w
    (Q : Outcome B -> World -> Prop) :
  preserves R c ->
  R w0 w ->
  (forall e w1, R w0 w1 -> Q (Raised e) w1) ->
  (forall w1, R w0 w1 -> Q Diverged w1) ->
  (forall a w1, R w0 w1 -> sat (k a) w1 Q) ->
  sat (bind c k) w Q.
Proof.
  intros Hc H0 Hr Hd Hk. apply sat_bind. unfold sat.
  specialize (Hc w).
  assert (R w0 (snd (c w))) as H1 by (eapply frame_trans; eassumption).
  destruct (c w) as [[a|e|] w1]; cbn in *; auto.
  apply Hk. exact H1.
Qed.


(** ** The lookup of the video *)

Lemma select_video_spec cond d jv :
  select_video cond d = Some jv -> cond (video jv) = true /\ joined d jv.
Proof.
  unfold select_video. intros H.
  assert (In jv (flat_map (join_video d) (List.filter cond (videos d)))) as Hin.
  { destruct (flat_map _ _) as [|x l]; [discriminate |].
    injection H as ->. left. reflexivity. }
  apply in_flat_map in Hin as (v & Hv & Hj).
  apply filter_In in Hv as [Hv Hc].
  unfold join_video in Hj. apply in_flat_map in Hj as (s & Hs & Hj).
  destruct (Z.eqb_spec (s_id s) (v_source_id v)) as [Es|]; [| destruct Hj].
  apply in_flat_map in Hj as (c & Hcr & Hj).
  destruct (Z.eqb_spec (c_id c) (s_creator_id s)) as [Ec|]; [| destruct Hj].
  destruct Hj as [<-|[]]. cbn.
  split; [exact Hc |]. split; [exact Hv |].
  exists s, c. cbn. auto 8.
Qed.

(** X11. The lookup at the head of [process_video] changes nothing and
    prints nothing.  The row it returns is a row of [videos] joined with
    its source and the creator of that source; it is the row with the given
    id where an id other than 0 is given, the URL being ignored then, and
    otherwise the row whose external id is the one found in the URL.  It
    raises [ValueError] or the error of the store, and nothing else. *)
Theorem lookup_video_outcome X video_id video_url w :
  sat (lookup_video X video_id video_url) w
    (lookup_outcome video_id video_url w).
Proof.
  unfold lookup_video, lookup_outcome, asked_for.
  repeat sat_step.
  destruct (id_given video_id) eqn:Hid.
  - repeat sat_step.
    destruct (execute_fault X (ticks w)); cbn [db set_db ticked files events];
      [rewrite rollback_same; auto 6 |].
    repeat sat_step.
    destruct (select_video _ (db w)) as [jv|] eqn:Hs;
      cbn [or_raise]; repeat sat_step; cbn [db set_db ticked files events].
    + apply select_video_spec in Hs as [Hc Hj].
      apply bool_decide_eq_true in Hc. auto 6.
    + rewrite rollback_same. eauto 8.
  - destruct video_url as [[|c url]|]; cbn [url_given];
      try (repeat sat_step; cbn [db set_db ticked files events];
           rewrite rollback_same; eauto 8).
    cbn [default]. unfold id.
    destruct (search_video_id (c :: url)) as [external_id|] eqn:Hsearch;
      [| repeat sat_step; cbn [db set_db ticked files events];
         rewrite rollback_same; eauto 8].
    repeat sat_step.
    destruct (execute_fault X (ticks w)); cbn [db set_db ticked files events];
      [rewrite rollback_same; auto 6 |].
    repeat sat_step.
    destruct (select_video _ (db w)) as [jv|] eqn:Hs;
      cbn [or_raise]; repeat sat_step; cbn [db set_db ticked files events].
    + apply select_video_spec in Hs as [Hc Hj].
      unfold str_eqb in Hc. apply bool_decide_eq_true in Hc.
      split; [reflexivity |]. split; [reflexivity |]. split; [reflexivity |].
      split; [| exact Hj].
      exists (c :: url). rewrite Hc. auto.
    + rewrite rollback_same. eauto 8.
Qed.

(** ** The selection of a batch *)

Lemma insert_by_date_In v x l : In x (insert_by_date v l) <-> x = v \/ In x l.
Proof.
  induction l as [|y l IH]; cbn; [intuition congruence |].
  destruct (published_after y v); cbn; [rewrite IH |]; intuition congruence.
Qed.

Lemma order_by_published_In x l : In x (order_by_published_desc l) <-> In x l.
Proof.
  induction l as [|v l IH]; cbn; [tauto |].
  rewrite insert_by_date_In, IH. intuition congruence.
Qed.

Lemma firstn_In {A} (x : A) n : forall l, In x (firstn n l) -> In x l.
Proof.
  induction n as [|n IH]; intros [|y l]; cbn; try tauto.
  intros [->|H]; [left; reflexivity | right; apply IH; exact H].
Qed.

Lemma published_after_asym a b :
  published_after a b = true -> published_after b a = false.
Proof.
  unfold published_after.
  destruct (v_published_at a), (v_published_at b); try congruence.
  rewrite Z.ltb_lt, Z.ltb_ge. lia.
Qed.

Lemma published_after_neg_trans a b c :
  published_after a b = false -> published_after b c = false ->
  published_after a c = false.
Proof.
  unfold published_after.
  destruct (v_published_at a), (v_published_at b), (v_published_at c);
    try congruence.
  rewrite !Z.ltb_ge. lia.
Qed.

Lemma insert_by_date_sorted v l :
  newest_first l -> newest_first (insert_by_date v l).
Proof.
  induction l as [|y l IH]; cbn [insert_by_date newest_first].
  - intros _. split; [constructor | exact I].
  - intros [Hy Hl]. destruct (published_after y v) eqn:E;
      cbn [newest_first].
    + split; [| apply IH; exact Hl].
      rewrite List.Forall_forall in *. intros x Hx.
      apply insert_by_date_In in Hx as [->|Hx]; [| apply Hy; exact Hx].
      apply published_after_asym. exact E.
    + split; [| split; assumption].
      constructor; [exact E |].
      rewrite List.Forall_forall in *. intros x Hx.
      eapply published_after_neg_trans; [apply Hy; exact Hx | exact E].
Qed.

Lemma order_by_published_sorted l : newest_first (order_by_published_desc l).
Proof.
  induction l as [|v l IH]; cbn [order_by_published_desc fold_right];
    [exact I |].
  apply insert_by_date_sorted. exact IH.
Qed.

Lemma newest_first_firstn n : forall l,
  newest_first l -> newest_first (firstn n l).
Proof.
  induction n as [|n IH]; intros l H; [exact I |].
  destruct l as [|y l]; [exact I |].
  destruct H as [Hy Hl]. cbn [firstn newest_first].
  split; [| apply IH; exact Hl].
  rewrite List.Forall_forall in *. intros x Hx.
  apply Hy. eapply firstn_In, Hx.
Qed.

Lemma firstn_short {A} n (l : list A) :
  (List.length (firstn n l) < n)%nat -> firstn n l = l.
Proof.
  intros H. apply firstn_all2.
  rewrite length_firstn in H. lia.
Qed.

Lemma select_pending_spec source_id limit d vs :
  select_pending (source_given source_id) limit d = Some vs ->
  (List.length vs <= Z.to_nat limit)%nat
  /\ (forall v, In v vs -> In v (videos d) /\ selectable source_id v)
  /\ newest_first vs
  /\ (forall v, In v (videos d) -> selectable source_id v ->
                (List.length vs < Z.to_nat limit)%nat -> In v vs).
Proof.
  unfold select_pending. destruct (limit <? 0); [discriminate |].
  intros [= <-].
  assert (forall v,
    (str_eqb (v_analysis_status v) (lit "pending")
     && match source_given source_id with
        | Some sid => v_source_id v =? sid
        | None => true
        end = true) <-> selectable source_id v) as Hsel.
  { intros v. unfold selectable, str_eqb.
    rewrite andb_true_iff, bool_decide_eq_true.
    destruct (source_given source_id); [rewrite Z.eqb_eq |]; tauto. }
  split; [apply firstn_le_length |].
  split; [| split].
  - intros v Hv. apply firstn_In in Hv.
    apply (proj1 (order_by_published_In _ _)) in Hv.
    apply filter_In in Hv as [Hv Hc]. split; [exact Hv |].
    apply Hsel. exact Hc.
  - apply newest_first_firstn, order_by_published_sorted.
  - intros v Hv Hs Hlen. rewrite firstn_short by exact Hlen.
    apply (proj2 (order_by_published_In _ _)), filter_In.
    split; [exact Hv |].
    apply Hsel. exact Hs.
Qed.

(** X12. Where the store accepts the query and [limit] is not negative,
    [process_batch] works through a list of at most [limit] rows of
    [videos], all of them pending and, where a source other than 0 is
    given, of that source; a source id of 0 filters nothing.  The list is
    in the order of the publication dates, the latest first and the rows
    without a date before all others, and where it is shorter than [limit]
    it holds every such row. *)
Theorem process_batch_selection X limit source_id w :
  0 <= limit ->
  execute_fault X (ticks w) = false ->
  exists vs,
    process_batch X limit source_id w
    = batch_loop X vs 1 (List.length vs)
        (emitted (EvPrint (MsgFound (List.length vs))) (ticked w))
    /\ (List.length vs <= Z.to_nat limit)%nat
    /\ (forall v, In v vs -> In v (videos (db w)) /\ selectable source_id v)
    /\ newest_first vs
    /\ (forall v, In v (videos (db w)) -> selectable source_id v ->
                  (List.length vs < Z.to_nat limit)%nat -> In v vs).
Proof.
  intros Hlimit Hfault.
  destruct (select_pending (source_given source_id) limit (db w)) as [vs|]
    eqn:Hs.
  - exists vs. split; [| apply select_pending_spec; exact Hs].
    unfold process_batch, with_connection, execute_query, bind at 1.
    unfold bind at 1. unfold bind at 1. cbn [tick].
    rewrite Hfault. unfold bind at 1. cbn [get_db ret db].
    rewrite Hs. cbn [or_raise ret]. reflexivity.
  - unfold select_pending in Hs.
    destruct (Z.ltb_spec limit 0); [lia | discriminate].
Qed.

Lemma process_batch_selection_witness :
  exists vs,
    process_batch Scenario.X0 10 None Scenario.w3
    = batch_loop Scenario.X0 vs 1 (List.length vs)
        (emitted (EvPrint (MsgFound (List.length vs))) (ticked Scenario.w3))
    /\ newest_first vs.
Proof.
  destruct (process_batch_selection Scenario.X0 10 None Scenario.w3
              ltac:(lia) eq_refl) as (vs & E & _ & _ & Hs & _).
  exists vs. split; [exact E | exact Hs].
Defined.

(** ** The video id in a URL *)

Lemma starts_with_app p rest : starts_with p (p ++ rest) = true.
Proof.
  induction p as [|a p IH]; cbn; [destruct rest; reflexivity |].
  rewrite N.eqb_refl. exact IH.
Qed.

Lemma starts_with_inv p : forall s,
  starts_with p s = true -> s = p ++ skipn (List.length p) s.
Proof.
  induction p as [|a p IH]; intros s H; [reflexivity |].
  destruct s as [|b s]; [discriminate |]. cbn in H.
  apply andb_true_iff in H as [Hab H]. apply N.eqb_eq in Hab. subst b.
  cbn. f_equal. apply IH. exact H.
Qed.

Lemma take_id_inv t g :
  take_id t = Some g -> is_video_id g /\ t = g ++ skipn 11 t.
Proof.
  unfold take_id, is_video_id.
  destruct (Nat.eqb_spec (List.length (firstn 11 t)) 11) as [Hl|];
    [| discriminate].
  destruct (forallb is_id_char (firstn 11 t)) eqn:Hc; [| discriminate].
  cbn. intros [= <-]. split; [split; assumption |].
  symmetry. apply firstn_skipn.
Qed.

Lemma take_id_app g post : is_video_id g -> take_id (g ++ post) = Some g.
Proof.
  intros [Hl Hc]. unfold take_id.
  assert (firstn 11 (g ++ post) = g) as ->.
  { rewrite <- Hl. rewrite firstn_app, Nat.sub_diag, firstn_all. cbn.
    apply app_nil_r. }
  rewrite Hl, Hc. reflexivity.
Qed.

Lemma match_here_inv s g :
  match_here s = Some g ->
  is_video_id g /\ exists m post, id_marker m /\ s = m ++ g ++ post.
Proof.
  unfold match_here.
  destruct (starts_with (lit "v=") s) eqn:E1.
  - intros H. apply take_id_inv in H as [Hg Ht]. split; [exact Hg |].
    exists (lit "v="), (skipn 11 (skipn 2 s)).
    split; [left; reflexivity |].
    rewrite <- Ht. apply (starts_with_inv (lit "v=")). exact E1.
  - destruct (starts_with (lit "youtu.be/") s) eqn:E2; [| discriminate].
    intros H. apply take_id_inv in H as [Hg Ht]. split; [exact Hg |].
    exists (lit "youtu.be/"), (skipn 11 (skipn 9 s)).
    split; [right; reflexivity |].
    rewrite <- Ht. apply (starts_with_inv (lit "youtu.be/")). exact E2.
Qed.

Lemma match_here_app m g post :
  id_marker m -> is_video_id g -> match_here (m ++ g ++ post) = Some g.
Proof.
  intros [->| ->] Hg; unfold match_here.
  - rewrite starts_with_app.
    change (skipn 2 (lit "v=" ++ g ++ post)) with (g ++ post).
    apply take_id_app. exact Hg.
  - change (starts_with (lit "v=") (lit "youtu.be/" ++ g ++ post))
      with false.
    rewrite starts_with_app.
    change (skipn 9 (lit "youtu.be/" ++ g ++ post)) with (g ++ post).
    apply take_id_app. exact Hg.
Qed.

(** X13. The URL given to [process_video] in place of an id is accepted
    exactly when it holds, anywhere, [v=] or [youtu.be/] followed by eleven
    characters among letters, digits, [_] and [-].  The external id looked
    up is made of such eleven characters that follow such a marker in the
    URL; what comes after them is not looked at. *)
Theorem search_video_id_spec s :
  (forall g,
      search_video_id s = Some g ->
      is_video_id g
      /\ exists pre m post, id_marker m /\ s = pre ++ m ++ g ++ post)
  /\ (forall pre m g post,
        id_marker m -> is_video_id g -> s = pre ++ m ++ g ++ post ->
        exists g', search_video_id s = Some g').
Proof.
  split.
  - induction s as [|c s IH]; intros g H; cbn [search_video_id] in H.
    + destruct (match_here []) eqn:E; [| discriminate].
      injection H as ->. apply match_here_inv in E as [Hg (m & post & Hm & E)].
      split; [exact Hg |]. exists [], m, post. auto.
    + destruct (match_here (c :: s)) eqn:E.
      * injection H as ->.
        apply match_here_inv in E as [Hg (m & post & Hm & E)].
        split; [exact Hg |]. exists [], m, post. auto.
      * apply IH in H as [Hg (pre & m & post & Hm & ->)].
        split; [exact Hg |]. exists (c :: pre), m, post. auto.
  - intros pre m g post Hm Hg ->.
    induction pre as [|c pre IH].
    + exists g. cbn [app].
      pose proof (match_here_app m g post Hm Hg) as E.
      destruct (m ++ g ++ post); cbn [search_video_id]; rewrite E; reflexivity.
    + cbn [app search_video_id].
      destruct (match_here (c :: pre ++ m ++ g ++ post)); eauto.
Qed.

Lemma search_video_id_spec_witness :
  is_video_id (lit "abcdefghijk")
  /\ exists pre m post,
      id_marker m
      /\ lit "https://youtu.be/abcdefghijk?t=42"
         = pre ++ m ++ lit "abcdefghijk" ++ post.
Proof.
  apply (proj1 (search_video_id_spec (lit "https://youtu.be/abcdefghijk?t=42"))
           (lit "abcdefghijk")).
  vm_compute. reflexivity.
Defined.

(** ** What a run that returns has saved *)

#[export] Instance analysis_kept_frame : Frame analysis_kept.
Proof.
  split; unfold analysis_kept.
  - reflexivity.
  - intros w1 w2 w3 H1 H2. congruence.
  - intros w w' _. reflexivity.
Qed.

Ltac analysis_leaf :=
  first [ solve [eauto with frame]
        | intros; intros ?; unfold analysis_kept; cbn; split_ifs;
          reflexivity ].

Lemma extract_stage_keeps_analysis X video_id video_path moments :
  preserves analysis_kept (extract_stage X video_id video_path moments).
Proof.
  unfold extract_stage, save_frame_paths, frame_paths_transaction,
    extract_frames_batch, timestamp_of, get_of, execute, mkdir, print.
  frame_with ltac:(first
    [ solve [fapply preserves_extract_loop;
             [ intros; unfold extract_frame, write_output, print;
               frame_with analysis_leaf
             | analysis_leaf ]]
    | analysis_leaf ]).
Qed.

Lemma cleanup_keeps_analysis video_path :
  preserves analysis_kept (cleanup_stage video_path).
Proof. unfold_program. frame_with analysis_leaf. Qed.

Lemma upsert_holds e now d :
  (exists r, In r (video_analysis (snd (upsert_analysis e now d)))
             /\ a_video_id r = a_video_id e)
  /\ forall r,
       In r (video_analysis (snd (upsert_analysis e now d))) ->
       a_video_id r = a_video_id e ->
       a_summary r = a_summary e
       /\ a_summary_pt r = a_summary_pt e
       /\ a_difficulty_level r = a_difficulty_level e
       /\ a_key_topics r = a_key_topics e
       /\ a_techniques_shown r = a_techniques_shown e
       /\ a_raw_response r = a_raw_response e.
Proof.
  unfold upsert_analysis.
  destruct (List.find (same_video (a_video_id e)) (video_analysis d))
    as [old|] eqn:Hf; cbn.
  - apply find_some in Hf as [Hin Hold]. split.
    + exists (conflict_update e now old). split.
      * apply in_map_iff. exists old. rewrite Hold. auto.
      * cbn. unfold same_video in Hold. apply Z.eqb_eq. exact Hold.
    + intros r Hr Hid. apply in_map_iff in Hr as (r0 & <- & _).
      destruct (same_video (a_video_id e) r0) eqn:E; cbn; [tauto |].
      unfold same_video in E. apply Z.eqb_neq in E. contradiction.
  - split.
    + eexists. split; [apply in_or_app; right; left; reflexivity |].
      reflexivity.
    + intros r Hr Hid. apply in_app_or in Hr as [Hr|[<-|[]]]; [| cbn; tauto].
      exfalso. eapply (find_none _ _ Hf) in Hr.
      unfold same_video in Hr. apply Z.eqb_neq in Hr. contradiction.
Qed.

(** X14. When [process_video] returns an analysis, with or without key
    moments and be it the substitute for a response that was no JSON, the
    video found has [analysis_status] ['completed'] at the end, so that no
    later batch selects it again, and [video_analysis] has a row for it;
    every row of the video holds the returned analysis in its summary,
    difficulty, topics, techniques and raw response. *)
Theorem returned_run_is_saved
    X video_id video_url skip_download w analysis w' :
  process_video X video_id video_url skip_download w = (Returned analysis, w') ->
  exists jv w1,
    lookup_video X video_id video_url w = (Returned jv, w1)
    /\ (forall v, In v (videos (db w')) -> v_id v = v_id (video jv) ->
                  v_analysis_status v = lit "completed")
    /\ (exists r, In r (video_analysis (db w'))
                  /\ a_video_id r = v_id (video jv))
    /\ (forall r, In r (video_analysis (db w')) ->
                  a_video_id r = v_id (video jv) ->
                  holds_analysis X analysis r)
    /\ (forall source_id limit vs,
          select_pending (source_given source_id) limit (db w') = Some vs ->
          forall v, In v vs -> v_id v <> v_id (video jv)).
Proof.
  intros E.
  apply process_video_returned in E as (jv & w1 & w3 & El & _ & _ & E).
  apply analyze_and_finish_returned in E
    as (w_a & analysis_id & w_s & w_e & w_c & _ & _ & _ & Es & Ee & Ec & ->).
  set (vid := v_id (video jv)) in *.
  destruct (save_returned _ _ _ _ _ _ Es)
    as (meta & items & rows & _ & _ & _ & _ & Hdb).
  (* the state the save leaves *)
  assert (forall v, In v (videos (db w_s)) -> v_id v = vid ->
                    v_analysis_status v = lit "completed") as Hstatus.
  { rewrite Hdb. cbn [update_analysis_status set_videos videos].
    intros v Hin Hid. apply in_map_iff in Hin as (v0 & <- & _).
    destruct (v_id v0 =? vid) eqn:Eq; [reflexivity |].
    apply Z.eqb_neq in Eq. cbn in Hid. contradiction. }
  assert (video_analysis (db w_s)
          = video_analysis
              (snd (upsert_analysis
                      (proposed_row X vid analysis
                         (dict_get meta (lit "model") (JStr model_name))
                         (dict_get meta (lit "tokens_used") (JInt 0))
                         (db_now X (ticks w_a)))
                      (db_now X (ticks w_a)) (db w_a)))) as Hrows.
  { rewrite Hdb. cbn [update_analysis_status set_videos video_analysis].
    apply video_analysis_insert_moments. }
  (* the rest of the run *)
  assert (videos_step w_s w_c) as Hvs.
  { learn (respected_extract_stage videos_step videos_step_respected X vid
             (video_file X vid) (key_moments analysis)) Ee.
    learn (respected_cleanup videos_step videos_step_respected
             (video_file X vid)) Ec.
    eapply frame_trans; eassumption. }
  assert (analysis_kept w_s w_c) as Hak.
  { learn (extract_stage_keeps_analysis X vid (video_file X vid)
             (key_moments analysis)) Ee.
    learn (cleanup_keeps_analysis (video_file X vid)) Ec.
    eapply frame_trans; eassumption. }
  unfold analysis_kept in Hak. unfold videos_step in Hvs.
  cbn [db emitted]. rewrite Hak, Hrows.
  pose proof (upsert_holds
                (proposed_row X vid analysis
                   (dict_get meta (lit "model") (JStr model_name))
                   (dict_get meta (lit "tokens_used") (JInt 0))
                   (db_now X (ticks w_a)))
                (db_now X (ticks w_a)) (db w_a)) as [Hex Hall].
  assert (forall v, In v (videos (db w_c)) -> v_id v = vid ->
                    v_analysis_status v = lit "completed") as Hend.
  { intros v Hin Hid.
    destruct (Forall2_In_r _ _ _ _ Hvs Hin) as (v0 & Hin0 & Hstep).
    destruct Hstep as (Hid0 & _ & _ & _ & _ & _ & _ & [Hst|Hst] & _);
      [| exact Hst].
    rewrite Hst. apply Hstatus; [exact Hin0 | congruence]. }
  exists jv, w1. split; [exact El |]. split; [exact Hend |].
  split; [exact Hex |]. split.
  - intros r Hr Hid. exact (Hall r Hr Hid).
  - intros source_id limit vs Hs v Hv Hid.
    apply select_pending_spec in Hs as (_ & Hsel & _).
    destruct (Hsel v Hv) as [Hin [Hpending _]].
    rewrite (Hend v Hin Hid) in Hpending.
    vm_compute in Hpending. discriminate.
Qed.

Lemma returned_run_is_saved_witness :
  exists jv w1,
    lookup_video Scenario.X_prose (Some 42) None Scenario.w0
    = (Returned jv, w1)
    /\ (forall v,
          In v (videos (db (snd (process_video Scenario.X_prose (Some 42) None
                                   false Scenario.w0)))) ->
          v_id v = v_id (video jv) ->
          v_analysis_status v = lit "completed").
Proof.
  destruct (returned_run_is_saved Scenario.X_prose (Some 42) None false
              Scenario.w0
              (Scenario.returned_of
                 (process_video Scenario.X_prose (Some 42) None false
                    Scenario.w0))
              (snd (process_video Scenario.X_prose (Some 42) None false
                      Scenario.w0))
              ltac:(vm_compute; reflexivity))
    as (jv & w1 & El & Hs & _).
  exists jv, w1. split; [exact El | exact Hs].
Defined.

(** ** A timestamp that is no integer *)

Lemma extract_loop_bad_timestamp X video_path output_dir v rest :
  as_int v = None ->
  forall good acc w,
  exists w',
    extract_loop X video_path output_dir (List.map JInt good ++ v :: rest) acc w
    = (Raised (format_error v), w')
    /\ files w' = ffmpeg_runs X output_dir good (ticks w) (files w)
    /\ ticks w' = (ticks w + List.length good)%nat
    /\ db w' = db w.
Proof.
  intros Hv. induction good as [|ts good IH]; intros acc w.
  - cbn [List.map app extract_loop]. rewrite Hv. cbn [or_raise].
    exists w. cbn. rewrite Nat.add_0_r. auto.
  - cbn [List.map app extract_loop as_int or_raise].
    unfold bind at 1. cbn [ret].
    destruct (extract_frame_run X video_path ts (output_dir ++ [frame_name ts]) w)
      as (w1 & E1 & Hf1 & Hd1 & Ht1).
    unfold bind at 1. rewrite E1.
    destruct (frame_extracted X (ticks w) (output_dir ++ [frame_name ts])
                (files w)).
    + unfold bind at 1. cbn [print emit].
      match goal with
      | |- context [extract_loop _ _ _ _ ?acc' ?w2] =>
          destruct (IH acc' w2) as (w' & E & Hf & Ht & Hd)
      end.
      exists w'. split; [exact E |]. cbn [files ticks db] in *.
      rewrite Hf, Ht, Hd, Hf1, Ht1, Hd1. cbn [ffmpeg_runs].
      unfold frame_path. split; [reflexivity |].
      split; [cbn [List.length]; lia | reflexivity].
    + unfold bind at 1. cbn [print emit].
      match goal with
      | |- context [extract_loop _ _ _ _ ?acc' ?w2] =>
          destruct (IH acc' w2) as (w' & E & Hf & Ht & Hd)
      end.
      exists w'. split; [exact E |]. cbn [files ticks db] in *.
      rewrite Hf, Ht, Hd, Hf1, Ht1, Hd1. cbn [ffmpeg_runs].
      unfold frame_path. split; [reflexivity |].
      split; [cbn [List.length]; lia | reflexivity].
Qed.

(** X15. A timestamp that is no integer (a float, a string, [null], a
    list, an object) makes [extract_frames_batch] raise where it formats
    the name of the frame: [ValueError] for a float or a string and
    [TypeError] otherwise.  ffmpeg has run for the timestamps before it
    and for none after it; the images written stay, and the mapping of the
    frames extracted so far is lost with the exception. *)
Theorem extract_frames_batch_bad_timestamp
    X video_path good v rest output_dir w :
  as_int v = None ->
  exists w',
    extract_frames_batch X video_path (List.map JInt good ++ v :: rest)
      output_dir w
    = (Raised (format_error v), w')
    /\ files w' = ffmpeg_runs X output_dir good (ticks w) (files w)
    /\ ticks w' = (ticks w + List.length good)%nat
    /\ db w' = db w.
Proof.
  intros Hv. unfold extract_frames_batch, bind at 1. cbn [mkdir emit].
  match goal with
  | |- context [extract_loop _ _ _ _ ?acc ?w1] =>
      destruct (extract_loop_bad_timestamp X video_path output_dir v rest Hv
                  good acc w1) as (w' & E & H)
  end.
  exists w'. split; [exact E | exact H].
Qed.

Lemma extract_frames_batch_bad_timestamp_witness :
  exists w',
    extract_frames_batch Scenario.X0 Scenario.video_42
      (List.map JInt [10] ++ JFloat (S754_zero false) :: [JInt 80])
      Scenario.frames_42 Scenario.w0
    = (Raised (ValueError (lit "Unknown format code 'd'")), w')
    /\ ticks w' = 1%nat.
Proof.
  destruct (extract_frames_batch_bad_timestamp Scenario.X0 Scenario.video_42
              [10] (JFloat (S754_zero false)) [JInt 80] Scenario.frames_42
              Scenario.w0 eq_refl) as (w' & E & _ & Ht & _).
  exists w'. split; [exact E | exact Ht].
Defined.

(** ** Where a run can hang *)

Lemma analyze_diverged X video_path title description w :
  fst (analyze_video_with_gemini X video_path title description w) = Diverged
  <-> key_present (GEMINI_API_KEY X) = true
      /\ exists st0,
          upload_state (gemini_reply X (ticks w)) = Some st0
          /\ settle st0 (poll_states (gemini_reply X (ticks w))) = None.
Proof.
  change (sat (analyze_video_with_gemini X video_path title description) w
            (fun r _ =>
               r = Diverged
               <-> key_present (GEMINI_API_KEY X) = true
                   /\ exists st0,
                       upload_state (gemini_reply X (ticks w)) = Some st0
                       /\ settle st0 (poll_states (gemini_reply X (ticks w)))
                          = None)).
  unfold analyze_video_with_gemini, parse_response.
  destruct (key_present (GEMINI_API_KEY X)); cbn [negb];
    [| split; [discriminate | intros [H _]; discriminate]].
  repeat sat_step. cbv zeta. repeat sat_step.
  destruct (upload_state (gemini_reply X (ticks w))) as [st0|];
    repeat sat_step;
    [| split; [discriminate | intros (_ & st' & H & _); discriminate]].
  apply (sat_await (fun _ => true)); [reflexivity | reflexivity |].
  intros w1 _ _ _ _. unfold settled.
  destruct (settle st0 (poll_states (gemini_reply X (ticks w)))) as [st|]
    eqn:Hst.
  - assert (forall r : Outcome pydict,
              r <> Diverged ->
              r = Diverged
              <-> true = true
                  /\ exists st1, Some st0 = Some st1
                                 /\ settle st1 (poll_states
                                                  (gemini_reply X (ticks w)))
                                    = None) as Hno.
    { intros r Hr. split; [contradiction |].
      intros (_ & st1 & [= <-] & H). congruence. }
    destruct st; repeat sat_step; try (apply Hno; discriminate).
    destruct (generate_ok _); repeat sat_step; try (apply Hno; discriminate).
    destruct (response_text _); repeat sat_step;
      try (apply Hno; discriminate).
    cbv zeta. destruct (json_loads X _) as [v|e| |msg]; repeat sat_step.
    + destruct v; repeat sat_step; apply Hno; discriminate.
    + apply Hno; discriminate.
    + apply Hno; discriminate.
    + apply Hno; discriminate.
  - split; [intros _ | reflexivity]. split; [reflexivity |].
    exists st0. auto.
Qed.

(** X16. [analyze_video_with_gemini] fails to end in one case only: the key
    is configured, the upload succeeded, and the service keeps answering
    that the file is in processing; the polling loop has no bound. *)
Theorem analyze_hangs_in_polling_only X video_path title description w :
  fst (analyze_video_with_gemini X video_path title description w) = Diverged
  <-> key_present (GEMINI_API_KEY X) = true
      /\ exists st0,
          upload_state (gemini_reply X (ticks w)) = Some st0
          /\ settle st0 (poll_states (gemini_reply X (ticks w))) = None.
Proof. apply analyze_diverged. Qed.

Lemma ends_ret {A} (a : A) : ends (ret a).
Proof. intros w. discriminate. Qed.

Lemma ends_raise {A} e : ends (@raise A e).
Proof. intros w. discriminate. Qed.

Lemma ends_or_raise {A} (o : option A) e : ends (or_raise o e).
Proof. destruct o; intros w; discriminate. Qed.

Lemma ends_bind {A B} (c : M A) (k : A -> M B) :
  ends c -> (forall a, ends (k a)) -> ends (bind c k).
Proof.
  intros Hc Hk w. specialize (Hc w). unfold bind.
  destruct (c w) as [[a|e|] w1]; cbn in *;
    [apply Hk | discriminate | contradiction].
Qed.

Lemma ends_try_except {A} (c : M A) (h : exn -> M A) :
  ends c -> (forall e, ends (h e)) -> ends (try_except c h).
Proof.
  intros Hc Hh w. specialize (Hc w). unfold try_except.
  destruct (c w) as [[a|e|] w1]; cbn in *;
    [discriminate | apply Hh | contradiction].
Qed.

Lemma ends_with_connection {A} X (body : Z -> M A) :
  (forall now, ends (body now)) -> ends (with_connection X body).
Proof.
  intros Hb w. specialize (Hb (db_now X (ticks w)) w).
  unfold with_connection.
  destruct (body (db_now X (ticks w)) w) as [[a|e|] w1]; cbn in *;
    [discriminate | discriminate | contradiction].
Qed.

Lemma ends_for_each {A} (l : list A) (body : A -> M unit) :
  (forall x, ends (body x)) -> ends (for_each l body).
Proof.
  intros Hb. induction l as [|x l IH]; cbn [for_each];
    [apply ends_ret | apply ends_bind; [apply Hb | intros _; exact IH]].
Qed.

Lemma ends_map_m {A B} (f : A -> M B) (l : list A) :
  (forall x, ends (f x)) -> ends (map_m f l).
Proof.
  intros Hf. induction l as [|x l IH]; cbn [map_m]; [apply ends_ret |].
  apply ends_bind; [apply Hf | intros y].
  apply ends_bind; [exact IH | intros ys; apply ends_ret].
Qed.

(** The steps of a proof that a computation ends that follow its shape;
    [leaf] closes what is left. *)
Ltac ends_with leaf :=
  repeat first
    [ apply ends_ret
    | apply ends_raise
    | apply ends_or_raise
    | apply ends_bind; [| intros ?]
    | apply ends_with_connection; intros ?
    | apply ends_for_each; intros ?
    | apply ends_map_m; intros ?
    | apply ends_try_except; [| intros ?]
    | match goal with
      | |- ends (match ?x with _ => _ end) => destruct x
      end
    | solve [leaf] ].

Ltac ends_leaf := intros; intros ?; cbn; split_ifs; discriminate.

Lemma ends_wait X api max_wait : ends (wait_for_rate_limit X api max_wait).
Proof.
  intros w. unfold wait_for_rate_limit.
  pose proof (wait_loop_outcome X api max_wait w
                (Z.to_nat (max_wait - 0)) 0 w (Nat.le_refl _)
                eq_refl eq_refl) as H.
  unfold sat, wait_outcome in H.
  destruct (wait_loop X api max_wait 0 w) as [[a|e|] w1]; cbn in *;
    [discriminate | discriminate | destruct H as [_ []]].
Qed.

Lemma ends_extract_loop X video_path output_dir timestamps : forall acc,
  ends (extract_loop X video_path output_dir timestamps acc).
Proof.
  induction timestamps as [|v rest IH]; intros acc; cbn [extract_loop];
    [apply ends_ret |].
  apply ends_bind; [apply ends_or_raise | intros ts].
  apply ends_bind.
  - unfold extract_frame, write_output, print. ends_with ends_leaf.
  - intros ok. destruct ok;
      (apply ends_bind; [unfold print; ends_leaf | intros _; apply IH]).
Qed.

Section Ends.

Variable X : Externals.
Hypothesis Hsettles : polling_settles X.

Lemma ends_analyze video_path title description :
  ends (analyze_video_with_gemini X video_path title description).
Proof.
  intros w H.
  apply analyze_diverged in H as (_ & st0 & Hup & Hst).
  exact (Hsettles _ _ Hup Hst).
Qed.

Lemma ends_process_video video_id video_url skip_download :
  ends (process_video X video_id video_url skip_download).
Proof.
  unfold process_video, analyze_and_finish, download_stage, extract_stage,
    cleanup_stage, save_frame_paths, frame_paths_transaction, lookup_video,
    save_analysis_to_db, save_transaction, save_moment, get_of, timestamp_of,
    extract_frames_batch, download_video, execute, execute_returning,
    execute_query, unlink, write_output, mkdir, print.
  ends_with ltac:(first
    [ solve [apply ends_wait]
    | solve [apply ends_analyze]
    | solve [apply ends_extract_loop]
    | ends_leaf ]).
Qed.

Lemma ends_batch_loop vs : forall i n, ends (batch_loop X vs i n).
Proof.
  induction vs as [|v rest IH]; intros i n; cbn [batch_loop];
    [apply ends_ret |].
  apply ends_bind; [| intros _; apply IH].
  unfold batch_item.
  apply ends_bind; [unfold print; ends_leaf | intros _].
  apply ends_bind.
  - apply ends_try_except.
    + apply ends_bind; [apply ends_process_video | intros _; apply ends_ret].
    + intros e. unfold print. ends_with ends_leaf.
  - intros done. unfold print, sleep. ends_with ends_leaf.
Qed.

End Ends.

(** X17. Where the inference service never leaves an uploaded file in
    processing for ever, every run of [process_video] and every batch
    ends, by a return or by an exception: the waits for the quota are
    bounded, the external processes have timeouts, and the loops go over
    finite lists. *)
Theorem program_ends_when_polling_settles X :
  polling_settles X ->
  (forall limit source_id w,
      fst (process_batch X limit source_id w) <> Diverged)
  /\ (forall video_id video_url skip_download w,
        fst (process_video X video_id video_url skip_download w) <> Diverged).
Proof.
  intros Hsettles. split.
  - intros limit source_id.
    change (ends (process_batch X limit source_id)).
    unfold process_batch, execute_query, print.
    ends_with ltac:(first [ solve [apply ends_batch_loop; exact Hsettles]
                          | ends_leaf ]).
  - intros video_id video_url skip_download.
    apply ends_process_video. exact Hsettles.
Qed.

Lemma program_ends_when_polling_settles_witness :
  fst (process_batch Scenario.X0 10 None Scenario.w3) <> Diverged.
Proof.
  apply (program_ends_when_polling_settles Scenario.X0).
  intros n st0 H. injection H as <-. vm_compute. discriminate.
Defined.

(** ** The tables after a failure *)

Lemma rollback_tables_kept w w' :
  tables_kept w (set_db (rollback (db w) (db w')) w').
Proof. unfold tables_kept. cbn. tauto. Qed.

Lemma frame_path_updates_raise X video_id extracted : forall w,
  sat (for_each extracted (fun item =>
         execute X (update_frame_path (path_str (snd item)) video_id (fst item))))
      w (fun r _ =>
           match r with
           | Raised e => e = DatabaseError
           | _ => True
           end).
Proof.
  induction extracted as [|item rest IH]; intros w.
  - exact I.
  - cbn [for_each]. repeat sat_step.
    destruct (execute_fault X (ticks w)); [reflexivity |].
    eapply sat_conseq; [apply IH |].
    intros [[]|e|] w' H; cbn in *; auto.
Qed.

Lemma save_frame_paths_outcome X video_id extracted w :
  sat (save_frame_paths X video_id extracted) w
    (frame_paths_outcome video_id extracted w).
Proof.
  unfold save_frame_paths, frame_paths_transaction, frame_paths_outcome.
  repeat sat_step.
  pose proof (frame_path_updates_sat X video_id extracted w) as H1.
  pose proof (frame_path_updates_raise X video_id extracted w) as H2.
  unfold sat in *.
  destruct (for_each extracted _ w) as [[[]|e|] w1]; cbn [fst snd] in *.
  - destruct H1 as [Hf Hd]. unfold execute, bind. cbn [tick fst snd].
    destruct (execute_fault X (ticks w1)); cbn.
    + split; [exact Hf |]. split; [reflexivity |].
      unfold tables_kept. cbn. tauto.
    + rewrite Hd. auto.
  - destruct H1 as [Hf _]. subst e.
    split; [exact Hf |]. split; [reflexivity | apply rollback_tables_kept].
  - destruct H1 as [_ []].
Qed.

(** X18. The frames of a video are recorded in one transaction: when
    [save_frame_paths] returns, every path of the mapping and the status
    ['completed'] are written; when it raises, which it does for an error
    of the store only, the tables are as they were, with no path and no
    status written.  It always ends and touches no file. *)
Theorem save_frame_paths_atomic X video_id extracted w :
  sat (save_frame_paths X video_id extracted) w
    (frame_paths_outcome video_id extracted w).
Proof. apply save_frame_paths_outcome. Qed.


Section RaisesOnly.

Variable P : exn -> Prop.

Lemma raises_only_ret {A} (a : A) : raises_only P (ret a).
Proof. intros w e w' [=]. Qed.

Lemma raises_only_raise {A} e : P e -> raises_only P (@raise A e).
Proof. intros H w e' w' [= <- _]. exact H. Qed.

Lemma raises_only_or_raise {A} (o : option A) e :
  P e -> raises_only P (or_raise o e).
Proof. intros H w e' w'. destruct o; intros [= <- _]. exact H. Qed.

Lemma raises_only_bind {A B} (c : M A) (k : A -> M B) :
  raises_only P c -> (forall a, raises_only P (k a)) ->
  raises_only P (bind c k).
Proof.
  intros Hc Hk w e w'. unfold bind.
  destruct (c w) as [[a|e1|] w1] eqn:E.
  - apply Hk.
  - intros [= <- _]. eapply Hc, E.
  - intros [=].
Qed.

Lemma raises_only_with_connection {A} X (body : Z -> M A) :
  (forall now, raises_only P (body now)) ->
  raises_only P (with_connection X body).
Proof.
  intros Hb w e w'. unfold with_connection.
  destruct (body (db_now X (ticks w)) w) as [[a|e1|] w1] eqn:E;
    intros [= <- _]. eapply Hb, E.
Qed.

Lemma raises_only_for_each {A} (l : list A) (body : A -> M unit) :
  (forall x, raises_only P (body x)) -> raises_only P (for_each l body).
Proof.
  intros Hb. induction l as [|x l IH]; cbn [for_each];
    [apply raises_only_ret
    | apply raises_only_bind; [apply Hb | intros _; exact IH]].
Qed.

Lemma raises_only_map_m {A B} (f : A -> M B) (l : list A) :
  (forall x, raises_only P (f x)) -> raises_only P (map_m f l).
Proof.
  intros Hf. induction l as [|x l IH]; cbn [map_m];
    [apply raises_only_ret |].
  apply raises_only_bind; [apply Hf | intros y].
  apply raises_only_bind; [exact IH | intros ys; apply raises_only_ret].
Qed.

End RaisesOnly.

(** The steps of a proof about the exceptions of a computation that follow
    its shape; [leaf] closes what is left. *)
Ltac raises_with leaf :=
  repeat first
    [ apply raises_only_ret
    | apply raises_only_bind; [| intros ?]
    | apply raises_only_with_connection; intros ?
    | apply raises_only_for_each; intros ?
    | apply raises_only_map_m; intros ?
    | match goal with
      | |- raises_only _ (match ?x with _ => _ end) => destruct x
      end
    | solve [leaf] ].

(** A primitive raises nothing; a [raise] is checked against the set. *)
Ltac raises_leaf :=
  first [ apply raises_only_raise;
          solve [unfold frame_stage_error; eauto 6 | discriminate]
        | apply raises_only_or_raise;
          solve [unfold frame_stage_error; eauto 6 | discriminate]
        | intros; intros ? ? ?; cbn; split_ifs; discriminate ].

Lemma raises_only_extract_loop P X video_path output_dir timestamps :
  (forall v, P (format_error v)) ->
  forall acc,
    raises_only P (extract_loop X video_path output_dir timestamps acc).
Proof.
  intros HP.
  induction timestamps as [|v rest IH]; intros acc; cbn [extract_loop];
    [apply raises_only_ret |].
  apply raises_only_bind; [apply raises_only_or_raise, HP | intros ts].
  apply raises_only_bind.
  - unfold extract_frame, write_output, print. raises_with raises_leaf.
  - intros ok. destruct ok;
      (apply raises_only_bind; [unfold print; raises_leaf | intros _; apply IH]).
Qed.

Lemma format_error_stage v : frame_stage_error (format_error v).
Proof. unfold frame_stage_error. destruct v; cbn; eauto 6. Qed.

Lemma extract_stage_errors X video_id video_path moments :
  raises_only frame_stage_error
    (extract_stage X video_id video_path moments).
Proof.
  unfold extract_stage, save_frame_paths, frame_paths_transaction,
    extract_frames_batch, timestamp_of, get_of, execute, mkdir, print.
  raises_with ltac:(first
    [ solve [apply raises_only_extract_loop, format_error_stage]
    | raises_leaf ]).
Qed.



(** ** A download that fails *)

Lemma raises_only_mono (P Q : exn -> Prop) {A} (c : M A) :
  (forall e, P e -> Q e) -> raises_only P c -> raises_only Q c.
Proof. intros HPQ H w e w' E. eapply HPQ, H, E. Qed.

Lemma raises_only_await P st answers :
  raises_only P (await_processing st answers).
Proof.
  revert st. induction answers as [|a rest IH]; intros st.
  - destruct st; cbn; intros w e w' E; discriminate E.
  - destruct st; cbn [await_processing];
      try solve [intros w e w' E; discriminate E].
    apply raises_only_bind; [intros w e w' [=] | intros _].
    apply raises_only_bind; [intros w e w' [=] | intros _; apply IH].
Qed.

Lemma raises_only_wait X api max_wait :
  raises_only (fun e => e <> DownloadFailed)
    (wait_for_rate_limit X api max_wait).
Proof.
  intros w e w' E. unfold wait_for_rate_limit in E.
  pose proof (wait_loop_outcome X api max_wait w
                (Z.to_nat (max_wait - 0)) 0 w (Nat.le_refl _)
                eq_refl eq_refl) as H.
  unfold sat, wait_outcome in H. rewrite E in H. cbn in H.
  destruct H as [_ [[-> | ->] _]]; discriminate.
Qed.

Lemma analyze_and_finish_no_download_error X v p :
  raises_only (fun e => e <> DownloadFailed) (analyze_and_finish X v p).
Proof.
  unfold analyze_and_finish, cleanup_stage, save_analysis_to_db,
    save_transaction, save_moment, get_of, analyze_video_with_gemini,
    parse_response, execute, execute_returning, unlink, print.
  raises_with ltac:(first
    [ solve [apply raises_only_wait]
    | solve [apply raises_only_await]
    | solve [eapply raises_only_mono; [| apply extract_stage_errors];
             intros e [->|[->|[->|[msg ->]]]]; discriminate]
    | raises_leaf ]).
Qed.

Lemma download_failed_within R `{!Frame R} X video_id video_url skip_download :
  preserves R (lookup_video X video_id video_url) ->
  (forall m, preserves R (print m)) ->
  (forall d, preserves R (mkdir d)) ->
  (forall url p, preserves R (download_stage X url p skip_download)) ->
  forall w w',
    process_video X video_id video_url skip_download w
    = (Raised DownloadFailed, w') ->
    R w w'.
Proof.
  intros Hlookup Hprint Hmkdir Hstage w w' E.
  assert (sat (process_video X video_id video_url skip_download) w
            (fun r w' =>
               match r with
               | Raised DownloadFailed => R w w'
               | _ => True
               end)) as H.
  { unfold process_video.
    assert (R w w) as Hl by apply frame_refl.
    revert Hl. generalize w at 2 3. intros w1 Hl.
    do 4 (apply (sat_frame_bind R _ _ w);
            [ solve [ apply Hlookup | apply Hprint | apply Hmkdir
                    | apply Hstage ]
            | assumption
            | intros [] ? H; solve [exact I | exact H]
            | intros ? H; exact I
            | clear dependent w1; intros ? w1 Hl ]).
    pose proof (analyze_and_finish_no_download_error X
                  (video a) (video_file X (v_id (video a))) w1) as Hn.
    unfold sat.
    destruct (analyze_and_finish X _ _ w1) as [[r|e|] w2]; cbn; auto.
    destruct e; auto. exfalso. exact (Hn _ _ eq_refl eq_refl). }
  unfold sat in H. rewrite E in H. exact H.
Qed.

Lemma download_stage_no_analysis X url p skip_download :
  preserves (emits not_analysis) (download_stage X url p skip_download).
Proof.
  unfold download_stage, download_video, write_output, print,
    wait_for_rate_limit.
  frame_with ltac:(first
    [ solve [apply preserves_wait_loop; try tc_solve;
             unfold_program; frame_with emits_leaf]
    | emits_leaf ]).
Qed.

Lemma download_stage_keeps_analysis_units X url p skip_download :
  preserves (units_kept (lit "gemini_flash"))
    (download_stage X url p skip_download).
Proof.
  intros w.
  pose proof (within_download_stage (lit "gemini_flash") X url p
                skip_download w) as H.
  unfold units_within, units_kept in *.
  change (str_eqb (lit "gemini_flash") (lit "youtube_data")) with false in H.
  cbv iota in H. lia.
Qed.

(** X20. A run of [process_video] that fails because the download failed
    has not come to the analysis: it made no call of the inference
    service, checked and consumed no quota of the analysis resource, and
    wrote nothing to the tables. *)
Theorem download_failure_costs_no_analysis
    X video_id video_url skip_download w w' :
  process_video X video_id video_url skip_download w
  = (Raised DownloadFailed, w') ->
  emits not_analysis w w'
  /\ units_kept (lit "gemini_flash") w w'
  /\ tables_kept w w'.
Proof.
  intros E. split; [| split].
  - eapply (download_failed_within (emits not_analysis)); [| | | | exact E].
    + apply lookup_emits.
    + intros m w0. eexists [_]. split; reflexivity.
    + intros d w0. eexists [_]. split; reflexivity.
    + intros url p. apply download_stage_no_analysis.
  - eapply (download_failed_within (units_kept (lit "gemini_flash")));
      [| | | | exact E].
    + apply lookup_keeps_units.
    + intros m w0. reflexivity.
    + intros d w0. reflexivity.
    + intros url p. apply download_stage_keeps_analysis_units.
  - eapply (download_failed_within tables_kept); [| | | | exact E].
    + apply lookup_keeps_tables.
    + intros m w0. unfold tables_kept. cbn. tauto.
    + intros d w0. unfold tables_kept. cbn. tauto.
    + intros url p. apply download_stage_keeps_tables.
Qed.

Lemma download_failure_costs_no_analysis_witness :
  units_kept (lit "gemini_flash") Scenario.w0
    (snd (process_video Cases.X_no_download (Some 42) None false Scenario.w0)).
Proof.
  apply (download_failure_costs_no_analysis Cases.X_no_download (Some 42) None
           false Scenario.w0
           (snd (process_video Cases.X_no_download (Some 42) None false
                   Scenario.w0))
           ltac:(vm_compute; reflexivity)).
Defined.

(** ** The messages of a batch *)









